(** * OSQP main API ([src/osqp.c]): a shallow embedding and its properties

    The file models the six entry points of [osqp.c]
    ([osqp_setup], [osqp_solve], [osqp_update_lin_cost],
    [osqp_update_lower_bound], [osqp_update_upper_bound], [osqp_cleanup])
    as programs of a small state / trace / abort monad and proves the
    properties listed in the second half.

    Conventions
    - [c_int] is [Z]; the modelled paths perform no arithmetic that can
      overflow except [n + m], taken on validated (small) dimensions.
    - [c_float] is a type parameter with the operations [osqp.c] and its
      vector helpers need; the instance used for concrete runs is IEEE
      binary64 ([PrimFloat.float]), the default [typedef double c_float].
    - a C pointer is an [option]: [None] is [OSQP_NULL]; dereferencing it
      aborts the run (undefined behaviour in C).
    - collaborators outside [osqp.c] ([aux.h], [util.h], the linear-system
      and sparse-matrix modules) are fields of the class [Collaborators];
      the compile-time switches are fields of [Build]. *)

From Stdlib Require Import ZArith Floats QArith Ascii.
From stdpp Require Import base numbers option list strings.

Local Open Scope Z_scope.

(** ** Scalar types *)

Definition c_int := Z.

(** The operations on [c_float] that the modelled code uses: the constant
    all-zero-bits value ([c_calloc]), [+] (the run time), [*]
    ([vec_ew_prod]) and the two comparisons [<] and [<=]. [a > b] is
    [b < a], as in C. *)
Class FloatOps (c_float : Type) := {
  c_zero : c_float;
  c_add : c_float → c_float → c_float;
  c_mul : c_float → c_float → c_float;
  c_lt : c_float → c_float → bool;
  c_le : c_float → c_float → bool;
}.

Definition c_gt {c_float} {ops : FloatOps c_float} (a b : c_float) : bool :=
  c_lt b a.

(** IEEE binary64, [typedef double c_float]. *)
#[export] Instance double_ops : FloatOps float := {
  c_zero := 0%float;
  c_add := PrimFloat.add;
  c_mul := PrimFloat.mul;
  c_lt := PrimFloat.ltb;
  c_le := PrimFloat.leb;
}.

(** Exact rational arithmetic, the idealisation in which scaling arguments
    are usually made. *)
#[export] Instance exact_ops : FloatOps Q := {
  c_zero := 0%Q;
  c_add := Qplus;
  c_mul := Qmult;
  c_lt := λ a b, negb (Qle_bool b a);
  c_le := Qle_bool;
}.

(** The order law used for "[lA <= uA] componentwise": [a <= b] excludes
    [a > b]. It holds for binary64 (also on NaN, where both are false). *)
Definition le_excludes_gt (c_float : Type) {ops : FloatOps c_float} : Prop :=
  ∀ a b : c_float, c_le a b = true → c_gt a b = false.

(** ** Events, aborts and the monad *)

(** Allocation sites of [osqp_setup], in program order. *)
Inductive object :=
| ObjWork | ObjTimer | ObjData
| ObjX | ObjZ | ObjU | ObjZPrev | ObjDuaResN | ObjDuaResM
| ObjPol | ObjIndLAct | ObjIndUAct | ObjA2Ared | ObjPolX | ObjPolAx
| ObjSolution | ObjSolX | ObjSolLambda
| ObjInfo.

#[export] Instance object_eq_dec : EqDecision object.
Proof. solve_decision. Defined.

(** What a run does to the outside: requests to the allocator with their
    answer, calls to the collaborators that act on the workspace, printing
    and timing. *)
Inductive event :=
| EvAlloc (what : object) (count : Z) (granted : bool)
| EvPrint (msg : string)
| EvPrintSetupHeader
| EvPrintHeader
| EvPrintSummary
| EvPrintFooter
| EvTic
| EvToc
| EvScaleData
| EvColdStart
| EvPreaVecCopy
| EvComputeRhs
| EvSolveLinSys
| EvUpdateX
| EvProjectX
| EvUpdateU
| EvUpdateInfo (iter polish : c_int)
| EvResidualsCheck (result : c_int)
| EvUpdateStatusString
| EvPolish
| EvStoreSolution.

#[export] Instance event_eq_dec : EqDecision event.
Proof. solve_decision. Defined.

(** What the pointers of a workspace point to: one block for each pointer
    that [osqp_cleanup] hands to a deallocation function, in the order of
    its calls. *)
Inductive block :=
| BlkP | BlkQ | BlkA | BlkLA | BlkUA | BlkData
| BlkD | BlkDinv | BlkE | BlkEinv | BlkScaling
| BlkPriv
| BlkIndLAct | BlkIndUAct | BlkA2Ared | BlkPolX | BlkPolAx | BlkPol
| BlkX | BlkU | BlkZ | BlkZPrev | BlkDuaResN | BlkDuaResM
| BlkSettings
| BlkSolX | BlkSolLambda | BlkSolution
| BlkInfo
| BlkTimer
| BlkWork.

#[export] Instance block_eq_dec : EqDecision block.
Proof. solve_decision. Defined.

(** A call of [osqp_cleanup] to a deallocation function: [c_free(p)],
    where [live] tells whether [p] is not null ([free] of a null pointer
    does nothing), [csc_spfree(M)] and [free_priv(p)]. *)
Inductive release :=
| CFree (b : block) (live : bool)
| CscSpfree (b : block)
| FreePriv (live : bool).

#[export] Instance release_eq_dec : EqDecision release.
Proof. solve_decision. Defined.

(** The block that a call hands over. *)
Definition released_block (r : release) : block :=
  match r with
  | CFree b _ => b
  | CscSpfree b => b
  | FreePriv _ => BlkPriv
  end.

(** Why a run stops without returning. The first two are undefined
    behaviour in C; the third is the model's loop fuel running out. *)
Inductive abort := NullDeref | OutOfBounds | OutOfFuel.

Inductive outcome (S A : Type) : Type :=
| Done (a : A) (s : S) (t : list event)
| Abort (why : abort) (t : list event).
Arguments Done {S A} a s t.
Arguments Abort {S A} why t.

Definition trace_of {S A} (o : outcome S A) : list event :=
  match o with Done _ _ t => t | Abort _ t => t end.

Definition M (S A : Type) : Type := S → outcome S A.

#[export] Instance M_ret {S} : MRet (M S) := λ A a s, Done a s [].
#[export] Instance M_bind {S} : MBind (M S) := λ A B f m s,
  match m s with
  | Done a s' t =>
      match f a s' with
      | Done b s'' t' => Done b s'' (t ++ t')
      | Abort why t' => Abort why (t ++ t')
      end
  | Abort why t => Abort why t
  end.

Definition get {S} : M S S := λ s, Done s s [].
Definition put {S} (s : S) : M S () := λ _, Done () s [].
Definition modify {S} (f : S → S) : M S () := λ s, Done () (f s) [].
Definition emit {S} (e : event) : M S () := λ s, Done () s [e].
Definition stop {S A} (why : abort) : M S A := λ _, Abort why [].

(** [*p] for a pointer [p]. *)
Definition deref {S A} (p : option A) : M S A :=
  match p with Some a => mret a | None => stop NullDeref end.

(** [if (c) body;] *)
Definition when {S} (c : bool) (body : M S ()) : M S () :=
  if c then body else mret ().

(** C truth of an integer. *)
Definition truthy (i : c_int) : bool := negb (i =? 0).

(** ** Build configuration and constants

    [PRINTLEVEL], [PROFILING] and [PRINT_INTERVAL] are preprocessor
    macros; the status codes and their texts are constants of
    [constants.h]. None of them is defined in [osqp.c]. [PRINT_INTERVAL]
    is a positive number: the remainder by it is always defined. *)
Class Build := {
  PRINTLEVEL : Z;
  PROFILING : Z;
  PRINT_INTERVAL : Z;
  OSQP_SOLVED : c_int;
  OSQP_MAX_ITER_REACHED : c_int;
  OSQP_UNSOLVED : c_int;
  status_text : c_int → string;
}.

(** Modelled from the spec: the status codes of [constants.h] (missing) are
    three different numbers ("Status codes: SOLVED, MAX_ITER_REACHED,
    UNSOLVED. Exposed numerically"). *)
Definition status_codes_distinct {build : Build} : Prop :=
  OSQP_SOLVED ≠ OSQP_MAX_ITER_REACHED ∧ OSQP_SOLVED ≠ OSQP_UNSOLVED.

Definition OSQP_NULL {A} : option A := None.

(** ** The workspace *)

Section Model.
Context {c_float : Type} {ops : FloatOps c_float}.
(** Opaque collaborator types: a CSC matrix handle, the private structure
    of the linear-system solver, a timer. *)
Context {csc Priv Timer : Type}.

(** [c_float *] and [c_int *]: a nullable block of cells. *)
Definition vec := option (list c_float).
Definition ivec := option (list c_int).

(** [Data]: the fields [osqp.c] reads and writes. *)
Record Data := {
  d_n : c_int;
  d_m : c_int;
  d_P : csc;
  d_q : vec;
  d_A : csc;
  d_lA : vec;
  d_uA : vec;
}.

(** [Settings]: the fields [osqp.c] reads or writes ([rho], [sigma],
    [alpha] and the tolerances are used by the collaborators only). *)
Record Settings := {
  s_max_iter : c_int;
  s_scaling : c_int;
  s_polishing : c_int;
  s_verbose : c_int;
  s_warm_start : c_int;
}.

Record Scaling := {
  sc_D : vec;
  sc_Dinv : vec;
  sc_E : vec;
  sc_Einv : vec;
}.

Record Polish := {
  pol_ind_lAct : ivec;
  pol_ind_uAct : ivec;
  pol_A2Ared : ivec;
  pol_x : vec;
  pol_Ax : vec;
}.

Record Solution := {
  sol_x : vec;
  sol_lambda : vec;
}.

Record Info := {
  info_iter : c_int;
  info_status : string;
  info_status_val : c_int;
  info_obj_val : c_float;
  info_pri_res : c_float;
  info_dua_res : c_float;
  info_setup_time : c_float;
  info_solve_time : c_float;
  info_polish_time : c_float;
  info_run_time : c_float;
}.

Record Work := {
  w_data : option Data;
  w_x : vec;
  w_z : vec;
  w_u : vec;
  w_z_prev : vec;
  w_dua_res_ws_n : vec;
  w_dua_res_ws_m : vec;
  w_settings : option Settings;
  w_scaling : option Scaling;
  w_priv : option Priv;
  w_pol : option Polish;
  w_solution : option Solution;
  w_info : option Info;
  w_timer : option Timer;
}.

(** Field assignments [p->f = v]. *)
Definition set_d_q (v : vec) (d : Data) : Data :=
  {| d_n := d_n d; d_m := d_m d; d_P := d_P d; d_q := v; d_A := d_A d;
     d_lA := d_lA d; d_uA := d_uA d |}.
Definition set_d_lA (v : vec) (d : Data) : Data :=
  {| d_n := d_n d; d_m := d_m d; d_P := d_P d; d_q := d_q d; d_A := d_A d;
     d_lA := v; d_uA := d_uA d |}.
Definition set_d_uA (v : vec) (d : Data) : Data :=
  {| d_n := d_n d; d_m := d_m d; d_P := d_P d; d_q := d_q d; d_A := d_A d;
     d_lA := d_lA d; d_uA := v |}.

Definition set_s_polishing (v : c_int) (s : Settings) : Settings :=
  {| s_max_iter := s_max_iter s; s_scaling := s_scaling s; s_polishing := v;
     s_verbose := s_verbose s; s_warm_start := s_warm_start s |}.

Definition set_info_status (v : string) (i : Info) : Info :=
  {| info_iter := info_iter i; info_status := v;
     info_status_val := info_status_val i; info_obj_val := info_obj_val i;
     info_pri_res := info_pri_res i; info_dua_res := info_dua_res i;
     info_setup_time := info_setup_time i;
     info_solve_time := info_solve_time i;
     info_polish_time := info_polish_time i;
     info_run_time := info_run_time i |}.
Definition set_info_status_val (v : c_int) (i : Info) : Info :=
  {| info_iter := info_iter i; info_status := info_status i;
     info_status_val := v; info_obj_val := info_obj_val i;
     info_pri_res := info_pri_res i; info_dua_res := info_dua_res i;
     info_setup_time := info_setup_time i;
     info_solve_time := info_solve_time i;
     info_polish_time := info_polish_time i;
     info_run_time := info_run_time i |}.
Definition set_info_setup_time (v : c_float) (i : Info) : Info :=
  {| info_iter := info_iter i; info_status := info_status i;
     info_status_val := info_status_val i; info_obj_val := info_obj_val i;
     info_pri_res := info_pri_res i; info_dua_res := info_dua_res i;
     info_setup_time := v;
     info_solve_time := info_solve_time i;
     info_polish_time := info_polish_time i;
     info_run_time := info_run_time i |}.
Definition set_info_solve_time (v : c_float) (i : Info) : Info :=
  {| info_iter := info_iter i; info_status := info_status i;
     info_status_val := info_status_val i; info_obj_val := info_obj_val i;
     info_pri_res := info_pri_res i; info_dua_res := info_dua_res i;
     info_setup_time := info_setup_time i;
     info_solve_time := v;
     info_polish_time := info_polish_time i;
     info_run_time := info_run_time i |}.
Definition set_info_polish_time (v : c_float) (i : Info) : Info :=
  {| info_iter := info_iter i; info_status := info_status i;
     info_status_val := info_status_val i; info_obj_val := info_obj_val i;
     info_pri_res := info_pri_res i; info_dua_res := info_dua_res i;
     info_setup_time := info_setup_time i;
     info_solve_time := info_solve_time i;
     info_polish_time := v;
     info_run_time := info_run_time i |}.
Definition set_info_run_time (v : c_float) (i : Info) : Info :=
  {| info_iter := info_iter i; info_status := info_status i;
     info_status_val := info_status_val i; info_obj_val := info_obj_val i;
     info_pri_res := info_pri_res i; info_dua_res := info_dua_res i;
     info_setup_time := info_setup_time i;
     info_solve_time := info_solve_time i;
     info_polish_time := info_polish_time i;
     info_run_time := v |}.

Definition set_w_data (v : option Data) (w : Work) : Work :=
  {| w_data := v; w_x := w_x w; w_z := w_z w; w_u := w_u w;
     w_z_prev := w_z_prev w; w_dua_res_ws_n := w_dua_res_ws_n w;
     w_dua_res_ws_m := w_dua_res_ws_m w; w_settings := w_settings w;
     w_scaling := w_scaling w; w_priv := w_priv w; w_pol := w_pol w;
     w_solution := w_solution w; w_info := w_info w;
     w_timer := w_timer w |}.
Definition set_w_x (v : vec) (w : Work) : Work :=
  {| w_data := w_data w; w_x := v; w_z := w_z w; w_u := w_u w;
     w_z_prev := w_z_prev w; w_dua_res_ws_n := w_dua_res_ws_n w;
     w_dua_res_ws_m := w_dua_res_ws_m w; w_settings := w_settings w;
     w_scaling := w_scaling w; w_priv := w_priv w; w_pol := w_pol w;
     w_solution := w_solution w; w_info := w_info w;
     w_timer := w_timer w |}.
Definition set_w_z (v : vec) (w : Work) : Work :=
  {| w_data := w_data w; w_x := w_x w; w_z := v; w_u := w_u w;
     w_z_prev := w_z_prev w; w_dua_res_ws_n := w_dua_res_ws_n w;
     w_dua_res_ws_m := w_dua_res_ws_m w; w_settings := w_settings w;
     w_scaling := w_scaling w; w_priv := w_priv w; w_pol := w_pol w;
     w_solution := w_solution w; w_info := w_info w;
     w_timer := w_timer w |}.
Definition set_w_u (v : vec) (w : Work) : Work :=
  {| w_data := w_data w; w_x := w_x w; w_z := w_z w; w_u := v;
     w_z_prev := w_z_prev w; w_dua_res_ws_n := w_dua_res_ws_n w;
     w_dua_res_ws_m := w_dua_res_ws_m w; w_settings := w_settings w;
     w_scaling := w_scaling w; w_priv := w_priv w; w_pol := w_pol w;
     w_solution := w_solution w; w_info := w_info w;
     w_timer := w_timer w |}.
Definition set_w_z_prev (v : vec) (w : Work) : Work :=
  {| w_data := w_data w; w_x := w_x w; w_z := w_z w; w_u := w_u w;
     w_z_prev := v; w_dua_res_ws_n := w_dua_res_ws_n w;
     w_dua_res_ws_m := w_dua_res_ws_m w; w_settings := w_settings w;
     w_scaling := w_scaling w; w_priv := w_priv w; w_pol := w_pol w;
     w_solution := w_solution w; w_info := w_info w;
     w_timer := w_timer w |}.
Definition set_w_dua_res_ws_n (v : vec) (w : Work) : Work :=
  {| w_data := w_data w; w_x := w_x w; w_z := w_z w; w_u := w_u w;
     w_z_prev := w_z_prev w; w_dua_res_ws_n := v;
     w_dua_res_ws_m := w_dua_res_ws_m w; w_settings := w_settings w;
     w_scaling := w_scaling w; w_priv := w_priv w; w_pol := w_pol w;
     w_solution := w_solution w; w_info := w_info w;
     w_timer := w_timer w |}.
Definition set_w_dua_res_ws_m (v : vec) (w : Work) : Work :=
  {| w_data := w_data w; w_x := w_x w; w_z := w_z w; w_u := w_u w;
     w_z_prev := w_z_prev w; w_dua_res_ws_n := w_dua_res_ws_n w;
     w_dua_res_ws_m := v; w_settings := w_settings w;
     w_scaling := w_scaling w; w_priv := w_priv w; w_pol := w_pol w;
     w_solution := w_solution w; w_info := w_info w;
     w_timer := w_timer w |}.
Definition set_w_settings (v : option Settings) (w : Work) : Work :=
  {| w_data := w_data w; w_x := w_x w; w_z := w_z w; w_u := w_u w;
     w_z_prev := w_z_prev w; w_dua_res_ws_n := w_dua_res_ws_n w;
     w_dua_res_ws_m := w_dua_res_ws_m w; w_settings := v;
     w_scaling := w_scaling w; w_priv := w_priv w; w_pol := w_pol w;
     w_solution := w_solution w; w_info := w_info w;
     w_timer := w_timer w |}.
Definition set_w_scaling (v : option Scaling) (w : Work) : Work :=
  {| w_data := w_data w; w_x := w_x w; w_z := w_z w; w_u := w_u w;
     w_z_prev := w_z_prev w; w_dua_res_ws_n := w_dua_res_ws_n w;
     w_dua_res_ws_m := w_dua_res_ws_m w; w_settings := w_settings w;
     w_scaling := v; w_priv := w_priv w; w_pol := w_pol w;
     w_solution := w_solution w; w_info := w_info w;
     w_timer := w_timer w |}.
Definition set_w_priv (v : option Priv) (w : Work) : Work :=
  {| w_data := w_data w; w_x := w_x w; w_z := w_z w; w_u := w_u w;
     w_z_prev := w_z_prev w; w_dua_res_ws_n := w_dua_res_ws_n w;
     w_dua_res_ws_m := w_dua_res_ws_m w; w_settings := w_settings w;
     w_scaling := w_scaling w; w_priv := v; w_pol := w_pol w;
     w_solution := w_solution w; w_info := w_info w;
     w_timer := w_timer w |}.
Definition set_w_pol (v : option Polish) (w : Work) : Work :=
  {| w_data := w_data w; w_x := w_x w; w_z := w_z w; w_u := w_u w;
     w_z_prev := w_z_prev w; w_dua_res_ws_n := w_dua_res_ws_n w;
     w_dua_res_ws_m := w_dua_res_ws_m w; w_settings := w_settings w;
     w_scaling := w_scaling w; w_priv := w_priv w; w_pol := v;
     w_solution := w_solution w; w_info := w_info w;
     w_timer := w_timer w |}.
Definition set_w_solution (v : option Solution) (w : Work) : Work :=
  {| w_data := w_data w; w_x := w_x w; w_z := w_z w; w_u := w_u w;
     w_z_prev := w_z_prev w; w_dua_res_ws_n := w_dua_res_ws_n w;
     w_dua_res_ws_m := w_dua_res_ws_m w; w_settings := w_settings w;
     w_scaling := w_scaling w; w_priv := w_priv w; w_pol := w_pol w;
     w_solution := v; w_info := w_info w; w_timer := w_timer w |}.
Definition set_w_info (v : option Info) (w : Work) : Work :=
  {| w_data := w_data w; w_x := w_x w; w_z := w_z w; w_u := w_u w;
     w_z_prev := w_z_prev w; w_dua_res_ws_n := w_dua_res_ws_n w;
     w_dua_res_ws_m := w_dua_res_ws_m w; w_settings := w_settings w;
     w_scaling := w_scaling w; w_priv := w_priv w; w_pol := w_pol w;
     w_solution := w_solution w; w_info := v; w_timer := w_timer w |}.
Definition set_w_timer (v : option Timer) (w : Work) : Work :=
  {| w_data := w_data w; w_x := w_x w; w_z := w_z w; w_u := w_u w;
     w_z_prev := w_z_prev w; w_dua_res_ws_n := w_dua_res_ws_n w;
     w_dua_res_ws_m := w_dua_res_ws_m w; w_settings := w_settings w;
     w_scaling := w_scaling w; w_priv := w_priv w; w_pol := w_pol w;
     w_solution := w_solution w; w_info := w_info w; w_timer := v |}.

(** ** Collaborators

    The functions [osqp.c] calls and does not define; each of them
    returns (their own allocations succeed). Those that receive [work] may
    change any of it; what they must leave alone is stated as hypotheses of
    the theorems that need it. Those that receive parts of the workspace
    only read them, [solve_lin_sys] apart.
    Of [solve_lin_sys] the specification says that it "overwrites its
    input with the solution": it yields the new content of [x]. *)
Class Collaborators := {
  (* aux.h *)
  validate_data : option Data → c_int;
  validate_settings : option Settings → c_int;
  copy_settings : option Settings → option Settings;
  cold_start : Work → Work;
  compute_rhs : Work → Work;
  update_x : Work → Work;
  project_x : Work → Work;
  update_u : Work → Work;
  update_info : Work → c_int → c_int → Work;
  residuals_check : Work → Work * c_int;
  store_solution : Work → Work;
  (* scaling, polish *)
  scale_data : Work → Work;
  polish : Work → Work;
  (* sparse matrices and vectors *)
  csc_to_triu : csc → csc;
  copy_csc_mat : csc → csc;
  vec_copy : vec → c_int → vec;
  (* linear system solver: x is overwritten with the solution *)
  init_priv : csc → csc → option Settings → c_int → option Priv;
  solve_lin_sys : option Settings → option Priv → vec → vec;
  (* util.h *)
  tic : Timer → Timer;
  toc : Timer → c_float;
}.

(** The allocator behind [c_malloc] and [c_calloc]: which requests it
    grants (by serial number), and what a granted [c_malloc] block holds
    before it is written. *)
Class Allocator := {
  grant : nat → bool;
  junk_float : nat → nat → c_float;
  junk_int : nat → nat → c_int;
  junk_timer : nat → Timer;
}.

Context {build : Build} {collab : Collaborators} {allocator : Allocator}.

(** The file-scope object that the identifier [settings] denotes inside the
    three update functions, which declare no [settings] of their own. *)
Variable settings : option Settings.

(** *** Allocation *)

(** The state of [osqp_setup]: the number of requests made so far. *)
Definition heap := nat.

Definition alloc (what : object) (count : Z) : M heap (option nat) :=
  λ k, Done (if grant k then Some k else None) (S k)
            [EvAlloc what count (grant k)].

(** [c_calloc(1, sizeof(T))] and [c_malloc(sizeof(T))] for a struct. *)
Definition c_alloc_struct {A} (what : object) (content : nat → A)
    : M heap (option A) :=
  b ← alloc what 1; mret (content <$> b).

(** [c_calloc(count, sizeof(c_float))]: zeroed cells. The counts are sums
    of the dimensions [n] and [m], which validated data has non-negative. *)
Definition c_calloc_floats (what : object) (count : Z) : M heap vec :=
  b ← alloc what count;
  mret ((λ _, replicate (Z.to_nat count) c_zero) <$> b).

(** [c_malloc(count * sizeof(c_float))]: cells with unspecified content. *)
Definition c_malloc_floats (what : object) (count : Z) : M heap vec :=
  b ← alloc what count;
  mret ((λ k, junk_float k <$> seq 0 (Z.to_nat count)) <$> b).

Definition c_malloc_ints (what : object) (count : Z) : M heap ivec :=
  b ← alloc what count;
  mret ((λ k, junk_int k <$> seq 0 (Z.to_nat count)) <$> b).

(** [c_calloc]'ed structs: every pointer null, every number zero. *)
Definition Work_zero : Work :=
  {| w_data := None; w_x := None; w_z := None; w_u := None; w_z_prev := None;
     w_dua_res_ws_n := None; w_dua_res_ws_m := None; w_settings := None;
     w_scaling := None; w_priv := None; w_pol := None; w_solution := None;
     w_info := None; w_timer := None |}.

Definition Solution_zero : Solution := {| sol_x := None; sol_lambda := None |}.

Definition Info_zero : Info :=
  {| info_iter := 0; info_status := ""; info_status_val := 0;
     info_obj_val := c_zero; info_pri_res := c_zero; info_dua_res := c_zero;
     info_setup_time := c_zero; info_solve_time := c_zero;
     info_polish_time := c_zero; info_run_time := c_zero |}.

(** *** Helpers modelled from the specification *)

(** Modelled from the spec: [prea_vec_copy(a, b, n)] (vector module, not
    under src/), "copy into pre-allocated destination":
    [for (i = 0; i < n; i++) b[i] = a[i];]. A read or write outside a block
    is [None]. *)
Fixpoint copy_cells (k i : nat) (a b : list c_float) : option (list c_float) :=
  match k with
  | O => Some b
  | S k' =>
      ai ← a !! i;
      if decide (i < length b)%nat then copy_cells k' (S i) a (<[i:=ai]> b)
      else None
  end.

Definition prea_vec_copy {S} (a b : vec) (n : c_int) : M S vec :=
  if n <=? 0 then mret b
  else
    av ← deref a;
    bv ← deref b;
    match copy_cells (Z.to_nat n) 0 av bv with
    | Some bv' => mret (Some bv')
    | None => stop OutOfBounds
    end.

(** Modelled from the spec: [vec_ew_prod(a, b, n)] (vector module, not
    under src/), "elementwise product" stored in [b]:
    [for (i = 0; i < n; i++) b[i] *= a[i];]. *)
Fixpoint scale_cells (k i : nat) (a b : list c_float) : option (list c_float) :=
  match k with
  | O => Some b
  | S k' =>
      ai ← a !! i;
      bi ← b !! i;
      scale_cells k' (S i) a (<[i:=c_mul bi ai]> b)
  end.

Definition vec_ew_prod {S} (a b : vec) (n : c_int) : M S vec :=
  if n <=? 0 then mret b
  else
    av ← deref a;
    bv ← deref b;
    match scale_cells (Z.to_nat n) 0 av bv with
    | Some bv' => mret (Some bv')
    | None => stop OutOfBounds
    end.

(** Modelled from the spec: [update_status_string(info)] (aux.h, not under
    src/) refreshes the text of the status from [info->status_val] and
    touches nothing else; the text of each code is [status_text]. *)
Definition update_status_string (i : Info) : Info :=
  set_info_status (status_text (info_status_val i)) i.

(** [c_print]. *)
Definition c_print {S} (msg : string) : M S () := emit (EvPrint msg).

Definition endl : string := String "010"%char EmptyString.

(** ** [osqp_setup] (osqp.c, lines 24-131) *)

Definition osqp_setup (data : option Data) (settings : option Settings)
    : M heap (option Work) :=
  (* Validate data *)
  if truthy (validate_data data) then
    when (0 <? PRINTLEVEL)
      (c_print ("ERROR: Data validation returned failure!" +:+ endl));;
    mret OSQP_NULL
  else
  (* Validate settings *)
  if truthy (validate_settings settings) then
    when (0 <? PRINTLEVEL)
      (c_print ("ERROR: Settings validation returned failure!" +:+ endl));;
    mret OSQP_NULL
  else
  (* Allocate empty workspace *)
  work ← c_alloc_struct ObjWork (λ _, Work_zero);
  match work with
  | None =>
      (* if (!work): the message is the whole body, the function goes on *)
      when (0 <? PRINTLEVEL)
        (c_print ("ERROR: allocating work failure!" +:+ endl))
  | Some _ => mret ()
  end;;
  (* Start and allocate directly timer *)
  work ← (if 0 <? PROFILING then
            tm ← c_alloc_struct ObjTimer junk_timer;
            w ← deref work;
            let w := set_w_timer tm w in
            t ← deref (w_timer w);
            emit EvTic;;
            mret (Some (set_w_timer (Some (tic t)) w))
          else mret work);
  (* Copy problem data into workspace *)
  dp ← alloc ObjData 1;
  w ← deref work;
  _ ← deref dp;
  din ← deref data;
  let d := {| d_n := d_n din;
              d_m := d_m din;
              d_P := csc_to_triu (d_P din);
              d_q := vec_copy (d_q din) (d_n din);
              d_A := copy_csc_mat (d_A din);
              d_lA := vec_copy (d_lA din) (d_m din);
              d_uA := vec_copy (d_uA din) (d_m din) |} in
  let w := set_w_data (Some d) w in
  (* Initialize x,z,u to zero *)
  x ← c_calloc_floats ObjX (d_n d + d_m d);
  let w := set_w_x x w in
  z ← c_calloc_floats ObjZ (d_n d + d_m d);
  let w := set_w_z z w in
  u ← c_calloc_floats ObjU (d_m d);
  let w := set_w_u u w in
  z_prev ← c_malloc_floats ObjZPrev (d_n d + d_m d);
  let w := set_w_z_prev z_prev w in
  ws_n ← c_malloc_floats ObjDuaResN (d_n d);
  let w := set_w_dua_res_ws_n ws_n w in
  ws_m ← c_malloc_floats ObjDuaResM (d_m d);
  let w := set_w_dua_res_ws_m ws_m w in
  (* Copy settings *)
  let w := set_w_settings (copy_settings settings) w in
  w ← (if d_m d =? 0 then
         (* If no constraints->disable polishing *)
         s ← deref (w_settings w);
         mret (set_w_settings (Some (set_s_polishing 0 s)) w)
       else mret w);
  (* Perform scaling *)
  sin ← deref settings;
  w ← (if truthy (s_scaling sin) then
         emit EvScaleData;;
         mret (scale_data w)
       else mret (set_w_scaling OSQP_NULL w));
  (* Initialize linear system solver private structure *)
  d ← deref (w_data w);
  let w := set_w_priv (init_priv (d_P d) (d_A d) (w_settings w) 0) w in
  (* Initialize active constraints structure *)
  pp ← alloc ObjPol 1;
  ind_lAct ← c_malloc_ints ObjIndLAct (d_m d);
  _ ← deref pp;
  ind_uAct ← c_malloc_ints ObjIndUAct (d_m d);
  A2Ared ← c_malloc_ints ObjA2Ared (d_m d);
  px ← c_malloc_floats ObjPolX (d_n d);
  pAx ← c_malloc_floats ObjPolAx (d_m d);
  let w := set_w_pol (Some {| pol_ind_lAct := ind_lAct;
                              pol_ind_uAct := ind_uAct;
                              pol_A2Ared := A2Ared;
                              pol_x := px;
                              pol_Ax := pAx |}) w in
  (* Allocate solution *)
  sp ← c_alloc_struct ObjSolution (λ _, Solution_zero);
  sx ← c_calloc_floats ObjSolX (d_n d);
  _ ← deref sp;
  sl ← c_calloc_floats ObjSolLambda (d_m d);
  let w := set_w_solution (Some {| sol_x := sx; sol_lambda := sl |}) w in
  (* Allocate information *)
  ip ← c_alloc_struct ObjInfo (λ _, Info_zero);
  i ← deref ip;
  let i := set_info_status_val OSQP_UNSOLVED i in
  emit EvUpdateStatusString;;
  let i := update_status_string i in
  (* Allocate timing information *)
  i ← (if 0 <? PROFILING then
         let i := set_info_solve_time c_zero i in
         let i := set_info_polish_time c_zero i in
         let i := set_info_run_time c_zero i in
         t ← deref (w_timer w);
         emit EvToc;;
         mret (set_info_setup_time (toc t) i)
       else mret i);
  let w := set_w_info (Some i) w in
  (* Print header *)
  (if 1 <? PRINTLEVEL then
     s ← deref (w_settings w);
     when (truthy (s_verbose s)) (emit EvPrintSetupHeader)
   else mret ());;
  mret (Some w).

(** ** [osqp_solve] (osqp.c, lines 146-236) *)

(** A call [f(work)] of a collaborator. *)
Definition call (e : event) (f : Work → Work) : M Work () :=
  emit e;; modify f.

(** The body of the [for] loop (lines 167-196), up to the test of
    [residuals_check], whose result it returns. *)
Definition admm_iteration (iter : c_int) : M Work c_int :=
  (* Update z_prev (preallocated, no malloc) *)
  w ← get;
  d ← deref (w_data w);
  emit EvPreaVecCopy;;
  z_prev ← prea_vec_copy (w_z w) (w_z_prev w) (d_n d + d_m d);
  put (set_w_z_prev z_prev w);;
  (* First step: x_{k+1} *)
  call EvComputeRhs compute_rhs;;
  emit EvSolveLinSys;;
  modify (λ w, set_w_x (solve_lin_sys (w_settings w) (w_priv w) (w_x w)) w);;
  call EvUpdateX update_x;;
  (* Second step: z_{k+1} *)
  call EvProjectX project_x;;
  (* Third step: u_{k+1} *)
  call EvUpdateU update_u;;
  (* Update information *)
  call (EvUpdateInfo iter 0) (λ w, update_info w iter 0);;
  (* Print summary *)
  (if 1 <? PRINTLEVEL then
     w ← get;
     s ← deref (w_settings w);
     when (truthy (s_verbose s) && (Z.rem iter PRINT_INTERVAL =? 0))
       (emit EvPrintSummary)
   else mret ());;
  w ← get;
  let '(w', r) := residuals_check w in
  emit (EvResidualsCheck r);;
  put w';;
  mret r.

(** [for (iter = 0; iter < work->settings->max_iter; iter ++) { ...; if
    (residuals_check(work)) break; }]: the bound is read again at every
    test. The result is the value of [iter] when the loop is left. [fuel]
    bounds the number of iterations of the model. *)
Fixpoint admm_loop (fuel : nat) (iter : c_int) : M Work c_int :=
  w ← get;
  s ← deref (w_settings w);
  if iter <? s_max_iter s then
    match fuel with
    | O => stop OutOfFuel
    | S fuel' =>
        r ← admm_iteration iter;
        if truthy r then mret iter (* Terminate algorithm *)
        else admm_loop fuel' (iter + 1)
    end
  else mret iter.

(** Lines 147-198: from the entry to the exit of the loop. *)
Definition solve_admm (fuel : nat) : M Work c_int :=
  when (0 <? PROFILING)
    (w ← get;
     t ← deref (w_timer w);
     emit EvTic;;
     put (set_w_timer (Some (tic t)) w));;
  (if 1 <? PRINTLEVEL then
     w ← get;
     s ← deref (w_settings w);
     when (truthy (s_verbose s)) (emit EvPrintHeader)
   else mret ());;
  (* Initialize variables (cold start or warm start depending on settings) *)
  w ← get;
  s ← deref (w_settings w);
  when (negb (truthy (s_warm_start s))) (call EvColdStart cold_start);;
  (* Main ADMM algorithm *)
  admm_loop fuel 0.

(** Lines 201-235: from the exit of the loop to [return exitflag]. *)
Definition solve_finish (exitflag iter : c_int) : M Work c_int :=
  (* Print summary for last iteration *)
  (if 1 <? PRINTLEVEL then
     w ← get;
     s ← deref (w_settings w);
     when (truthy (s_verbose s) && negb (Z.rem iter PRINT_INTERVAL =? 0))
       (emit EvPrintSummary)
   else mret ());;
  (* Update final status *)
  w ← get;
  i ← deref (w_info w);
  emit EvUpdateStatusString;;
  put (set_w_info (Some (update_status_string i)) w);;
  (* Update solve time *)
  when (0 <? PROFILING)
    (w ← get;
     i ← deref (w_info w);
     t ← deref (w_timer w);
     emit EvToc;;
     put (set_w_info (Some (set_info_solve_time (toc t) i)) w));;
  (* Polish the obtained solution *)
  w ← get;
  s ← deref (w_settings w);
  c ← (if truthy (s_polishing s) then
         i ← deref (w_info w);
         mret (info_status_val i =? OSQP_SOLVED)
       else mret false);
  when c (call EvPolish polish);;
  (* Update total time: setup + solve + polish *)
  when (0 <? PROFILING)
    (w ← get;
     i ← deref (w_info w);
     put (set_w_info
            (Some (set_info_run_time
                     (c_add (c_add (info_setup_time i) (info_solve_time i))
                            (info_polish_time i)) i)) w));;
  (* Print final footer *)
  when (0 <? PRINTLEVEL)
    (w ← get;
     _ ← deref (w_settings w);
     emit EvPrintFooter);;
  (* Store solution *)
  call EvStoreSolution store_solution;;
  mret exitflag.

Definition osqp_solve (fuel : nat) : M Work c_int :=
  let exitflag := 0 in
  iter ← solve_admm fuel;
  solve_finish exitflag iter.

(** ** The update functions (osqp.c, lines 244-309) *)

Definition osqp_update_lin_cost (q_new : vec) : M Work c_int :=
  let exitflag := 0 in
  (* Replace q by the new vector *)
  w ← get;
  d ← deref (w_data w);
  q ← prea_vec_copy q_new (d_q d) (d_n d);
  let d := set_d_q q d in
  put (set_w_data (Some d) w);;
  (* Scaling *)
  g ← deref settings;
  (if truthy (s_scaling g) then
     w ← get;
     sc ← deref (w_scaling w);
     q ← vec_ew_prod (sc_D sc) (d_q d) (d_n d);
     put (set_w_data (Some (set_d_q q d)) w)
   else mret ());;
  mret exitflag.

(** [for (i = 0; i < m; i++) if (lA[i] > uA[i]) return 1;] followed by
    [return 0;], with [k] iterations left and the index at [i]. *)
Fixpoint lower_bound_check (k i : nat) (lA uA : list c_float) : option c_int :=
  match k with
  | O => Some 0
  | S k' =>
      l ← lA !! i;
      u ← uA !! i;
      if c_gt l u then Some 1 else lower_bound_check k' (S i) lA uA
  end.

(** [for (i = 0; i < m; i++) if (uA[i] < lA[i]) return 1;] followed by
    [return 0;]. *)
Fixpoint upper_bound_check (k i : nat) (lA uA : list c_float) : option c_int :=
  match k with
  | O => Some 0
  | S k' =>
      u ← uA !! i;
      l ← lA !! i;
      if c_lt u l then Some 1 else upper_bound_check k' (S i) lA uA
  end.

(** The loop on the blocks [work->data->lA] and [work->data->uA]; with
    [m <= 0] nothing is read. *)
Definition check_bounds
    (check : nat → nat → list c_float → list c_float → option c_int)
    (m : c_int) (lA uA : vec) : M Work c_int :=
  if m <=? 0 then mret 0
  else
    lv ← deref lA;
    uv ← deref uA;
    match check (Z.to_nat m) 0%nat lv uv with
    | Some flag => mret flag
    | None => stop OutOfBounds
    end.

Definition osqp_update_lower_bound (lA_new : vec) : M Work c_int :=
  (* Replace lA by the new vector *)
  w ← get;
  d ← deref (w_data w);
  lA ← prea_vec_copy lA_new (d_lA d) (d_m d);
  let d := set_d_lA lA d in
  put (set_w_data (Some d) w);;
  (* Scaling *)
  g ← deref settings;
  (if truthy (s_scaling g) then
     w ← get;
     sc ← deref (w_scaling w);
     lA ← vec_ew_prod (sc_E sc) (d_lA d) (d_m d);
     put (set_w_data (Some (set_d_lA lA d)) w)
   else mret ());;
  (* Check if lower bound is smaller than upper bound *)
  w ← get;
  d ← deref (w_data w);
  check_bounds lower_bound_check (d_m d) (d_lA d) (d_uA d).

Definition osqp_update_upper_bound (uA_new : vec) : M Work c_int :=
  (* Replace uA by the new vector *)
  w ← get;
  d ← deref (w_data w);
  uA ← prea_vec_copy uA_new (d_uA d) (d_m d);
  let d := set_d_uA uA d in
  put (set_w_data (Some d) w);;
  (* Scaling *)
  g ← deref settings;
  (if truthy (s_scaling g) then
     w ← get;
     sc ← deref (w_scaling w);
     uA ← vec_ew_prod (sc_E sc) (d_uA d) (d_m d);
     put (set_w_data (Some (set_d_uA uA d)) w)
   else mret ());;
  (* Check if upper bound is greater than lower bound *)
  w ← get;
  d ← deref (w_data w);
  check_bounds upper_bound_check (d_m d) (d_lA d) (d_uA d).

(** ** [osqp_cleanup] (osqp.c, lines 317-376) *)

(** The state of [osqp_cleanup] is the list of the calls it has made to the
    deallocation functions, the latest last. The workspace itself is only
    read: a pointer keeps its value when its block is released. *)
Definition non_null {A} (p : option A) : bool :=
  match p with Some _ => true | None => false end.

Definition c_free {A} (b : block) (p : option A) : M (list release) () :=
  modify (λ log, log ++ [CFree b (non_null p)]).

Definition csc_spfree (b : block) (mat : csc) : M (list release) () :=
  modify (λ log, log ++ [CscSpfree b]).

Definition free_priv (p : option Priv) : M (list release) () :=
  modify (λ log, log ++ [FreePriv (non_null p)]).

(** [work] is dereferenced by the first statement and is the same pointer
    in all of them; [work->data], [work->scaling], [work->pol] and
    [work->solution] are dereferenced by every statement that names one of
    their members. *)
Definition osqp_cleanup (work : option Work) : M (list release) c_int :=
  let exitflag := 0 in
  w ← deref work;
  (* Free Data *)
  d ← deref (w_data w); csc_spfree BlkP (d_P d);;
  d ← deref (w_data w); c_free BlkQ (d_q d);;
  d ← deref (w_data w); csc_spfree BlkA (d_A d);;
  d ← deref (w_data w); c_free BlkLA (d_lA d);;
  d ← deref (w_data w); c_free BlkUA (d_uA d);;
  c_free BlkData (w_data w);;
  (* Free scaling *)
  s ← deref (w_settings w);
  (if truthy (s_scaling s) then
     sc ← deref (w_scaling w); c_free BlkD (sc_D sc);;
     sc ← deref (w_scaling w); c_free BlkDinv (sc_Dinv sc);;
     sc ← deref (w_scaling w); c_free BlkE (sc_E sc);;
     sc ← deref (w_scaling w); c_free BlkEinv (sc_Einv sc);;
     c_free BlkScaling (w_scaling w)
   else mret ());;
  (* Free private structure for linear system solver_solution *)
  free_priv (w_priv w);;
  (* Free active constraints structure *)
  p ← deref (w_pol w); c_free BlkIndLAct (pol_ind_lAct p);;
  p ← deref (w_pol w); c_free BlkIndUAct (pol_ind_uAct p);;
  p ← deref (w_pol w); c_free BlkA2Ared (pol_A2Ared p);;
  p ← deref (w_pol w); c_free BlkPolX (pol_x p);;
  p ← deref (w_pol w); c_free BlkPolAx (pol_Ax p);;
  c_free BlkPol (w_pol w);;
  (* Free work Variables *)
  c_free BlkX (w_x w);;
  c_free BlkU (w_u w);;
  c_free BlkZ (w_z w);;
  c_free BlkZPrev (w_z_prev w);;
  c_free BlkDuaResN (w_dua_res_ws_n w);;
  c_free BlkDuaResM (w_dua_res_ws_m w);;
  (* Free Settings *)
  c_free BlkSettings (w_settings w);;
  (* Free solution *)
  so ← deref (w_solution w); c_free BlkSolX (sol_x so);;
  so ← deref (w_solution w); c_free BlkSolLambda (sol_lambda so);;
  c_free BlkSolution (w_solution w);;
  (* Free information *)
  c_free BlkInfo (w_info w);;
  (* Free timer *)
  when (0 <? PROFILING) (c_free BlkTimer (w_timer w));;
  (* Free work *)
  c_free BlkWork work;;
  mret exitflag.

End Model.

(** ** Vocabulary of the statements *)

(** [wp ab m s Q]: the run of [m] from [s] returns and its result, final
    state and trace satisfy [Q], or it aborts and [ab] holds. With
    [ab := False] the run returns; with [ab := True] nothing is said about
    aborted runs. *)
Definition wp {S A} (ab : Prop) (m : M S A) (s : S)
    (Q : A → S → list event → Prop) : Prop :=
  match m s with Done a s' t => Q a s' t | Abort _ _ => ab end.

Section Vocabulary.
Context {c_float : Type} {ops : FloatOps c_float} {csc Priv Timer : Type}.
Context {build : Build} {collab : @Collaborators c_float csc Priv Timer}.
Implicit Types (w : @Work c_float csc Priv Timer) (d : @Data c_float csc).
Implicit Types (a b v e lA uA : list c_float) (g sin : Settings).
Implicit Types din : @Data c_float csc.

(** The workspace holds the problem data [d], with blocks of [d_m d] cells
    for the two bounds. *)
Definition bounds_ready w d lA uA : Prop :=
  w_data w = Some d ∧ d_lA d = Some lA ∧ d_uA d = Some uA ∧
  length lA = Z.to_nat (d_m d) ∧ length uA = Z.to_nat (d_m d).

(** The test of [settings->scaling] in an update function can be
    evaluated ([settings] points to [g]) and, when it holds, the block
    [which] of [work->scaling] has [n] cells [e]. *)
Definition scaling_ready (settings : option Settings) w g
    (which : @Scaling c_float → vec) e (n : c_int) : Prop :=
  settings = Some g ∧
  (truthy (s_scaling g) = true →
   ∃ sc, w_scaling w = Some sc ∧ which sc = Some e ∧
         length e = Z.to_nat n).

(** [v] as an update stores it: multiplied cell by cell by [e] when the
    scaling test holds. *)
Definition rescale (on : bool) e v : list c_float :=
  if on then zip_with c_mul v e else v.

(** Some cell of [a] is above its cell of [b]. *)
Definition violation a b : Prop :=
  ∃ i x y, a !! i = Some x ∧ b !! i = Some y ∧ c_gt x y = true.

(** [a <= b] componentwise. *)
Definition all_le a b : Prop := Forall2 (λ x y, c_le x y = true) a b.

(** Multiplying by the cells of [e] leaves the comparison of the cells of
    [a] and [b] as it is. *)
Definition scaling_exact e a b : Prop :=
  ∀ i s x y, e !! i = Some s → a !! i = Some x → b !! i = Some y →
             c_gt (c_mul x s) (c_mul y s) = c_gt x y.

(** Every cell of [e] is strictly positive. *)
Definition positive e : Prop := Forall (λ s, c_lt c_zero s = true) e.

(** Modelled from the spec: [scale_data] (scaling module, not under src/)
    "produces diagonal scalings D and E applied to P, q, A, lA, uA": of the
    workspace it writes the data and the scaling, and it keeps the data. *)
Definition scale_data_frame : Prop :=
  ∀ w, w_settings (scale_data w) = w_settings w ∧
       w_x (scale_data w) = w_x w ∧ w_z (scale_data w) = w_z w ∧
       w_u (scale_data w) = w_u w ∧ w_timer (scale_data w) = w_timer w ∧
       (is_Some (w_data w) → is_Some (w_data (scale_data w))).

(** A block of [count] zero cells, or no block when the allocator refused
    it. *)
Definition zero_or_null (count : c_int) (v : @vec c_float) : Prop :=
  v = None ∨ v = Some (replicate (Z.to_nat count) c_zero).

(** The arguments of a call of [osqp_setup] that passes both validations:
    [data] and [settings] point to [din] and [sin], and [copy_settings]
    returns a copy. *)
Definition setup_inputs_ok (data : option (@Data c_float csc))
    (settings : option Settings) din sin : Prop :=
  data = Some din ∧ settings = Some sin ∧
  validate_data data = 0 ∧ validate_settings settings = 0 ∧
  is_Some (copy_settings settings).

(** What [osqp_solve] dereferences is there: the settings, the info, the
    timer when profiling is compiled in, the data, and blocks [z] and
    [z_prev] of [n + m] cells. *)
Definition solve_ready w : Prop :=
  is_Some (w_settings w) ∧ is_Some (w_info w) ∧
  ((0 <? PROFILING) = true → is_Some (w_timer w)) ∧
  ∃ d zv zp, w_data w = Some d ∧ w_z w = Some zv ∧ w_z_prev w = Some zp ∧
             length zv = Z.to_nat (d_n d + d_m d) ∧
             length zp = Z.to_nat (d_n d + d_m d).

(** [w] is ready and has the settings of [w0]. *)
Definition ready_like w0 w : Prop :=
  solve_ready w ∧ w_settings w = w_settings w0.

(** [f] leaves the settings of a ready workspace as they are and leaves
    it ready. *)
Definition keeps_ready (f : @Work c_float csc Priv Timer → Work) : Prop :=
  ∀ w, solve_ready w → ready_like w (f w).

(** Modelled from the spec: the collaborators that [osqp_solve] calls on
    the workspace (aux.h and polish, not under src/) leave its settings as
    they are ("Settings (immutable after setup ...)") and keep what the
    workspace owns in place ("The workspace exclusively owns all interior
    buffers"). *)
Definition solve_contract : Prop :=
  keeps_ready cold_start ∧ keeps_ready compute_rhs ∧ keeps_ready update_x ∧
  keeps_ready project_x ∧ keeps_ready update_u ∧
  (∀ iter p, keeps_ready (λ w, update_info w iter p)) ∧
  keeps_ready (λ w, (residuals_check w).1) ∧ keeps_ready polish.

(** The calls of one iteration of the loop, numbered [iter], whose
    termination check returned [r]. *)
Definition admm_steps (iter r : c_int) : list event :=
  [EvPreaVecCopy; EvComputeRhs; EvSolveLinSys; EvUpdateX; EvProjectX;
   EvUpdateU; EvUpdateInfo iter 0; EvResidualsCheck r].

(** The calls of consecutive iterations, numbered from [iter], with the
    results [rs] of their termination checks. *)
Fixpoint admm_trace (iter : c_int) (rs : list c_int) : list event :=
  match rs with
  | [] => []
  | r :: rs' => admm_steps iter r ++ admm_trace (iter + 1) rs'
  end.

(** The events that are steps of an iteration, as opposed to printing,
    timing and the calls around the loop. *)
Definition is_admm_step (e : event) : bool :=
  match e with
  | EvPreaVecCopy | EvComputeRhs | EvSolveLinSys | EvUpdateX | EvProjectX
  | EvUpdateU | EvUpdateInfo _ _ | EvResidualsCheck _ => true
  | _ => false
  end.

(** A trace without its calls of [print_summary]. *)
Definition is_print_summary (e : event) : bool :=
  match e with EvPrintSummary => true | _ => false end.

Definition without_summary (t : list event) : list event :=
  List.filter (λ ev : event, negb (is_print_summary ev)) t.

(** The call of [polish]. *)
Definition is_polish (e : event) : bool :=
  match e with EvPolish => true | _ => false end.

(** In the results [rs] of the termination checks of a loop bounded by
    [max_iter]: a check that passes is the last one, and the loop stops
    short of [max_iter] iterations only on a check that passes. *)
Definition exits_on_first_pass (max_iter : c_int) (rs : list c_int) : Prop :=
  (∀ k r, rs !! k = Some r → r ≠ 0 → S k = length rs) ∧
  (Z.of_nat (length rs) < max_iter → ∃ r, last rs = Some r ∧ r ≠ 0).

(** The workspace holds the problem data [d], with a block of [d_n d]
    cells for the linear cost. *)
Definition cost_ready w d (q : list c_float) : Prop :=
  w_data w = Some d ∧ d_q d = Some q ∧ length q = Z.to_nat (d_n d).

(** *** What [osqp_solve] does to the workspace

    The steps of [osqp_solve] as functions on the workspace, in the words
    of the specification; the theorems on [osqp_solve] compare the run of
    the program with them. *)

(** One iteration, step by step: [z] is copied into [z_prev], the
    right-hand side is assembled, the linear system is solved into [x],
    then come [update_x], [project_x] (the projection of [z]), [update_u]
    and [update_info]; the termination check is last, and its result is
    returned with the workspace it leaves. *)
Definition iteration_effect (iter : c_int) w : Work * c_int :=
  let w := set_w_z_prev (w_z w) w in
  let w := compute_rhs w in
  let w := set_w_x (solve_lin_sys (w_settings w) (w_priv w) (w_x w)) w in
  let w := update_x w in
  let w := project_x w in
  let w := update_u w in
  let w := update_info w iter 0 in
  residuals_check w.

(** At most [k] iterations, numbered from [iter], stopped by the first
    termination check that passes: the workspace that is left and the
    results of the checks. *)
Fixpoint loop_effect (k : nat) (iter : c_int) w : Work * list c_int :=
  match k with
  | O => (w, [])
  | S k' =>
      let '(w', r) := iteration_effect iter w in
      if truthy r then (w', [r])
      else let '(w'', rs) := loop_effect k' (iter + 1) w' in (w'', r :: rs)
  end.

(** The workspace at the entry of the loop: the timer is started when
    profiling is compiled in, and the iterates are reset by [cold_start]
    unless the settings ask for a warm start. *)
Definition loop_entry w : Work :=
  let w := if 0 <? PROFILING then set_w_timer (tic <$> w_timer w) w else w in
  match w_settings w with
  | Some s => if truthy (s_warm_start s) then w else cold_start w
  | None => w
  end.

(** The workspace at the test of line 216, from the one the loop left:
    the text of the status is refreshed and, when profiling is compiled
    in, the solve time is read off the timer. *)
Definition before_polish w : Work :=
  let w := set_w_info (update_status_string <$> w_info w) w in
  if 0 <? PROFILING then
    match w_timer w with
    | Some t => set_w_info (set_info_solve_time (toc t) <$> w_info w) w
    | None => w
    end
  else w.

(** What follows the polish step (lines 220-233): the run time is summed
    up when profiling is compiled in, and the solution is stored. *)
Definition after_polish w : Work :=
  let w :=
    if 0 <? PROFILING then
      set_w_info
        ((λ i, set_info_run_time
                 (c_add (c_add (info_setup_time i) (info_solve_time i))
                        (info_polish_time i)) i) <$> w_info w) w
    else w in
  store_solution w.

End Vocabulary.

(** ** A reference configuration

    Binary64 cells, dense matrices and a small set of collaborators, on
    which the model runs: scenarios S1 (n = 1, m = 0, P = [[4]],
    q = [-8]) and S2 (n = 1, m = 1, P = [[2]], q = [0], A = [[1]],
    lA = [1], uA = [3]) of the specification. The collaborators are
    stand-ins: the check passes at the second iteration, and scaling uses
    the fixed factors D = 2 and E = 1/2. *)

Definition dense := list (list float).

Definition ref_build : Build :=
  {| PRINTLEVEL := 2; PROFILING := 1; PRINT_INTERVAL := 100;
     OSQP_SOLVED := 1; OSQP_MAX_ITER_REACHED := -2; OSQP_UNSOLVED := -10;
     status_text := λ c,
       if c =? 1 then "Solved"
       else if c =? -2 then "Maximum Iterations Reached"
       else "Unsolved" |}.

Definition ref_validate_data (data : option (@Data float dense)) : c_int :=
  match data with
  | Some d => if (0 <? d_n d) && (0 <=? d_m d) then 0 else 1
  | None => 1
  end.

Definition ref_validate_settings (st : option Settings) : c_int :=
  match st with
  | Some s => if 0 <? s_max_iter s then 0 else 1
  | None => 1
  end.

Definition ref_zero (v : @vec float) : vec :=
  (λ l, replicate (length l) 0%float) <$> v.

Definition ref_cold_start (w : @Work float dense () float) : Work :=
  set_w_u (ref_zero (w_u w))
    (set_w_z (ref_zero (w_z w)) (set_w_x (ref_zero (w_x w)) w)).

Definition ref_set_iter (k : c_int) (i : @Info float) : Info :=
  {| info_iter := k; info_status := info_status i;
     info_status_val := info_status_val i; info_obj_val := info_obj_val i;
     info_pri_res := info_pri_res i; info_dua_res := info_dua_res i;
     info_setup_time := info_setup_time i;
     info_solve_time := info_solve_time i;
     info_polish_time := info_polish_time i;
     info_run_time := info_run_time i |}.

Definition ref_update_info (w : @Work float dense () float)
    (iter polish : c_int) : Work :=
  match w_info w with
  | Some i => set_w_info (Some (ref_set_iter (iter + 1) i)) w
  | None => w
  end.

Definition ref_residuals_check (w : @Work float dense () float)
    : Work * c_int :=
  match w_info w, w_settings w with
  | Some i, Some s =>
      if 2 <=? info_iter i then
        (set_w_info
           (Some (set_info_status_val (OSQP_SOLVED (Build := ref_build)) i))
           w, 1)
      else if info_iter i =? s_max_iter s then
        (set_w_info
           (Some (set_info_status_val
                    (OSQP_MAX_ITER_REACHED (Build := ref_build)) i))
           w, 0)
      else (w, 0)
  | _, _ => (w, 0)
  end.

Definition ref_times (k : float) (v : @vec float) : vec :=
  (λ l, zip_with PrimFloat.mul l (replicate (length l) k)) <$> v.

Definition ref_scale_data (w : @Work float dense () float) : Work :=
  match w_data w with
  | Some d =>
      let n := Z.to_nat (d_n d) in
      let m := Z.to_nat (d_m d) in
      let d' := set_d_uA (ref_times 0.5 (d_uA d))
                  (set_d_lA (ref_times 0.5 (d_lA d))
                     (set_d_q (ref_times 2 (d_q d)) d)) in
      set_w_scaling
        (Some {| sc_D := Some (replicate n 2%float);
                 sc_Dinv := Some (replicate n 0.5%float);
                 sc_E := Some (replicate m 0.5%float);
                 sc_Einv := Some (replicate m 2%float) |})
        (set_w_data (Some d') w)
  | None => w
  end.

Definition ref_collaborators
    : @Collaborators float dense () float :=
  {| validate_data := ref_validate_data;
     validate_settings := ref_validate_settings;
     copy_settings := λ st, st;
     cold_start := ref_cold_start;
     compute_rhs := λ w, w;
     update_x := λ w, w;
     project_x := λ w, w;
     update_u := λ w, w;
     update_info := ref_update_info;
     residuals_check := ref_residuals_check;
     store_solution := λ w, w;
     scale_data := ref_scale_data;
     polish := λ w, w;
     csc_to_triu := λ P, P;
     copy_csc_mat := λ A, A;
     vec_copy := λ v n, take (Z.to_nat n) <$> v;
     init_priv := λ _ _ _ _, Some ();
     solve_lin_sys := λ _ _ x, x;
     tic := λ t, t;
     toc := λ t, t |}.

(** An allocator that grants every request, and one that refuses the
    first. *)
Definition ref_allocator : @Allocator float float :=
  {| grant := λ _, true; junk_float := λ _ _, 0%float;
     junk_int := λ _ _, 0; junk_timer := λ _, 0%float |}.

Definition ref_allocator_short : @Allocator float float :=
  {| grant := λ k, negb (k =? 0)%nat; junk_float := λ _ _, 0%float;
     junk_int := λ _ _, 0; junk_timer := λ _, 0%float |}.

Definition s1_data : @Data float dense :=
  {| d_n := 1; d_m := 0; d_P := [[4%float]]; d_q := Some [(-8)%float];
     d_A := []; d_lA := Some []; d_uA := Some [] |}.

Definition s2_data : @Data float dense :=
  {| d_n := 1; d_m := 1; d_P := [[2%float]]; d_q := Some [0%float];
     d_A := [[1%float]]; d_lA := Some [1%float]; d_uA := Some [3%float] |}.

Definition s2_settings : Settings :=
  {| s_max_iter := 10; s_scaling := 1; s_polishing := 1; s_verbose := 1;
     s_warm_start := 0 |}.

(** Settings with scaling off, for the file-scope [settings]. *)
Definition unscaled_settings : Settings :=
  {| s_max_iter := 10; s_scaling := 0; s_polishing := 1; s_verbose := 1;
     s_warm_start := 0 |}.

(** The workspace that [osqp_setup] returns for S2. *)
Definition s2_work : @Work float dense () float :=
  Eval vm_compute in
    match osqp_setup (build := ref_build) (collab := ref_collaborators)
            (allocator := ref_allocator) (Some s2_data) (Some s2_settings)
            0%nat with
    | Done (Some w) _ _ => w
    | _ => Work_zero
    end.

(** Its data (the bounds of S2 times 1/2) and its scaling. *)
Definition s2_scaled_data : @Data float dense :=
  Eval vm_compute in
    match w_data s2_work with Some d => d | None => s2_data end.

Definition s2_scaling : @Scaling float :=
  {| sc_D := Some [2%float]; sc_Dinv := Some [0.5%float];
     sc_E := Some [0.5%float]; sc_Einv := Some [2%float] |}.

(** A workspace scaled by E = 0.1 whose upper bound 3 is stored scaled;
    every cell of E is positive. *)
Definition tenth : float := 0x1.999999999999ap-4%float.

(** The next double above 3. *)
Definition above_three : float := 0x1.8000000000001p+1%float.

Definition tenth_work : @Work float dense () float :=
  set_w_scaling
    (Some {| sc_D := Some [1%float]; sc_Dinv := Some [1%float];
             sc_E := Some [tenth]; sc_Einv := Some [10%float] |})
    (set_w_data
       (Some (set_d_uA (Some [(3 * tenth)%float])
                (set_d_lA (Some [(1 * tenth)%float]) s2_data)))
       s2_work).

(** ** Vocabulary of the further properties *)

(** [wpa m s Q E]: the run of [m] from [s] returns with a result, a final
    state and a trace that satisfy [Q], or it aborts with a reason and a
    trace that satisfy [E]. *)
Definition wpa {S A} (m : M S A) (s : S)
    (Q : A → S → list event → Prop) (E : abort → list event → Prop) : Prop :=
  match m s with Done a s' t => Q a s' t | Abort why t => E why t end.

(** The allocation sites of [osqp_setup] whose block is a struct; the
    others are vectors. *)
Definition is_struct (o : object) : bool :=
  match o with
  | ObjWork | ObjTimer | ObjData | ObjPol | ObjSolution | ObjInfo => true
  | _ => false
  end.

Section FurtherVocabulary.
Context {c_float : Type} {ops : FloatOps c_float} {csc Priv Timer : Type}.
Context {build : Build} {collab : @Collaborators c_float csc Priv Timer}.
Implicit Types (w : @Work c_float csc Priv Timer) (d : @Data c_float csc).

(** Modelled from the spec: [scale_data] (scaling module, not under src/)
    scales the data in place; the dimensions [n] and [m] stay as they
    are. *)
Definition scale_data_keeps_dims : Prop :=
  ∀ w d, w_data w = Some d →
         ∃ d', w_data (scale_data w) = Some d' ∧
               d_n d' = d_n d ∧ d_m d' = d_m d.

End FurtherVocabulary.

(** The requests to the allocator in a trace, each with its number of
    cells. *)
Definition requests (t : list event) : list (object * c_int) :=
  omap (λ e, match e with EvAlloc o c _ => Some (o, c) | _ => None end) t.

(** The calls that start and read a timer. *)
Definition is_timing (e : event) : bool :=
  match e with EvTic | EvToc => true | _ => false end.

(** *** Releasing the workspace *)

(** The block that [osqp_cleanup] releases for an allocation site of
    [osqp_setup]. *)
Definition block_of (o : object) : block :=
  match o with
  | ObjWork => BlkWork
  | ObjTimer => BlkTimer
  | ObjData => BlkData
  | ObjX => BlkX
  | ObjZ => BlkZ
  | ObjU => BlkU
  | ObjZPrev => BlkZPrev
  | ObjDuaResN => BlkDuaResN
  | ObjDuaResM => BlkDuaResM
  | ObjPol => BlkPol
  | ObjIndLAct => BlkIndLAct
  | ObjIndUAct => BlkIndUAct
  | ObjA2Ared => BlkA2Ared
  | ObjPolX => BlkPolX
  | ObjPolAx => BlkPolAx
  | ObjSolution => BlkSolution
  | ObjSolX => BlkSolX
  | ObjSolLambda => BlkSolLambda
  | ObjInfo => BlkInfo
  end.

(** The allocator granted a request for the site [o] in the trace. *)
Definition granted (o : object) (t : list event) : bool :=
  existsb (λ e, match e with
                | EvAlloc o' _ ok => bool_decide (o' = o) && ok
                | _ => false
                end) t.

(** How many times the calls [log] hand a live pointer to the block [b] to
    [c_free]. *)
Definition frees (b : block) (r : release) : bool :=
  match r with
  | CFree b' live => bool_decide (b' = b) && live
  | _ => false
  end.

Definition times_freed (b : block) (log : list release) : nat :=
  length (List.filter (frees b) log).

(** The struct that holds the pointer to a block; the workspace is held by
    the caller. *)
Definition owner_of (b : block) : option block :=
  match b with
  | BlkP | BlkQ | BlkA | BlkLA | BlkUA => Some BlkData
  | BlkD | BlkDinv | BlkE | BlkEinv => Some BlkScaling
  | BlkIndLAct | BlkIndUAct | BlkA2Ared | BlkPolX | BlkPolAx => Some BlkPol
  | BlkSolX | BlkSolLambda => Some BlkSolution
  | BlkWork => None
  | _ => Some BlkWork
  end.

(** In a sequence of blocks, the owner of each block comes later. *)
Fixpoint owners_follow (l : list block) : bool :=
  match l with
  | [] => true
  | b :: l' =>
      match owner_of b with
      | Some o => bool_decide (o ∈ l')
      | None => true
      end && owners_follow l'
  end.

Section CleanupVocabulary.
Context {c_float : Type} {ops : FloatOps c_float} {csc Priv Timer : Type}.
Context {build : Build} {collab : @Collaborators c_float csc Priv Timer}.
Implicit Types (w : @Work c_float csc Priv Timer).

(** What [osqp_cleanup] dereferences is there: the workspace, its data,
    settings, polish and solution structs, and its scaling struct when the
    settings of the workspace have scaling on. *)
Definition cleanup_ready (work : option (@Work c_float csc Priv Timer))
    : Prop :=
  ∃ w s, work = Some w ∧ is_Some (w_data w) ∧ w_settings w = Some s ∧
         (s_scaling s ≠ 0 → is_Some (w_scaling w)) ∧
         is_Some (w_pol w) ∧ is_Some (w_solution w).

(** The member [f] of the struct that [p] points to is not null. *)
Definition member_live {A B} (p : option A) (f : A → option B) : bool :=
  match p with Some a => non_null (f a) | None => false end.

(** The pointer that the workspace holds for an allocation site of
    [osqp_setup] is not null ([work->timer] exists only when profiling is
    compiled in). *)
Definition live_pointer (o : object) w : bool :=
  match o with
  | ObjWork => true
  | ObjTimer => (0 <? PROFILING) && non_null (w_timer w)
  | ObjData => non_null (w_data w)
  | ObjX => non_null (w_x w)
  | ObjZ => non_null (w_z w)
  | ObjU => non_null (w_u w)
  | ObjZPrev => non_null (w_z_prev w)
  | ObjDuaResN => non_null (w_dua_res_ws_n w)
  | ObjDuaResM => non_null (w_dua_res_ws_m w)
  | ObjPol => non_null (w_pol w)
  | ObjIndLAct => member_live (w_pol w) pol_ind_lAct
  | ObjIndUAct => member_live (w_pol w) pol_ind_uAct
  | ObjA2Ared => member_live (w_pol w) pol_A2Ared
  | ObjPolX => member_live (w_pol w) pol_x
  | ObjPolAx => member_live (w_pol w) pol_Ax
  | ObjSolution => non_null (w_solution w)
  | ObjSolX => member_live (w_solution w) sol_x
  | ObjSolLambda => member_live (w_solution w) sol_lambda
  | ObjInfo => non_null (w_info w)
  end.

(** Modelled from the spec: [scale_data] (scaling module, not under src/),
    called on a workspace that has its data, allocates the scaling struct
    ("produces diagonal scalings D and E") and leaves the other blocks of
    the workspace in place ("The workspace exclusively owns all interior
    buffers"). *)
Definition scale_data_keeps_blocks : Prop :=
  ∀ w, w_settings (scale_data w) = w_settings w ∧
       w_timer (scale_data w) = w_timer w ∧
       w_x (scale_data w) = w_x w ∧ w_z (scale_data w) = w_z w ∧
       w_u (scale_data w) = w_u w ∧
       w_z_prev (scale_data w) = w_z_prev w ∧
       w_dua_res_ws_n (scale_data w) = w_dua_res_ws_n w ∧
       w_dua_res_ws_m (scale_data w) = w_dua_res_ws_m w ∧
       (is_Some (w_data w) →
        is_Some (w_data (scale_data w)) ∧
        is_Some (w_scaling (scale_data w))).

End CleanupVocabulary.

(** *** The calls of [osqp_solve] *)

Section SolveVocabulary.
Context {build : Build}.
Implicit Types (s : Settings) (iter r : c_int) (rs : list c_int).

(** The event [e] when [c] holds. *)
Definition opt_event (c : bool) (e : event) : list event :=
  if c then [e] else [].

(** The summaries and the header are printed: printing is compiled in
    above level 1 and the settings are verbose. *)
Definition prints s : bool := (1 <? PRINTLEVEL) && truthy (s_verbose s).

(** What [osqp_solve] calls before the loop. *)
Definition solve_prologue s : list event :=
  opt_event (0 <? PROFILING) EvTic ++
  opt_event (prints s) EvPrintHeader ++
  opt_event (negb (truthy (s_warm_start s))) EvColdStart.

(** The calls of the iteration numbered [iter], whose termination check
    returned [r]. *)
Definition iteration_events s iter r : list event :=
  [EvPreaVecCopy; EvComputeRhs; EvSolveLinSys; EvUpdateX; EvProjectX;
   EvUpdateU; EvUpdateInfo iter 0] ++
  opt_event (prints s && (Z.rem iter PRINT_INTERVAL =? 0)) EvPrintSummary ++
  [EvResidualsCheck r].

Fixpoint loop_events s iter rs : list event :=
  match rs with
  | [] => []
  | r :: rs' => iteration_events s iter r ++ loop_events s (iter + 1) rs'
  end.

(** The value of [iter] when the loop is left: a check that passes leaves
    it at the number of its iteration. *)
Fixpoint exit_iter iter rs : c_int :=
  match rs with
  | [] => iter
  | r :: rs' => if truthy r then iter else exit_iter (iter + 1) rs'
  end.

(** What [osqp_solve] calls after the loop, left with [iter], when the
    status is [OSQP_SOLVED] or not. *)
Definition solve_epilogue s iter (solved : bool) : list event :=
  opt_event (prints s && negb (Z.rem iter PRINT_INTERVAL =? 0))
    EvPrintSummary ++
  [EvUpdateStatusString] ++
  opt_event (0 <? PROFILING) EvToc ++
  opt_event (truthy (s_polishing s) && solved) EvPolish ++
  opt_event (0 <? PRINTLEVEL) EvPrintFooter ++
  [EvStoreSolution].

End SolveVocabulary.

(** The call of [cold_start]. *)
Definition is_cold_start (e : event) : bool :=
  match e with EvColdStart => true | _ => false end.

(** The call of [update_info]. *)
Definition is_update_info (e : event) : bool :=
  match e with EvUpdateInfo _ _ => true | _ => false end.

(** *** Further runs on the reference configuration *)

(** An allocator that refuses the fourth request, the vector [x] when
    profiling is compiled in. *)
Definition ref_allocator_no_x : @Allocator float float :=
  {| grant := λ k, negb (k =? 3)%nat; junk_float := λ _ _, 0%float;
     junk_int := λ _ _, 0; junk_timer := λ _, 0%float |}.

(** The trace of [osqp_setup] on S2. *)
Definition s2_trace : list event :=
  Eval vm_compute in
    trace_of (osqp_setup (build := ref_build) (collab := ref_collaborators)
                (allocator := ref_allocator) (Some s2_data)
                (Some s2_settings) 0%nat).

(** [osqp_setup] on S2 when the allocator refuses [x]. *)
Definition s2_work_no_x : @Work float dense () float :=
  Eval vm_compute in
    match osqp_setup (build := ref_build) (collab := ref_collaborators)
            (allocator := ref_allocator_no_x) (Some s2_data)
            (Some s2_settings) 0%nat with
    | Done (Some w) _ _ => w
    | _ => Work_zero
    end.

Definition s2_trace_no_x : list event :=
  Eval vm_compute in
    trace_of (osqp_setup (build := ref_build) (collab := ref_collaborators)
                (allocator := ref_allocator_no_x) (Some s2_data)
                (Some s2_settings) 0%nat).

(** [osqp_setup] on S2 with scaling off. *)
Definition s2_work_unscaled : @Work float dense () float :=
  Eval vm_compute in
    match osqp_setup (build := ref_build) (collab := ref_collaborators)
            (allocator := ref_allocator) (Some s2_data)
            (Some unscaled_settings) 0%nat with
    | Done (Some w) _ _ => w
    | _ => Work_zero
    end.

Definition s2_trace_unscaled : list event :=
  Eval vm_compute in
    trace_of (osqp_setup (build := ref_build) (collab := ref_collaborators)
                (allocator := ref_allocator) (Some s2_data)
                (Some unscaled_settings) 0%nat).

(** [osqp_setup] on S1, the problem without constraints. *)
Definition s1_work : @Work float dense () float :=
  Eval vm_compute in
    match osqp_setup (build := ref_build) (collab := ref_collaborators)
            (allocator := ref_allocator) (Some s1_data)
            (Some s2_settings) 0%nat with
    | Done (Some w) _ _ => w
    | _ => Work_zero
    end.

Definition s1_trace : list event :=
  Eval vm_compute in
    trace_of (osqp_setup (build := ref_build) (collab := ref_collaborators)
                (allocator := ref_allocator) (Some s1_data)
                (Some s2_settings) 0%nat).

Definition s1_scaled_data : @Data float dense :=
  Eval vm_compute in
    match w_data s1_work with Some d => d | None => s1_data end.

(** An allocator that refuses the fifth request, the one for [z]. *)
Definition ref_allocator_no_z : @Allocator float float :=
  {| grant := λ k, negb (k =? 4)%nat; junk_float := λ _ _, 0%float;
     junk_int := λ _ _, 0; junk_timer := λ _, 0%float |}.

(** The settings of S2 with warm start on. *)
Definition warm_settings : Settings :=
  {| s_max_iter := 10; s_scaling := 1; s_polishing := 1; s_verbose := 1;
     s_warm_start := 1 |}.

(** [osqp_setup] on S2 with warm start on, when the request for [z] is
    refused. *)
Definition s2_work_no_z : @Work float dense () float :=
  Eval vm_compute in
    match osqp_setup (build := ref_build) (collab := ref_collaborators)
            (allocator := ref_allocator_no_z) (Some s2_data)
            (Some warm_settings) 0%nat with
    | Done (Some w) _ _ => w
    | _ => Work_zero
    end.

(** The calls of [osqp_cleanup] on the workspace of S2. *)
Definition s2_released : list release :=
  Eval vm_compute in
    match osqp_cleanup (build := ref_build) (Some s2_work) [] with
    | Done _ log _ => log
    | Abort _ _ => []
    end.

(** Scenario S6: the workspace of S2 with [max_iter = 1] and printing
    off; the stand-in check does not pass in the only iteration. *)
Definition s6_settings : Settings :=
  {| s_max_iter := 1; s_scaling := 1; s_polishing := 1; s_verbose := 0;
     s_warm_start := 0 |}.

Definition s6_work : @Work float dense () float :=
  set_w_settings (Some s6_settings) s2_work.

(** *** Rounding of binary64 products

    The vocabulary of the proof that multiplication by a positive double
    is monotone: [binary_round_aux], by which [SFmul] rounds a product, in
    terms of integer arithmetic. *)

(** The mantissa [M] shifted right by [k] bits and rounded to nearest,
    ties to even. *)
Definition rne (M k : Z) : Z :=
  let q := M / 2 ^ k in
  let t := 2 * (M mod 2 ^ k) in
  if t <? 2 ^ k then q
  else if 2 ^ k <? t then q + 1
  else if Z.even q then q else q + 1.

(** What [k] steps of [shr_1] have computed of [M]. *)
Definition shifted (M k : Z) (mrs : shr_record) : Prop :=
  shr_m mrs = M / 2 ^ k ∧
  (shr_r mrs = true ↔ 2 ^ k ≤ 2 * (M mod 2 ^ k)) ∧
  (shr_s mrs = true ↔ (2 * (M mod 2 ^ k)) mod 2 ^ k ≠ 0).

(** The float of sign [s] with the rounded mantissa [m] at the exponent
    [a]: a mantissa of 54 bits is shifted once more, and an exponent above
    that of the largest finite number gives an infinity. *)
Definition rounded_float (s : bool) (m a : Z) : spec_float :=
  if m =? 0 then S754_zero s
  else if m =? 2 ^ 53 then
    if a + 1 <=? 971 then S754_finite s (Z.to_pos (2 ^ 52)) (a + 1)
    else S754_infinity s
  else
    if a <=? 971 then S754_finite s (Z.to_pos m) a else S754_infinity s.

(** A positive float of mantissa [m] at the exponent [a]. *)
Definition finite_or_inf (m a : Z) : spec_float :=
  if a <=? 971 then S754_finite false (Z.to_pos m) a
  else S754_infinity false.

(** The product of the finite float of sign [s], mantissa [m] and exponent
    [e] with the positive float of mantissa [ms] and exponent [es], as
    [SFmul] computes it. *)
Definition rounded_product (ms : BinNums.positive) (es : Z) (s : bool)
    (m : BinNums.positive) (e : Z) : spec_float :=
  binary_round_aux prec emax s (Z.pos (m * ms)) (e + es) loc_Exact.

(** * Properties *)

(** ** Reasoning about runs *)

Section Wp.
Context {S : Type} (ab : Prop).
Implicit Types s : S.

Lemma wp_done {A} (m : M S A) s Q :
  wp False m s Q ↔ ∃ a s' t, m s = Done a s' t ∧ Q a s' t.
Proof.
  unfold wp. destruct (m s) as [a s' t|]; split.
  - eauto.
  - by intros (?&?&?&[= -> -> ->]&?).
  - done.
  - by intros (?&?&?&?&?).
Qed.

Lemma wp_returned {A} (m : M S A) s Q a s' t :
  wp True m s Q → m s = Done a s' t → Q a s' t.
Proof. unfold wp. intros H E. by rewrite E in H. Qed.

Lemma wp_mono {A} (m : M S A) s (Q Q' : A → S → list event → Prop) :
  wp ab m s Q → (∀ a s' t, Q a s' t → Q' a s' t) → wp ab m s Q'.
Proof. unfold wp. destruct (m s); auto. Qed.

Lemma wp_of_run {A} (m : M S A) s Q a s' t :
  m s = Done a s' t → Q a s' t → wp ab m s Q.
Proof. unfold wp. by intros ->. Qed.

Lemma wp_ret {A} (a : A) s Q : Q a s [] → wp ab (mret a) s Q.
Proof. done. Qed.

Lemma wp_bind {A B} (m : M S A) (f : A → M S B) s Q :
  wp ab m s (λ a s' t, wp ab (f a) s' (λ b s'' t', Q b s'' (t ++ t'))) →
  wp ab (m ≫= f) s Q.
Proof.
  unfold wp, mbind, M_bind. destruct (m s) as [a s' t|]; [|done].
  by destruct (f a s').
Qed.

Lemma wp_get s Q : Q s s [] → wp ab get s Q.
Proof. done. Qed.

Lemma wp_put s s' Q : Q () s' [] → wp ab (put s') s Q.
Proof. done. Qed.

Lemma wp_modify (f : S → S) s Q : Q () (f s) [] → wp ab (modify f) s Q.
Proof. done. Qed.

Lemma wp_emit e s Q : Q () s [e] → wp ab (emit e) s Q.
Proof. done. Qed.

Lemma wp_print msg s Q : Q () s [EvPrint msg] → wp ab (c_print msg) s Q.
Proof. done. Qed.

Lemma wp_stop {A} why s (Q : A → S → list event → Prop) :
  ab → wp ab (stop why) s Q.
Proof. done. Qed.

Lemma wp_deref {A} (p : option A) s Q :
  match p with Some a => Q a s [] | None => ab end → wp ab (deref p) s Q.
Proof. by destruct p. Qed.

Lemma wp_when (c : bool) (body : M S ()) s Q :
  (if c then wp ab body s Q else Q () s []) → wp ab (when c body) s Q.
Proof. by destruct c. Qed.

End Wp.

(** One step of a run: the rule of the construct at the head of the
    program. A dereferenced pointer is evaluated, and replaced by its value
    when a hypothesis gives it. *)
Ltac wp_scrutinee :=
  repeat match goal with
  | |- match ?p with Some _ => _ | None => _ end =>
      first [ progress (let p' := eval cbn in p in change p with p')
            | match goal with H : p = _ |- _ => rewrite H end ]
  end.

Ltac wp_deref_step := apply wp_deref; wp_scrutinee.

Ltac wp_step :=
  lazymatch goal with
  | |- wp _ (mbind _ _) _ _ => apply wp_bind
  | |- wp _ (mret _) _ _ => apply wp_ret
  | |- wp _ get _ _ => apply wp_get
  | |- wp _ (put _) _ _ => apply wp_put
  | |- wp _ (modify _) _ _ => apply wp_modify
  | |- wp _ (emit _) _ _ => apply wp_emit
  | |- wp _ (c_print _) _ _ => apply wp_print
  | |- wp _ (deref _) _ _ => wp_deref_step
  | |- wp _ (when _ _) _ _ => apply wp_when
  | |- wp _ (let x := _ in _) _ _ => cbv zeta
  end; cbv beta iota.

Ltac wp_run := repeat wp_step.

(** ** The vector helpers *)

Section Vectors.
Context {c_float : Type} {ops : FloatOps c_float}.
Implicit Types a b v e : list c_float.

Lemma copy_cells_lookup k i a b :
  (i + k ≤ length a)%nat → (i + k ≤ length b)%nat →
  ∃ r, copy_cells k i a b = Some r ∧ length r = length b ∧
       ∀ j, r !! j = if bool_decide (i ≤ j < i + k)%nat then a !! j
                     else b !! j.
Proof.
  revert i b. induction k as [|k IH]; intros i b Ha Hb; simpl.
  - exists b. split_and!; [done..|]. intros j.
    rewrite bool_decide_eq_false_2; [done|lia].
  - destruct (lookup_lt_is_Some_2 a i) as [ai Hai]; [lia|].
    rewrite Hai. simpl. rewrite decide_True by lia.
    destruct (IH (S i) (<[i:=ai]> b)) as (r & Hr & Hlen & Hlk);
      [lia|rewrite length_insert; lia|].
    exists r. rewrite length_insert in Hlen. split_and!; [done..|].
    intros j. rewrite Hlk. destruct (decide (j = i)) as [->|Hne].
    + rewrite bool_decide_eq_false_2 by lia.
      rewrite bool_decide_eq_true_2 by lia.
      rewrite list_lookup_insert_eq by lia. done.
    + rewrite list_lookup_insert_ne by done.
      by rewrite (bool_decide_ext (i ≤ j < i + S k)%nat
                    (S i ≤ j < S i + k)%nat) by lia.
Qed.

Lemma copy_cells_all k a b :
  length a = k → length b = k → copy_cells k 0 a b = Some a.
Proof.
  intros Ha Hb.
  destruct (copy_cells_lookup k 0 a b) as (r & -> & Hlen & Hlk); [lia..|].
  f_equal. apply list_eq. intros j. rewrite Hlk. case_bool_decide; [done|].
  rewrite !lookup_ge_None_2; [done|lia..].
Qed.

Lemma scale_cells_lookup k i a b :
  (i + k ≤ length a)%nat → (i + k ≤ length b)%nat →
  ∃ r, scale_cells k i a b = Some r ∧ length r = length b ∧
       ∀ j, r !! j = if bool_decide (i ≤ j < i + k)%nat
                     then zip_with c_mul b a !! j else b !! j.
Proof.
  revert i b. induction k as [|k IH]; intros i b Ha Hb; simpl.
  - exists b. split_and!; [done..|]. intros j.
    rewrite bool_decide_eq_false_2; [done|lia].
  - destruct (lookup_lt_is_Some_2 a i) as [ai Hai]; [lia|].
    destruct (lookup_lt_is_Some_2 b i) as [bi Hbi]; [lia|].
    rewrite Hai, Hbi. simpl.
    destruct (IH (S i) (<[i:=c_mul bi ai]> b)) as (r & Hr & Hlen & Hlk);
      [lia|rewrite length_insert; lia|].
    exists r. rewrite length_insert in Hlen. split_and!; [done..|].
    intros j. rewrite Hlk. rewrite !lookup_zip_with.
    destruct (decide (j = i)) as [->|Hne].
    + rewrite bool_decide_eq_false_2 by lia.
      rewrite bool_decide_eq_true_2 by lia.
      rewrite list_lookup_insert_eq by lia. by rewrite Hai, Hbi.
    + rewrite list_lookup_insert_ne by done.
      by rewrite (bool_decide_ext (i ≤ j < i + S k)%nat
                    (S i ≤ j < S i + k)%nat) by lia.
Qed.

Lemma scale_cells_all k a b :
  length a = k → length b = k →
  scale_cells k 0 a b = Some (zip_with c_mul b a).
Proof.
  intros Ha Hb.
  destruct (scale_cells_lookup k 0 a b) as (r & -> & Hlen & Hlk); [lia..|].
  f_equal. apply list_eq. intros j. rewrite Hlk. case_bool_decide; [done|].
  rewrite lookup_zip_with, !lookup_ge_None_2; [done|lia..].
Qed.

(** A copy of [n] cells between blocks of [n] cells returns, and the
    destination then holds the source. *)
Lemma prea_vec_copy_run {S} a b (n : c_int) (s : S) :
  length a = Z.to_nat n → length b = Z.to_nat n →
  prea_vec_copy (Some a) (Some b) n s = Done (Some a) s [].
Proof.
  intros Ha Hb. unfold prea_vec_copy. destruct (n <=? 0) eqn:Hn.
  - apply Z.leb_le in Hn. replace (Z.to_nat n) with 0%nat in * by lia.
    destruct a, b; done.
  - unfold mbind, M_bind; simpl. by rewrite copy_cells_all.
Qed.

Lemma vec_ew_prod_run {S} a b (n : c_int) (s : S) :
  length a = Z.to_nat n → length b = Z.to_nat n →
  vec_ew_prod (Some a) (Some b) n s = Done (Some (zip_with c_mul b a)) s [].
Proof.
  intros Ha Hb. unfold vec_ew_prod. destruct (n <=? 0) eqn:Hn.
  - apply Z.leb_le in Hn. replace (Z.to_nat n) with 0%nat in * by lia.
    destruct a, b; done.
  - unfold mbind, M_bind; simpl. by rewrite scale_cells_all.
Qed.

(** The two loops over the bounds run the same comparison. *)
Lemma upper_bound_check_lower k i a b :
  upper_bound_check k i a b = lower_bound_check k i a b.
Proof.
  revert i. induction k as [|k IH]; intros i; simpl; [done|].
  destruct (a !! i), (b !! i); simpl; try done.
  unfold c_gt. by rewrite IH.
Qed.

(** The loop returns when the blocks are long enough, with 1 or 0, and 1
    exactly when it met a cell of [a] above its cell of [b]. *)
Lemma lower_bound_check_spec k i a b :
  (i + k ≤ length a)%nat → (i + k ≤ length b)%nat →
  ∃ flag, lower_bound_check k i a b = Some flag ∧
    (flag = 0 ∨ flag = 1) ∧
    (flag = 1 ↔ ∃ j x y, (i ≤ j < i + k)%nat ∧ a !! j = Some x ∧
                          b !! j = Some y ∧ c_gt x y = true).
Proof.
  revert i. induction k as [|k IH]; intros i Ha Hb; simpl.
  - exists 0. split_and!; [done|by left|]. split; [lia|].
    intros (j&?&?&?&_). lia.
  - destruct (lookup_lt_is_Some_2 a i) as [x Hx]; [lia|].
    destruct (lookup_lt_is_Some_2 b i) as [y Hy]; [lia|].
    rewrite Hx, Hy. simpl. destruct (c_gt x y) eqn:Hxy.
    + exists 1. split_and!; [done|by right|]. split; [|done].
      intros _. exists i, x, y. split_and!; (lia || done).
    + destruct (IH (S i)) as (flag & -> & H01 & Hflag); [lia..|].
      exists flag. split_and!; [done..|]. rewrite Hflag. split.
      * intros (j&x'&y'&?&?&?&?). exists j, x', y'. split_and!; (lia || done).
      * intros (j&x'&y'&?&Hx'&Hy'&Hgt). exists j, x', y'.
        destruct (decide (j = i)) as [->|]; [congruence|].
        split_and!; (lia || done).
Qed.

End Vectors.

(** ** The update functions *)

Section Updates.
Context {c_float : Type} {ops : FloatOps c_float} {csc Priv Timer : Type}.
Variable settings : option Settings.
Implicit Types (w : @Work c_float csc Priv Timer) (d : @Data c_float csc).
Implicit Types (a b v e lA uA : list c_float) (g : Settings).

Lemma wp_prea_vec_copy {S} ab a b (n : c_int) (s : S) Q :
  length a = Z.to_nat n → length b = Z.to_nat n →
  Q (Some a) s [] → wp ab (prea_vec_copy (Some a) (Some b) n) s Q.
Proof. intros Ha Hb HQ. unfold wp. by rewrite prea_vec_copy_run. Qed.

Lemma wp_vec_ew_prod {S} ab a b (n : c_int) (s : S) Q :
  length a = Z.to_nat n → length b = Z.to_nat n →
  Q (Some (zip_with c_mul b a)) s [] →
  wp ab (vec_ew_prod (Some a) (Some b) n) s Q.
Proof. intros Ha Hb HQ. unfold wp. by rewrite vec_ew_prod_run. Qed.

(** The final loop of a bound update returns 0 or 1, and 1 exactly when
    the stored bounds cross somewhere. *)
Lemma wp_check_bounds ab check (m : c_int) a b w Q :
  (check = lower_bound_check ∨ check = upper_bound_check) →
  length a = Z.to_nat m → length b = Z.to_nat m →
  (∀ flag, (flag = 0 ∨ flag = 1) → (flag = 1 ↔ violation a b) →
           Q flag w []) →
  wp ab (check_bounds check m (Some a) (Some b)) w Q.
Proof.
  intros Hcheck Ha Hb HQ. unfold wp, check_bounds.
  destruct (m <=? 0) eqn:Hm.
  - apply Z.leb_le in Hm. simpl. apply HQ; [by left|].
    split; [lia|]. intros (i&x&y&Hx&_). apply lookup_lt_Some in Hx. lia.
  - unfold mbind, M_bind; simpl.
    assert (check (Z.to_nat m) 0%nat a b
            = lower_bound_check (Z.to_nat m) 0%nat a b) as ->.
    { destruct Hcheck as [->| ->]; [done|apply upper_bound_check_lower]. }
    destruct (lower_bound_check_spec (Z.to_nat m) 0 a b)
      as (flag & -> & H01 & Hflag); [lia..|].
    apply HQ; [done|]. rewrite Hflag. unfold violation. split.
    + intros (j&x&y&_&?). eauto.
    + intros (j&x&y&Hx&?). exists j, x, y. split; [|done].
      apply lookup_lt_Some in Hx. lia.
Qed.

(** *** What the three updates compute *)

Lemma osqp_update_lower_bound_run w d lA uA g e v :
  bounds_ready w d lA uA →
  scaling_ready settings w g sc_E e (d_m d) →
  length v = Z.to_nat (d_m d) →
  let lA' := rescale (truthy (s_scaling g)) e v in
  ∃ flag,
    osqp_update_lower_bound settings (Some v) w
    = Done flag (set_w_data (Some (set_d_lA (Some lA') d)) w) [] ∧
    (flag = 0 ∨ flag = 1) ∧ (flag = 1 ↔ violation lA' uA).
Proof.
  intros (Hd & HlA & HuA & Hlenl & Hlenu) [Hg Hsc] Hv lA'.
  cut (wp False (osqp_update_lower_bound settings (Some v)) w
         (λ flag w' t,
            w' = set_w_data (Some (set_d_lA (Some lA') d)) w ∧ t = [] ∧
            (flag = 0 ∨ flag = 1) ∧ (flag = 1 ↔ violation lA' uA))).
  { rewrite wp_done. intros (flag & w' & t & Hrun & -> & -> & ?).
    by exists flag. }
  unfold osqp_update_lower_bound. wp_run. rewrite HlA.
  apply wp_prea_vec_copy; [done..|]. wp_run. subst lA'.
  destruct (truthy (s_scaling g)) eqn:Hon.
  - destruct Hsc as (sc & Hwsc & HE & Hlene); [done|].
    wp_run. rewrite HE. simpl. apply wp_vec_ew_prod; [done..|]. wp_run.
    simpl. rewrite HuA.
    apply wp_check_bounds; simpl;
      [by left|by rewrite length_zip_with; lia|done|].
    by intros flag ??.
  - wp_run. simpl. rewrite HuA.
    apply wp_check_bounds; simpl; [by left|done..|].
    by intros flag ??.
Qed.

Lemma osqp_update_upper_bound_run w d lA uA g e v :
  bounds_ready w d lA uA →
  scaling_ready settings w g sc_E e (d_m d) →
  length v = Z.to_nat (d_m d) →
  let uA' := rescale (truthy (s_scaling g)) e v in
  ∃ flag,
    osqp_update_upper_bound settings (Some v) w
    = Done flag (set_w_data (Some (set_d_uA (Some uA') d)) w) [] ∧
    (flag = 0 ∨ flag = 1) ∧ (flag = 1 ↔ violation lA uA').
Proof.
  intros (Hd & HlA & HuA & Hlenl & Hlenu) [Hg Hsc] Hv uA'.
  cut (wp False (osqp_update_upper_bound settings (Some v)) w
         (λ flag w' t,
            w' = set_w_data (Some (set_d_uA (Some uA') d)) w ∧ t = [] ∧
            (flag = 0 ∨ flag = 1) ∧ (flag = 1 ↔ violation lA uA'))).
  { rewrite wp_done. intros (flag & w' & t & Hrun & -> & -> & ?).
    by exists flag. }
  unfold osqp_update_upper_bound. wp_run. rewrite HuA.
  apply wp_prea_vec_copy; [done..|]. wp_run. subst uA'.
  destruct (truthy (s_scaling g)) eqn:Hon.
  - destruct Hsc as (sc & Hwsc & HE & Hlene); [done|].
    wp_run. rewrite HE. simpl. apply wp_vec_ew_prod; [done..|]. wp_run.
    simpl. rewrite HlA.
    apply wp_check_bounds; simpl;
      [by right|done|by rewrite length_zip_with; lia|].
    by intros flag ??.
  - wp_run. simpl. rewrite HlA.
    apply wp_check_bounds; simpl; [by right|done..|].
    by intros flag ??.
Qed.

Lemma osqp_update_lin_cost_run w d q g e v :
  cost_ready w d q →
  scaling_ready settings w g sc_D e (d_n d) →
  length v = Z.to_nat (d_n d) →
  osqp_update_lin_cost settings (Some v) w
  = Done 0 (set_w_data
              (Some (set_d_q (Some (rescale (truthy (s_scaling g)) e v)) d))
              w) [].
Proof.
  intros (Hd & Hq & Hlenq) [Hg Hsc] Hv.
  cut (wp False (osqp_update_lin_cost settings (Some v)) w
         (λ flag w' t,
            w' = set_w_data
                   (Some (set_d_q
                            (Some (rescale (truthy (s_scaling g)) e v)) d)) w
            ∧ t = [] ∧ flag = 0)).
  { rewrite wp_done. by intros (flag & w' & t & -> & -> & -> & ->). }
  unfold osqp_update_lin_cost. wp_run. rewrite Hq.
  apply wp_prea_vec_copy; [done..|]. wp_run.
  destruct (truthy (s_scaling g)) eqn:Hon.
  - destruct Hsc as (sc & Hwsc & HD & Hlene); [done|].
    wp_run. rewrite HD. simpl. apply wp_vec_ew_prod; [done..|]. by wp_run.
  - by wp_run.
Qed.

Lemma all_le_no_violation a b :
  le_excludes_gt c_float → all_le a b → ¬ violation a b.
Proof.
  intros Hord Hle (i & x & y & Hx & Hy & Hgt).
  pose proof (Forall2_lookup_lr _ _ _ _ _ _ Hle Hx Hy) as Hxy.
  apply Hord in Hxy. congruence.
Qed.

Lemma flag_nonzero (flag : c_int) (P : Prop) :
  (flag = 0 ∨ flag = 1) → (flag = 1 ↔ P) → (flag ≠ 0 ↔ P).
Proof. intros [-> | ->] <-; split; (done || lia). Qed.

Lemma violation_scaled e a b :
  length e = length a → length e = length b → scaling_exact e a b →
  violation (zip_with c_mul a e) (zip_with c_mul b e) ↔ violation a b.
Proof.
  intros Ha Hb Hex. unfold violation. split.
  - intros (i & x' & y' & Hx & Hy & Hgt).
    rewrite lookup_zip_with in Hx, Hy.
    destruct (a !! i) as [x|] eqn:Hax; [|done].
    destruct (b !! i) as [y|] eqn:Hby; [|done].
    destruct (e !! i) as [s|] eqn:Hes; [|done].
    simpl in Hx, Hy. simplify_eq. exists i, x, y.
    by rewrite <-(Hex i s x y).
  - intros (i & x & y & Hx & Hy & Hgt).
    destruct (lookup_lt_is_Some_2 e i) as [s Hs].
    { apply lookup_lt_Some in Hx. lia. }
    exists i, (c_mul x s), (c_mul y s).
    rewrite !lookup_zip_with, Hx, Hy, Hs. simpl.
    by rewrite (Hex i s x y).
Qed.

(** When multiplying by a positive factor never puts a smaller number
    above a larger one, a violation of the scaled vectors comes from a
    violation of the unscaled ones. *)
Lemma violation_unscaled e a b :
  (∀ s x y : c_float, c_lt c_zero s = true →
                      c_gt (c_mul x s) (c_mul y s) = true →
                      c_gt x y = true) →
  positive e →
  violation (zip_with c_mul a e) (zip_with c_mul b e) → violation a b.
Proof.
  intros Hlaw Hpos (i & x' & y' & Hx & Hy & Hgt).
  rewrite lookup_zip_with in Hx, Hy.
  destruct (a !! i) as [x|] eqn:Hax; [|done].
  destruct (b !! i) as [y|] eqn:Hby; [|done].
  destruct (e !! i) as [s|] eqn:Hes; [|done].
  simpl in Hx, Hy. simplify_eq. exists i, x, y. split_and!; [done..|].
  apply (Hlaw s); [|done].
  by apply (proj1 (Forall_lookup _ _) Hpos i s).
Qed.

(** When the scaling test holds and the workspace has no scaling, both
    bound updates dereference the null [work->scaling], after the new
    bound has been copied. *)
Lemma bound_update_null_scaling w d lA uA g v :
  bounds_ready w d lA uA →
  settings = Some g → truthy (s_scaling g) = true →
  w_scaling w = OSQP_NULL →
  length v = Z.to_nat (d_m d) →
  osqp_update_lower_bound settings (Some v) w = Abort NullDeref [] ∧
  osqp_update_upper_bound settings (Some v) w = Abort NullDeref [].
Proof.
  intros (Hd & HlA & HuA & Hlenl & Hlenu) Hg Hon Hsc Hv.
  unfold osqp_update_lower_bound, osqp_update_upper_bound, mbind, M_bind.
  cbn [get]. rewrite Hd. cbn [deref mret M_ret]. rewrite HlA, HuA.
  rewrite !prea_vec_copy_run by done. cbn [put]. rewrite Hg.
  cbn [deref mret M_ret]. rewrite Hon. cbn [get w_scaling set_w_data].
  by rewrite Hsc.
Qed.


(** C4. A bound update stores the new vector before it checks it, and
    nothing is rolled back: whatever flag [osqp_update_lower_bound] or
    [osqp_update_upper_bound] returns, the workspace it leaves is the old
    one with all [m] cells of the bound replaced by the new vector (as the
    update stores it), and the flag is nonzero exactly when the bounds
    that are now stored are inconsistent. *)
Theorem bound_update_not_rolled_back w d lA uA g e v :
  bounds_ready w d lA uA →
  scaling_ready settings w g sc_E e (d_m d) →
  length v = Z.to_nat (d_m d) →
  let new := rescale (truthy (s_scaling g)) e v in
  length new = Z.to_nat (d_m d) ∧
  (∃ flag,
     osqp_update_lower_bound settings (Some v) w
     = Done flag (set_w_data (Some (set_d_lA (Some new) d)) w) [] ∧
     (flag ≠ 0 ↔ violation new uA)) ∧
  (∃ flag,
     osqp_update_upper_bound settings (Some v) w
     = Done flag (set_w_data (Some (set_d_uA (Some new) d)) w) [] ∧
     (flag ≠ 0 ↔ violation lA new)).
Proof.
  intros Hb Hs Hv new. split_and!.
  - subst new. unfold rescale.
    destruct (truthy (s_scaling g)) eqn:Hon; [|done].
    destruct Hs as [_ (sc & _ & _ & He)]; [done|].
    rewrite length_zip_with. lia.
  - destruct (osqp_update_lower_bound_run w d lA uA g e v Hb Hs Hv)
      as (flag & Hrun & H01 & Hviol).
    exists flag. split; [done|]. by apply flag_nonzero.
  - destruct (osqp_update_upper_bound_run w d lA uA g e v Hb Hs Hv)
      as (flag & Hrun & H01 & Hviol).
    exists flag. split; [done|]. by apply flag_nonzero.
Qed.

End Updates.

(** ** [osqp_setup] *)

Section Setup.
Context {c_float : Type} {ops : FloatOps c_float} {csc Priv Timer : Type}.
Context {build : Build} {collab : @Collaborators c_float csc Priv Timer}.
Context {allocator : @Allocator c_float Timer}.
Implicit Types (w : @Work c_float csc Priv Timer) (d din : @Data c_float csc).
Implicit Types (data : option (@Data c_float csc)) (st : option Settings).
Implicit Types (h : heap) (sin : Settings).

Lemma wp_alloc ab what count h Q :
  Q (if grant h then Some h else None) (S h) [EvAlloc what count (grant h)] →
  wp ab (alloc what count) h Q.
Proof. done. Qed.

Lemma truthy_false (i : c_int) : truthy i = false ↔ i = 0.
Proof. unfold truthy. destruct (Z.eqb_spec i 0); naive_solver. Qed.

Lemma truthy_true (i : c_int) : truthy i = true ↔ i ≠ 0.
Proof. unfold truthy. destruct (Z.eqb_spec i 0); naive_solver. Qed.

(** C5. When the validation of the data or of the settings fails,
    [osqp_setup] returns a null workspace and has asked the allocator for
    nothing; a workspace that is not null is returned only when both
    validations pass. *)
Theorem setup_validation_failure data st h :
  (validate_data data ≠ 0 ∨ validate_settings st ≠ 0 →
   ∃ t, osqp_setup data st h = Done OSQP_NULL h t ∧
        ∀ what count ok, EvAlloc what count ok ∉ t) ∧
  (∀ w h' t, osqp_setup data st h = Done (Some w) h' t →
             validate_data data = 0 ∧ validate_settings st = 0).
Proof.
  unfold osqp_setup.
  destruct (truthy (validate_data data)) eqn:Hd.
  { split.
    - intros _. destruct (0 <? PRINTLEVEL); eexists; (split; [reflexivity|]);
        intros ??? Hin;
        repeat (apply elem_of_cons in Hin as [Hin|Hin]; [discriminate|]);
        by apply elem_of_nil in Hin.
    - intros w h' t. by destruct (0 <? PRINTLEVEL). }
  destruct (truthy (validate_settings st)) eqn:Hs.
  { split.
    - intros _. destruct (0 <? PRINTLEVEL); eexists; (split; [reflexivity|]);
        intros ??? Hin;
        repeat (apply elem_of_cons in Hin as [Hin|Hin]; [discriminate|]);
        by apply elem_of_nil in Hin.
    - intros w h' t. by destruct (0 <? PRINTLEVEL). }
  apply truthy_false in Hd, Hs. split; [|done]. intros [?|?]; done.
Qed.

Ltac wp_if :=
  lazymatch goal with
  | |- wp _ (if ?c then _ else _) _ _ => destruct c eqn:?
  | |- wp _ (match ?c with Some _ => _ | None => _ end) _ _ => destruct c eqn:?
  | |- if ?c then _ else _ => destruct c eqn:?
  end.

Ltac setup_step :=
  first
    [ wp_step
    | wp_if
    | progress wp_scrutinee
    | apply wp_alloc; cbv beta
    | progress unfold c_alloc_struct, c_calloc_floats, c_malloc_floats,
        c_malloc_ints ];
  cbn [fmap option_fmap option_map
       d_n d_m d_P d_q d_A d_lA d_uA
       w_data w_x w_z w_u w_z_prev w_dua_res_ws_n w_dua_res_ws_m w_settings
       w_scaling w_priv w_pol w_solution w_info w_timer
       set_w_data set_w_x set_w_z set_w_u set_w_z_prev set_w_dua_res_ws_n
       set_w_dua_res_ws_m set_w_settings set_w_scaling set_w_priv set_w_pol
       set_w_solution set_w_info set_w_timer Work_zero].

(** C6 (not met by the code). When the allocator refuses the workspace,
    [osqp_setup] prints its message and goes on: it asks for the next
    block and then writes through the null [work], so the run aborts
    instead of returning a null workspace. *)
Theorem setup_work_allocation_failure data st h :
  validate_data data = 0 → validate_settings st = 0 → grant h = false →
  osqp_setup data st h
  = Abort NullDeref
      ([EvAlloc ObjWork 1 false] ++
       (if 0 <? PRINTLEVEL
        then [EvPrint ("ERROR: allocating work failure!" +:+ endl)] else []) ++
       [EvAlloc (if 0 <? PROFILING then ObjTimer else ObjData) 1
                (grant (S h))]).
Proof.
  intros Hd%truthy_false Hs%truthy_false Hg. unfold osqp_setup.
  rewrite Hd, Hs. unfold c_alloc_struct, alloc, mbind, M_bind. rewrite Hg.
  simpl. destruct (0 <? PRINTLEVEL), (0 <? PROFILING); reflexivity.
Qed.

(** With valid arguments and an allocator that grants every request,
    [osqp_setup] returns a workspace; its iterates are zero, its status is
    [OSQP_UNSOLVED] with the text of that code, and its settings have
    polishing off when there is no constraint. *)
Lemma osqp_setup_granted data st din sin h :
  setup_inputs_ok data st din sin →
  scale_data_frame →
  (∀ k, grant k = true) →
  ∃ w h' t i s,
    osqp_setup data st h = Done (Some w) h' t ∧
    w_x w = Some (replicate (Z.to_nat (d_n din + d_m din)) c_zero) ∧
    w_z w = Some (replicate (Z.to_nat (d_n din + d_m din)) c_zero) ∧
    w_u w = Some (replicate (Z.to_nat (d_m din)) c_zero) ∧
    w_info w = Some i ∧
    info_status_val i = OSQP_UNSOLVED ∧
    info_status i = status_text OSQP_UNSOLVED ∧
    w_settings w = Some s ∧
    (d_m din = 0 → s_polishing s = 0).
Proof.
  intros (-> & -> & Hvd%truthy_false & Hvs%truthy_false & [sc Hcopy]) Hframe
    Hgrant.
  cut (wp False (osqp_setup (Some din) (Some sin)) h
         (λ r h' t, ∃ w i s,
            r = Some w ∧
            w_x w = Some (replicate (Z.to_nat (d_n din + d_m din)) c_zero) ∧
            w_z w = Some (replicate (Z.to_nat (d_n din + d_m din)) c_zero) ∧
            w_u w = Some (replicate (Z.to_nat (d_m din)) c_zero) ∧
            w_info w = Some i ∧
            info_status_val i = OSQP_UNSOLVED ∧
            info_status i = status_text OSQP_UNSOLVED ∧
            w_settings w = Some s ∧
            (d_m din = 0 → s_polishing s = 0))).
  { rewrite wp_done. intros (r & h' & t & Hrun & w & i & s & -> & ?).
    by exists w, h', t, i, s. }
  unfold osqp_setup. rewrite Hvd, Hvs, Hcopy.
  repeat (setup_step; rewrite ?Hgrant).
  all: try match goal with
       | |- context [scale_data ?W] =>
           destruct (Hframe W) as (Hfs & Hfx & Hfz & Hfu & Hft & [d' Hfd]);
           [by eexists|]; rewrite ?Hfd
       end.
  all: repeat (setup_step; rewrite ?Hgrant).
  all: eexists _, _, _; split; [reflexivity|].
  all: cbn [w_x w_z w_u w_info w_settings set_w_info set_w_solution set_w_pol
            set_w_priv set_w_scaling set_w_settings set_w_dua_res_ws_m
            set_w_dua_res_ws_n set_w_z_prev set_w_u set_w_z set_w_x];
       rewrite ?Hfs, ?Hfx, ?Hfz, ?Hfu.
  all: split_and!; try done.
  all: intros Hm;
    match goal with H : (_ =? 0) = false |- _ => apply Z.eqb_neq in H end;
    done.
Qed.

(** Whatever the allocator does, a workspace returned for a problem
    without constraints has polishing off. *)
Lemma osqp_setup_polishing data st din h :
  data = Some din → d_m din = 0 →
  (∀ w, w_settings (scale_data w) = w_settings w) →
  wp True (osqp_setup data st) h
    (λ r _ _, ∀ w, r = Some w →
                   ∃ s, w_settings w = Some s ∧ s_polishing s = 0).
Proof.
  intros -> Hm Hs. unfold osqp_setup.
  repeat first
    [ exact I
    | setup_step; rewrite ?Hs, ?Hm; simpl (0 =? 0)
    | lazymatch goal with
      | |- match ?p with Some _ => _ | None => _ end => destruct p eqn:?
      end ].
  all: try done.
  all: intros ? [= <-]; cbn; rewrite ?Hs; cbn; eauto.
Qed.

(** C7. For a problem with [m = 0] constraints, the settings of the
    workspace that [osqp_setup] returns have polishing off, whatever the
    caller asked for; and with valid arguments and memory granted, a
    workspace is returned. *)
Theorem setup_forces_polishing_off data st din sin h :
  data = Some din → st = Some sin → d_m din = 0 →
  scale_data_frame →
  (∀ w h' t, osqp_setup data st h = Done (Some w) h' t →
             ∃ s, w_settings w = Some s ∧ s_polishing s = 0) ∧
  (validate_data data = 0 → validate_settings st = 0 →
   is_Some (copy_settings st) → (∀ k, grant k = true) →
   ∃ w h' t, osqp_setup data st h = Done (Some w) h' t).
Proof.
  intros Hdata Hst Hm Hframe. split.
  - intros w h' t Hrun.
    assert (∀ w, w_settings (scale_data w) = w_settings w) as Hs.
    { intros w0. apply Hframe. }
    by apply (wp_returned _ _ _ _ _ _
                (osqp_setup_polishing data st din h Hdata Hm Hs) Hrun).
  - intros Hvd Hvs Hcopy Hgrant.
    destruct (osqp_setup_granted data st din sin h)
      as (w & h' & t & _ & _ & Hrun & _); [done..|].
    by exists w, h', t.
Qed.

(** Whatever the allocator does, a returned workspace is unsolved and its
    iterates, where allocated, are zero. *)
Lemma osqp_setup_returned data st h :
  scale_data_frame →
  wp True (osqp_setup data st) h
    (λ r _ _, ∀ w, r = Some w →
       ∃ i din, data = Some din ∧ w_info w = Some i ∧
                info_status_val i = OSQP_UNSOLVED ∧
                info_status i = status_text OSQP_UNSOLVED ∧
                zero_or_null (d_n din + d_m din) (w_x w) ∧
                zero_or_null (d_n din + d_m din) (w_z w) ∧
                zero_or_null (d_m din) (w_u w)).
Proof.
  intros Hframe. unfold osqp_setup.
  repeat first
    [ exact I
    | setup_step
    | lazymatch goal with
      | |- match ?p with Some _ => _ | None => _ end => destruct p eqn:?
      end ].
  all: try done.
  all: intros ? [= <-]; eexists _, _; split; [reflexivity|].
  all: cbn;
    rewrite ?(proj1 (proj2 (Hframe _))),
      ?(proj1 (proj2 (proj2 (Hframe _)))),
      ?(proj1 (proj2 (proj2 (proj2 (Hframe _))))); cbn.
  all: unfold zero_or_null; split_and!; try done.
  all: match goal with
       | |- context [grant ?k] => destruct (grant k); by eauto
       end.
Qed.

(** C10. After a successful [osqp_setup] (valid arguments, memory
    granted) the status of the returned workspace is [OSQP_UNSOLVED], with
    the text of that code, and the iterates [x], [z], [u] are zero. More
    generally every returned workspace has that status, and those of its
    iterates that the allocator granted are zero. *)
Theorem setup_initial_state data st din sin h :
  setup_inputs_ok data st din sin →
  scale_data_frame →
  ((∀ k, grant k = true) →
   ∃ w h' t i,
     osqp_setup data st h = Done (Some w) h' t ∧
     w_info w = Some i ∧
     info_status_val i = OSQP_UNSOLVED ∧
     info_status i = status_text OSQP_UNSOLVED ∧
     w_x w = Some (replicate (Z.to_nat (d_n din + d_m din)) c_zero) ∧
     w_z w = Some (replicate (Z.to_nat (d_n din + d_m din)) c_zero) ∧
     w_u w = Some (replicate (Z.to_nat (d_m din)) c_zero)) ∧
  (∀ w h' t,
     osqp_setup data st h = Done (Some w) h' t →
     ∃ i, w_info w = Some i ∧
          info_status_val i = OSQP_UNSOLVED ∧
          info_status i = status_text OSQP_UNSOLVED ∧
          zero_or_null (d_n din + d_m din) (w_x w) ∧
          zero_or_null (d_n din + d_m din) (w_z w) ∧
          zero_or_null (d_m din) (w_u w)).
Proof.
  intros Hin Hframe. split.
  - intros Hgrant.
    destruct (osqp_setup_granted data st din sin h Hin Hframe Hgrant)
      as (w & h' & t & i & s & Hrun & Hx & Hz & Hu & Hi & Hval & Htxt & _).
    by exists w, h', t, i.
  - intros w h' t Hrun.
    destruct (wp_returned _ _ _ _ _ _
                (osqp_setup_returned data st h Hframe) Hrun w eq_refl)
      as (i & din' & Hdata & ?).
    destruct Hin as (Hdata' & _). rewrite Hdata' in Hdata.
    injection Hdata as <-. by exists i.
Qed.

End Setup.

(** ** [osqp_solve] *)

Section Solve.
Context {c_float : Type} {ops : FloatOps c_float} {csc Priv Timer : Type}.
Context {build : Build} {collab : @Collaborators c_float csc Priv Timer}.
Implicit Types (w : @Work c_float csc Priv Timer) (d : @Data c_float csc).
Implicit Types (iter r : c_int) (rs : list c_int).

Lemma ready_like_refl w : solve_ready w → ready_like w w.
Proof. done. Qed.

Lemma ready_like_trans w0 w1 w2 :
  ready_like w0 w1 → ready_like w1 w2 → ready_like w0 w2.
Proof. intros [? ?] [? ?]. split; [done|congruence]. Qed.

Lemma ready_like_set_x w0 w x : ready_like w0 w → ready_like w0 (set_w_x x w).
Proof. done. Qed.

Lemma ready_like_set_info w0 w i :
  ready_like w0 w → ready_like w0 (set_w_info (Some i) w).
Proof. intros [(?&?&?&?) ?]. split; [|done]. by split_and!. Qed.

Lemma ready_like_set_timer w0 w t :
  ready_like w0 w → ready_like w0 (set_w_timer (Some t) w).
Proof. intros [(?&?&?&?) ?]. split; [|done]. by split_and!. Qed.

Lemma wp_call ab e f w0 w Q :
  keeps_ready f → ready_like w0 w →
  (∀ w', ready_like w0 w' → Q () w' [e]) →
  wp ab (call e f) w Q.
Proof.
  intros Hf Hw HQ. unfold call. wp_run. apply HQ.
  eapply ready_like_trans; [done|]. apply Hf, Hw.
Qed.

(** The same call, with the workspace it leaves. *)
Lemma wp_call_eq ab e f w0 w Q :
  keeps_ready f → ready_like w0 w →
  (∀ w', w' = f w → ready_like w0 w' → Q () w' [e]) →
  wp ab (call e f) w Q.
Proof.
  intros Hf Hw HQ. unfold call. wp_run. apply HQ; [done|].
  eapply ready_like_trans; [done|]. apply Hf, Hw.
Qed.

(** One iteration on a ready workspace returns; it leaves the workspace
    and the result of [iteration_effect], and its calls are the steps of
    an iteration. *)
Lemma admm_iteration_run iter w0 w :
  solve_contract → ready_like w0 w →
  ∃ r w' t, admm_iteration iter w = Done r w' t ∧ ready_like w0 w' ∧
            iteration_effect iter w = (w', r) ∧
            without_summary t = admm_steps iter r ∧
            List.filter is_polish t = [].
Proof.
  intros (Hcold & Hrhs & Hx & Hproj & Hu & Hinfo & Hres & Hpol) Hw.
  apply wp_done. unfold admm_iteration.
  pose proof Hw
    as [(Hs & Hi & Ht & d & zv & zp & Hd & Hz & Hzp & Hlz & Hlp) Hw0].
  wp_run. rewrite Hz, Hzp. apply wp_prea_vec_copy; [done..|]. wp_run.
  assert (ready_like w0 (set_w_z_prev (Some zv) w)) as Hw1.
  { split; [|done]. split_and!; [done..|]. by exists d, zv, zv. }
  eapply wp_call_eq; [exact Hrhs|exact Hw1|]. intros w2 E2 Hw2. wp_run.
  eapply wp_call_eq; [exact Hx|apply ready_like_set_x, Hw2|].
  intros w3 E3 Hw3. wp_run.
  eapply wp_call_eq; [exact Hproj|exact Hw3|]. intros w4 E4 Hw4. wp_run.
  eapply wp_call_eq; [exact Hu|exact Hw4|]. intros w5 E5 Hw5. wp_run.
  eapply wp_call_eq; [apply Hinfo|exact Hw5|]. intros w6 E6 Hw6. wp_run.
  cbv beta in E6.
  destruct (residuals_check w6) as [w7 r] eqn:Hrc.
  assert (ready_like w0 w7) as Hw7.
  { eapply ready_like_trans; [exact Hw6|].
    pose proof (Hres w6 (proj1 Hw6)) as Hr. cbv beta in Hr.
    by rewrite Hrc in Hr. }
  assert (iteration_effect iter w = (w7, r)) as Heff.
  { unfold iteration_effect. cbv zeta.
    by rewrite Hz, <-E2, <-E3, <-E4, <-E5, <-E6. }
  pose proof Hw6 as [([s6 Hs6] & _) _].
  destruct (1 <? PRINTLEVEL).
  - wp_run.
    destruct (truthy (s_verbose s6) && (Z.rem iter PRINT_INTERVAL =? 0));
      wp_run; rewrite Hrc; by wp_run.
  - wp_run. rewrite Hrc. by wp_run.
Qed.

Lemma admm_loop_unfold fuel iter :
  admm_loop fuel iter
  = (w ← get;
     s ← deref (w_settings w);
     if iter <? s_max_iter s then
       match fuel with
       | O => stop OutOfFuel
       | S fuel' =>
           r ← admm_iteration iter;
           if truthy r then mret iter else admm_loop fuel' (iter + 1)
       end
     else mret iter).
Proof. by destruct fuel. Qed.

(** With fuel for the iterations left, the loop returns; it leaves the
    workspace of [loop_effect], its steps are those of consecutive
    iterations, at most up to [max_iter], and it stops at the first check
    that passes. *)
Lemma admm_loop_wp fuel iter w0 w s :
  solve_contract → ready_like w0 w → w_settings w0 = Some s →
  s_max_iter s - iter ≤ Z.of_nat fuel →
  wp False (admm_loop fuel iter) w
    (λ iter' w' t, ∃ rs,
       ready_like w0 w' ∧
       loop_effect (Z.to_nat (s_max_iter s - iter)) iter w = (w', rs) ∧
       without_summary t = admm_trace iter rs ∧
       List.filter is_polish t = [] ∧
       iter + Z.of_nat (length rs) ≤ Z.max iter (s_max_iter s) ∧
       (∀ k r, rs !! k = Some r → r ≠ 0 → S k = length rs) ∧
       (iter + Z.of_nat (length rs) < s_max_iter s →
        ∃ r, last rs = Some r ∧ r ≠ 0)).
Proof.
  intros Hc Hw Hs. revert iter w Hw.
  induction fuel as [|fuel IH]; intros iter w Hw Hfuel.
  all: rewrite admm_loop_unfold; pose proof Hw as [_ Hws];
    rewrite Hs in Hws; wp_run.
  all: destruct (Z.ltb_spec iter (s_max_iter s)) as [Hlt|Hge].
  all: try (wp_run; exists [];
            replace (Z.to_nat (s_max_iter s - iter)) with 0%nat by lia;
            simpl; split_and!; [done..|lia|done|lia]).
  - lia.
  - destruct (admm_iteration_run iter w0 w Hc Hw)
      as (r & w1 & t1 & Hrun & Hw1 & Heff & Ht1 & Hp1).
    replace (Z.to_nat (s_max_iter s - iter))
      with (S (Z.to_nat (s_max_iter s - (iter + 1)))) by lia.
    cbn [loop_effect]. rewrite Heff.
    wp_step. eapply wp_of_run; [exact Hrun|].
    destruct (truthy r) eqn:Hr.
    + wp_run. exists [r]. simpl. rewrite !app_nil_r.
      unfold without_summary in *.
      apply truthy_true in Hr. split_and!; [done..|lia| |by eauto].
      intros [|k] r'; [done|]. by intros [=].
    + specialize (IH (iter + 1) w1 Hw1).
      eapply wp_mono; [apply IH; lia|]. cbv beta.
      intros iter' w2 t2 (rs & ? & Heff2 & Ht2 & Hp2 & Hlen & Hlast & Hshort).
      exists (r :: rs). simpl. apply truthy_false in Hr.
      unfold without_summary in *.
      rewrite !List.filter_app, Ht1, Ht2, Hp1, Hp2, Heff2. simpl.
      split_and!; [done..|lia| |].
      * intros [|k] r'; simpl.
        -- intros [= <-]. done.
        -- intros Hk Hr'. f_equal. by eapply Hlast.
      * intros Hsh. destruct Hshort as (r' & Hl & Hr'); [lia|].
        exists r'. split; [|done]. by destruct rs.
Qed.

(** Lines 147-198 return, leaving a ready workspace: the one of
    [loop_effect] from [loop_entry]. Their trace is what precedes the loop,
    then the loop. *)
Lemma solve_admm_wp fuel w s :
  solve_contract → solve_ready w → w_settings w = Some s →
  s_max_iter s ≤ Z.of_nat fuel →
  wp False (solve_admm fuel) w
    (λ iter' w' t, ∃ pre loop rs,
       t = pre ++ loop ∧
       ready_like w w' ∧
       loop_effect (Z.to_nat (s_max_iter s)) 0 (loop_entry w) = (w', rs) ∧
       List.filter is_admm_step pre = [] ∧
       without_summary loop = admm_trace 0 rs ∧
       List.filter is_polish t = [] ∧
       Z.of_nat (length rs) ≤ Z.max 0 (s_max_iter s) ∧
       exits_on_first_pass (s_max_iter s) rs).
Proof.
  intros Hc Hw Hs Hfuel. unfold solve_admm.
  remember (loop_entry w) as we eqn:Hentry.
  assert (∀ w1, ready_like w w1 → w1 = we →
    wp False (admm_loop fuel 0) w1
      (λ iter' w' t, ∃ rs,
         ready_like w w' ∧
         loop_effect (Z.to_nat (s_max_iter s)) 0 we = (w', rs) ∧
         without_summary t = admm_trace 0 rs ∧
         List.filter is_polish t = [] ∧
         Z.of_nat (length rs) ≤ Z.max 0 (s_max_iter s) ∧
         exits_on_first_pass (s_max_iter s) rs)) as Hloop.
  { intros w1 Hw1 <-.
    eapply wp_mono; [by apply (admm_loop_wp fuel 0 w w1 s); [..|lia]|].
    cbv beta. intros iter' w' t (rs & ? & Heff & ? & ? & ? & ? & ?).
    rewrite Z.sub_0_r in Heff. exists rs. by split_and!. }
  pose proof Hw as (_ & _ & Ht & _).
  pose proof (ready_like_refl _ Hw) as Hww.
  assert (∀ w1, ready_like w w1 → w_settings w1 = Some s) as Hset.
  { intros w1 [_ ->]. done. }
  unfold loop_entry in Hentry. cbv zeta in Hentry.
  destruct (truthy (s_warm_start s)) eqn:Hwarm.
  all: wp_step; wp_step; destruct (0 <? PROFILING) eqn:Hp.
  all: try (destruct Ht as [tm Htm]; [done|]; rewrite Htm in Hentry).
  all: cbn [fmap option_fmap option_map w_settings set_w_timer] in Hentry.
  all: rewrite Hs, Hwarm in Hentry.
  all: wp_run.
  all: destruct (1 <? PRINTLEVEL) eqn:Hpl.
  all: wp_run.
  all: try (rewrite (Hset _ (ready_like_set_timer _ _ _ Hww)); cbv beta iota).
  all: try destruct (truthy (s_verbose s)).
  all: wp_run.
  all: try (rewrite (Hset _ (ready_like_set_timer _ _ _ Hww)); cbv beta iota).
  all: wp_run.
  all: rewrite ?Hwarm; cbn [negb]; cbv beta iota.
  all: try (eapply wp_call_eq;
            [apply Hc
            |eauto using ready_like_set_timer
            |intros w1 E1 Hw1; cbv beta]).
  all: (eapply wp_mono;
        [apply Hloop; [eauto using ready_like_set_timer|congruence]|]).
  all: cbv beta; intros iter' w' t (rs & ? & ? & ? & Hpo & ? & ?).
  all: rewrite ?app_assoc; eexists _, t, rs.
  all: split; [reflexivity|]; rewrite (List.filter_app is_polish), Hpo.
  all: simpl; by split_and!.
Qed.

(** Lines 201-235 return 0. They perform no step of an iteration; the
    test of line 216 decides, on the state the loop left, whether [polish]
    is applied to the workspace, once, or not at all. *)
Lemma solve_finish_wp iter w0 w s i :
  solve_contract → ready_like w0 w →
  w_settings w = Some s → w_info w = Some i →
  wp False (solve_finish 0 iter) w
    (λ flag w' t,
       flag = 0 ∧
       w' = after_polish
              (if truthy (s_polishing s) && (info_status_val i =? OSQP_SOLVED)
               then polish (before_polish w) else before_polish w) ∧
       List.filter is_admm_step t = [] ∧
       List.filter is_polish t
       = if truthy (s_polishing s) && (info_status_val i =? OSQP_SOLVED)
         then [EvPolish] else []).
Proof.
  intros Hc Hw Hs Hi. unfold solve_finish.
  pose proof Hw as [(_ & _ & Ht & _) _].
  remember (before_polish w) as wb eqn:Hb.
  unfold before_polish in Hb. cbv zeta in Hb. rewrite Hi in Hb.
  wp_step. destruct (1 <? PRINTLEVEL) eqn:Hpl.
  all: wp_run.
  all: try destruct (truthy (s_verbose s)
                     && negb (Z.rem iter PRINT_INTERVAL =? 0)).
  all: wp_run.
  all: destruct (0 <? PROFILING) eqn:Hp.
  all: try (destruct Ht as [tm Htm]; [done|]).
  all: wp_run.
  all: try (rewrite Htm; cbv beta iota).
  all: wp_run.
  all: cbn in Hb; try rewrite Htm in Hb; cbn in Hb.
  all: destruct (truthy (s_polishing s)); wp_run.
  all: cbn [info_status_val set_info_solve_time update_status_string
            set_info_status andb].
  all: try destruct (info_status_val i =? OSQP_SOLVED); cbv beta iota.
  all: try (eapply wp_call_eq;
            [apply Hc
            |eauto using ready_like_set_info
            |intros w1 E1 [([s1 Hs1] & [i1 Hi1] & _) _]; cbv beta]).
  all: wp_run.
  all: destruct (0 <? PRINTLEVEL); unfold call; wp_run.
  all: split_and!; try done.
  all: unfold after_polish; rewrite Hp; cbv zeta; subst wb.
  all: rewrite <-?E1, ?Hi1; by cbn.
Qed.

Lemma polish_elem (t : list event) :
  EvPolish ∈ t ↔ List.filter is_polish t ≠ [].
Proof.
  rewrite list_elem_of_In. split.
  - intros Hin Hnil.
    assert (In EvPolish (List.filter is_polish t)) as Hf.
    { by apply List.filter_In. }
    by rewrite Hnil in Hf.
  - destruct (List.filter is_polish t) as [|e l] eqn:Hf; [done|]. intros _.
    assert (In e (List.filter is_polish t)) as Hin.
    { rewrite Hf. by left. }
    apply List.filter_In in Hin as [Hin He]. by destruct e.
Qed.

(** The run of [osqp_solve] from a ready workspace: both halves return,
    the trace is what precedes the loop, the loop, and what follows it,
    and the workspace is the one of [loop_effect], then polished or not,
    then stored. *)
Lemma osqp_solve_run fuel w s :
  solve_contract → solve_ready w → w_settings w = Some s →
  s_max_iter s ≤ Z.of_nat fuel →
  ∃ iter w1 i1 w' pre loop post rs,
    solve_admm fuel w = Done iter w1 (pre ++ loop) ∧
    w_settings w1 = Some s ∧ w_info w1 = Some i1 ∧
    osqp_solve fuel w = Done 0 w' (pre ++ loop ++ post) ∧
    List.filter is_admm_step pre = [] ∧
    without_summary loop = admm_trace 0 rs ∧
    List.filter is_admm_step post = [] ∧
    Z.of_nat (length rs) ≤ Z.max 0 (s_max_iter s) ∧
    exits_on_first_pass (s_max_iter s) rs ∧
    List.filter is_polish (pre ++ loop ++ post)
    = (if truthy (s_polishing s) && (info_status_val i1 =? OSQP_SOLVED)
       then [EvPolish] else []) ∧
    loop_effect (Z.to_nat (s_max_iter s)) 0 (loop_entry w) = (w1, rs) ∧
    w' = after_polish
           (if truthy (s_polishing s) && (info_status_val i1 =? OSQP_SOLVED)
            then polish (before_polish w1) else before_polish w1).
Proof.
  intros Hc Hw Hs Hfuel.
  destruct (proj1 (wp_done _ _ _) (solve_admm_wp fuel w s Hc Hw Hs Hfuel))
    as (iter & w1 & t1 & Hrun1 & pre & loop & rs & -> & Hw1 & Heff & Hpre
        & Hloop & Hpo1 & Hlen & Hexit).
  pose proof Hw1 as [(_ & [i1 Hi1] & _) Hs1]. rewrite Hs in Hs1.
  destruct (proj1 (wp_done _ _ _)
              (solve_finish_wp iter w w1 s i1 Hc Hw1 Hs1 Hi1))
    as (flag & w' & post & Hrun2 & -> & Hw' & Hpost & Hpo2).
  exists iter, w1, i1, w', pre, loop, post, rs. split_and!; try done.
  - unfold osqp_solve, mbind, M_bind. by rewrite Hrun1, Hrun2, <-app_assoc.
  - by rewrite app_assoc, List.filter_app, Hpo1, Hpo2.
Qed.

(** C1. [osqp_solve] performs at most [max_iter] iterations. Its run
    consists of what precedes the loop, the loop and what follows it; the
    loop, printing of the summary apart, is iteration after iteration
    exactly this sequence of calls: the copy of [z] into [z_prev],
    [compute_rhs], [solve_lin_sys], [update_x], [project_x], [update_u],
    [update_info] and [residuals_check]; no such step occurs outside the
    loop; and the loop is left at the first check that passes. The
    workspace that the loop leaves is the one of [loop_effect]: each
    iteration has copied [z] into [z_prev], stored the solution of the
    linear system in [x] and applied the other steps to the workspace, in
    this order, from the workspace at the entry of the loop; the results
    of the checks are those of these steps. *)
Theorem solve_iterations fuel w s :
  solve_contract → solve_ready w → w_settings w = Some s →
  s_max_iter s ≤ Z.of_nat fuel →
  ∃ iter w1 w' pre loop post rs,
    osqp_solve fuel w = Done 0 w' (pre ++ loop ++ post) ∧
    List.filter is_admm_step pre = [] ∧
    without_summary loop = admm_trace 0 rs ∧
    List.filter is_admm_step post = [] ∧
    Z.of_nat (length rs) ≤ Z.max 0 (s_max_iter s) ∧
    exits_on_first_pass (s_max_iter s) rs ∧
    solve_admm fuel w = Done iter w1 (pre ++ loop) ∧
    loop_effect (Z.to_nat (s_max_iter s)) 0 (loop_entry w) = (w1, rs) ∧
    solve_finish 0 iter w1 = Done 0 w' post.
Proof.
  intros Hc Hw Hs Hfuel.
  destruct (osqp_solve_run fuel w s Hc Hw Hs Hfuel)
    as (iter & w1 & i1 & w' & pre & loop & post & rs & Hrun1 & _ & _ & Hrun
        & Hpre & Hloop & Hpost & Hlen & Hexit & _ & Heff & _).
  exists iter, w1, w', pre, loop, post, rs. split_and!; try done.
  revert Hrun. unfold osqp_solve, mbind, M_bind. rewrite Hrun1.
  destruct (solve_finish 0 iter w1) as [flag w2 t2|]; [|done].
  rewrite app_assoc. intros [= -> -> ->%app_inv_head]. done.
Qed.

(** C8. In a run of [osqp_solve], [polish] is called exactly when the
    polishing setting is on and the status that the loop left is
    [OSQP_SOLVED]; it is not called when that status is
    [OSQP_MAX_ITER_REACHED] or [OSQP_UNSOLVED]. When it is called, it is
    called once and applied to the workspace at the test, and what it
    returns goes on to the run time and to [store_solution]; when it is
    not, the workspace at the test goes on as it is. *)
Theorem polish_invocation fuel w s :
  status_codes_distinct →
  solve_contract → solve_ready w → w_settings w = Some s →
  s_max_iter s ≤ Z.of_nat fuel →
  ∃ iter w1 t1 s1 i1 w' t,
    solve_admm fuel w = Done iter w1 t1 ∧
    w_settings w1 = Some s1 ∧ w_info w1 = Some i1 ∧
    osqp_solve fuel w = Done 0 w' t ∧
    (EvPolish ∈ t ↔
     s_polishing s1 ≠ 0 ∧ info_status_val i1 = OSQP_SOLVED) ∧
    (info_status_val i1 = OSQP_MAX_ITER_REACHED ∨
     info_status_val i1 = OSQP_UNSOLVED → EvPolish ∉ t) ∧
    (s_polishing s1 ≠ 0 ∧ info_status_val i1 = OSQP_SOLVED →
     List.filter is_polish t = [EvPolish] ∧
     w' = after_polish (polish (before_polish w1))) ∧
    (s_polishing s1 = 0 ∨ info_status_val i1 ≠ OSQP_SOLVED →
     w' = after_polish (before_polish w1)).
Proof.
  intros [Hne1 Hne2] Hc Hw Hs Hfuel.
  destruct (osqp_solve_run fuel w s Hc Hw Hs Hfuel)
    as (iter & w1 & i1 & w' & pre & loop & post & rs & Hrun1 & Hs1 & Hi1
        & Hrun & _ & _ & _ & _ & _ & Hpo & _ & Hw').
  exists iter, w1, (pre ++ loop), s, i1, w', (pre ++ loop ++ post).
  assert (truthy (s_polishing s) && (info_status_val i1 =? OSQP_SOLVED) = true
          ↔ s_polishing s ≠ 0 ∧ info_status_val i1 = OSQP_SOLVED) as Htest.
  { by rewrite andb_true_iff, truthy_true, Z.eqb_eq. }
  assert (EvPolish ∈ pre ++ loop ++ post ↔
          s_polishing s ≠ 0 ∧ info_status_val i1 = OSQP_SOLVED) as Hiff.
  { rewrite polish_elem, Hpo, <-Htest.
    by destruct (truthy (s_polishing s) && (info_status_val i1 =? OSQP_SOLVED)). }
  split_and!; try done.
  - rewrite Hiff. intros [Hv|Hv] [_ Hsolved]; congruence.
  - intros Hyes%Htest. by rewrite Hpo, Hw', Hyes.
  - intros Hno. rewrite Hw'.
    destruct (truthy (s_polishing s) && (info_status_val i1 =? OSQP_SOLVED));
      [|done].
    destruct (proj1 Htest eq_refl) as [? ?]. by destruct Hno.
Qed.

End Solve.

(** ** Binary64 and exact arithmetic *)

Lemma SFcompare_swap x y :
  SFcompare y x = option_map CompOpp (SFcompare x y).
Proof.
  destruct x as [sx|sx| |sx mx ex], y as [sy|sy| |sy my ey]; simpl;
    try reflexivity;
    try (destruct sx; reflexivity); try (destruct sy; reflexivity);
    try (destruct sx, sy; reflexivity).
  destruct sx, sy; simpl; try reflexivity;
    rewrite (Z.compare_antisym ey ex); destruct (ey ?= ex)%Z; simpl;
    try reflexivity;
    rewrite ?CompOpp_involutive, ?Pos.compare_cont_antisym; reflexivity.
Qed.

(** On binary64, [a <= b] excludes [a > b]. *)
Lemma double_le_excludes_gt : le_excludes_gt float.
Proof.
  intros a b. unfold c_gt. simpl. rewrite leb_spec, ltb_spec.
  unfold SFleb, SFltb. rewrite (SFcompare_swap (Prim2SF a) (Prim2SF b)).
  destruct (SFcompare (Prim2SF a) (Prim2SF b)) as [[]|]; simpl; congruence.
Qed.

(** In exact arithmetic a positive scaling leaves every comparison as it
    is. *)
Lemma exact_scaling_exact (e a b : list Q) :
  positive e → scaling_exact e a b.
Proof.
  intros Hpos i s x y Hs _ _.
  pose proof (proj1 (Forall_lookup _ _) Hpos i s Hs) as Hs0.
  unfold c_gt. simpl in *. f_equal.
  assert (0 < s)%Q as Hlt.
  { apply Qnot_le_lt. intros Hle%Qle_bool_iff. by rewrite Hle in Hs0. }
  apply eq_true_iff_eq. rewrite !Qle_bool_iff. by apply Qmult_le_r.
Qed.

(** *** Multiplication by a positive double is monotone *)

(** [digits2_pos m] is the number of bits of [m]. *)
Lemma digits2_pos_bounds (m : BinNums.positive) :
  2 ^ (Z.pos (digits2_pos m) - 1) ≤ Z.pos m < 2 ^ Z.pos (digits2_pos m).
Proof.
  induction m as [m IH|m IH|]; cbn [digits2_pos].
  - rewrite Pos2Z.inj_succ.
    replace (Z.succ (Z.pos (digits2_pos m)) - 1)
      with (Z.succ (Z.pos (digits2_pos m) - 1)) by lia.
    rewrite !Z.pow_succ_r by lia. lia.
  - rewrite Pos2Z.inj_succ.
    replace (Z.succ (Z.pos (digits2_pos m)) - 1)
      with (Z.succ (Z.pos (digits2_pos m) - 1)) by lia.
    rewrite !Z.pow_succ_r by lia. lia.
  - simpl. lia.
Qed.

Lemma shifted_0 (M : Z) : shifted M 0 (shr_record_of_loc M loc_Exact).
Proof.
  unfold shifted. simpl. rewrite Z.div_1_r, !Z.mod_1_r.
  split_and!; [done|split; [done|lia]|split; [done|intros []; done]].
Qed.

Lemma shr_1_m (mrs : shr_record) :
  0 ≤ shr_m mrs →
  shr_m (shr_1 mrs) = shr_m mrs / 2 ∧
  (shr_r (shr_1 mrs) = true ↔ shr_m mrs mod 2 = 1) ∧
  shr_s (shr_1 mrs) = shr_r mrs || shr_s mrs.
Proof.
  destruct mrs as [m r s]. simpl. intros Hm.
  destruct m as [|[p|p|]|p]; simpl; try lia; split_and!; try done.
  - rewrite Pos2Z.inj_xI. apply (Z.div_unique _ 2 _ 1); lia.
  - split; [intros _|done]. rewrite Pos2Z.inj_xI.
    symmetry. apply (Z.mod_unique _ 2 (Z.pos p) 1); lia.
  - rewrite Pos2Z.inj_xO. apply (Z.div_unique _ 2 _ 0); lia.
  - split; [done|]. rewrite Pos2Z.inj_xO.
    rewrite (Z.mul_comm 2), Z.mod_mul by lia. done.
Qed.

Lemma shifted_step (M k : Z) (mrs : shr_record) :
  0 ≤ M → 0 ≤ k → shifted M k mrs → shifted M (k + 1) (shr_1 mrs).
Proof.
  intros HM Hk (Hm & Hr & Hs).
  assert (0 < 2 ^ k) as Hpos by (apply Z.pow_pos_nonneg; lia).
  assert (0 ≤ shr_m mrs) as Hm0.
  { rewrite Hm. apply Z.div_pos; lia. }
  destruct (shr_1_m mrs Hm0) as (Hm' & Hr' & Hs').
  unfold shifted. rewrite Z.pow_add_r, Z.pow_1_r by lia.
  pose proof (Z.div_mod M (2 ^ k) ltac:(lia)) as HM1.
  pose proof (Z.mod_pos_bound M (2 ^ k) Hpos) as Hrho.
  pose proof (Z.div_mod (M / 2 ^ k) 2 ltac:(lia)) as HM2.
  pose proof (Z.mod_pos_bound (M / 2 ^ k) 2 ltac:(lia)) as Hbit.
  rewrite Hm in Hm', Hr'.
  set (q := M / 2 ^ k) in *. set (rho := M mod 2 ^ k) in *.
  set (bit := q mod 2) in *. set (P := 2 ^ k) in *.
  assert (M / (P * 2) = q / 2) as Hq'.
  { rewrite <-Z.div_div by lia. done. }
  assert (M mod (P * 2) = bit * P + rho) as Hrho'.
  { symmetry. apply (Z.mod_unique _ _ (q / 2)); nia. }
  assert ((2 * (bit * P + rho)) mod (P * 2) = 2 * rho) as Hmod.
  { symmetry. apply (Z.mod_unique _ _ bit); nia. }
  rewrite Hq', Hrho', Hmod, Hm', Hr', Hs'.
  split_and!; [done|nia|].
  rewrite orb_true_iff, Hr, Hs.
  destruct (Z.lt_ge_cases (2 * rho) P) as [Hlt|Hge].
  - rewrite Z.mod_small by lia. lia.
  - split; [lia|]. intros _. by left.
Qed.

Lemma shifted_iter (p : BinNums.positive) (M k : Z) (mrs : shr_record) :
  0 ≤ M → 0 ≤ k → shifted M k mrs →
  shifted M (k + Z.pos p) (SpecFloat.iter_pos shr_1 p mrs).
Proof.
  intros HM. revert k mrs.
  induction p as [p IH|p IH|]; intros k mrs Hk Hsh; cbn [SpecFloat.iter_pos].
  - replace (k + Z.pos p~1) with (k + 1 + Z.pos p + Z.pos p) by lia.
    apply IH; [lia|]. apply IH; [lia|]. by apply shifted_step.
  - replace (k + Z.pos p~0) with (k + Z.pos p + Z.pos p) by lia.
    apply IH; [lia|]. by apply IH.
  - by apply shifted_step.
Qed.

(** Rounding a shifted mantissa to nearest even is [rne]. *)
Lemma shifted_round (M k : Z) (mrs : shr_record) :
  0 ≤ M → 0 ≤ k → shifted M k mrs →
  round_nearest_even (shr_m mrs) (loc_of_shr_record mrs) = rne M k.
Proof.
  intros HM Hk (Hm & Hr & Hs). unfold rne. cbv zeta.
  assert (0 < 2 ^ k) as Hpos by (apply Z.pow_pos_nonneg; lia).
  pose proof (Z.mod_pos_bound M (2 ^ k) Hpos) as Hrho.
  set (rho := M mod 2 ^ k) in *. set (P := 2 ^ k) in *.
  destruct mrs as [m r s]. simpl in *. subst m.
  destruct (Z.ltb_spec (2 * rho) P) as [Hlt|Hge].
  - assert (r = false) as -> by (destruct r; [|done]; lia).
    by destruct s.
  - assert (r = true) as -> by (destruct r; [done|]; destruct Hr; lia).
    destruct (Z.ltb_spec P (2 * rho)) as [Hgt|Hle].
    + assert (s = true) as ->; [|done].
      destruct s; [done|]. destruct Hs as [_ Hs].
      exfalso. assert ((2 * rho) mod P ≠ 0) as Hne; [|by specialize (Hs Hne)].
      replace (2 * rho) with (2 * rho - P + 1 * P) by lia.
      rewrite Z.mod_add by lia. rewrite Z.mod_small by lia. lia.
    + assert (s = false) as ->; [|done].
      destruct s; [|done]. destruct Hs as [Hs _]. exfalso. apply Hs; [done|].
      replace (2 * rho) with P by lia. by apply Z.mod_same; lia.
Qed.

Lemma rne_0 (M : Z) : rne M 0 = M.
Proof. unfold rne. simpl. by rewrite Z.div_1_r, Z.mod_1_r. Qed.

Lemma rne_bounds (M k : Z) :
  0 ≤ k → M / 2 ^ k ≤ rne M k ≤ M / 2 ^ k + 1.
Proof.
  intros Hk. unfold rne. cbv zeta.
  destruct (_ <? _); [lia|]. destruct (_ <? _); [lia|].
  destruct (Z.even _); lia.
Qed.

Lemma rne_mono (M M' k : Z) :
  0 ≤ k → M ≤ M' → rne M k ≤ rne M' k.
Proof.
  intros Hk HM.
  assert (0 < 2 ^ k) as Hpos by (apply Z.pow_pos_nonneg; lia).
  pose proof (Z.div_le_mono M M' (2 ^ k) Hpos HM) as Hq.
  pose proof (rne_bounds M k Hk) as Hb.
  pose proof (rne_bounds M' k Hk) as Hb'.
  destruct (Z.eq_dec (M / 2 ^ k) (M' / 2 ^ k)) as [Heq|Hne]; [|lia].
  pose proof (Z.div_mod M (2 ^ k) ltac:(lia)) as HM1.
  pose proof (Z.div_mod M' (2 ^ k) ltac:(lia)) as HM2.
  rewrite <-Heq in HM2.
  unfold rne. cbv zeta. rewrite <-Heq.
  set (q := M / 2 ^ k) in *. set (P := 2 ^ k) in *.
  assert (M mod P ≤ M' mod P) as Hrho by lia.
  destruct (Z.ltb_spec (2 * (M mod P)) P), (Z.ltb_spec (2 * (M' mod P)) P),
    (Z.ltb_spec P (2 * (M mod P))), (Z.ltb_spec P (2 * (M' mod P)));
    try lia; destruct (Z.even q); lia.
Qed.

Lemma rne_scale (M k j : Z) :
  0 ≤ k → 0 ≤ j → rne (M * 2 ^ j) (k + j) = rne M k.
Proof.
  intros Hk Hj.
  assert (0 < 2 ^ k) as Hpos by (apply Z.pow_pos_nonneg; lia).
  assert (0 < 2 ^ j) as Hposj by (apply Z.pow_pos_nonneg; lia).
  unfold rne. cbv zeta. rewrite Z.pow_add_r by lia.
  rewrite Z.div_mul_cancel_r by lia.
  rewrite Z.mul_mod_distr_r by lia.
  set (q := M / 2 ^ k). set (rho := M mod 2 ^ k).
  set (P := 2 ^ k) in *. set (J := 2 ^ j) in *.
  destruct (Z.ltb_spec (2 * rho) P), (Z.ltb_spec (2 * (rho * J)) (P * J)),
    (Z.ltb_spec P (2 * rho)), (Z.ltb_spec (P * J) (2 * (rho * J)));
    try done; nia.
Qed.

Lemma fexp_64 (e : Z) : fexp prec emax e = Z.max (e - 53) (-1074).
Proof. reflexivity. Qed.

Lemma Zdigits2_pos_bounds (m : Z) :
  0 < m → 2 ^ (Zdigits2 m - 1) ≤ m < 2 ^ Zdigits2 m.
Proof.
  destruct m as [|p|p]; [lia| |lia]. intros _. apply digits2_pos_bounds.
Qed.

Lemma Zdigits2_pos (m : Z) : 0 < m → 0 < Zdigits2 m.
Proof. destruct m; simpl; lia. Qed.

(** The rounded mantissa of a product has at most 54 bits, and at least
    53 above the subnormal range. *)
Lemma rne_range (M : BinNums.positive) (E : Z) :
  let a := fexp prec emax (Zdigits2 (Z.pos M) + E) in
  E ≤ a →
  0 ≤ rne (Z.pos M) (a - E) ≤ 2 ^ 53 ∧
  (-1074 < a → 2 ^ 52 ≤ rne (Z.pos M) (a - E)).
Proof.
  intros a Ha. subst a. rewrite fexp_64 in *.
  pose proof (digits2_pos_bounds M) as [Hlo Hhi].
  cbn [Zdigits2] in *. set (d := Z.pos (digits2_pos M)) in *.
  assert (0 < d) as Hd by (subst d; lia).
  set (a := Z.max (d + E - 53) (-1074)) in *.
  set (k := a - E).
  assert (0 ≤ k) as Hk by lia.
  assert (0 < 2 ^ k) as Hpos by (apply Z.pow_pos_nonneg; lia).
  pose proof (rne_bounds (Z.pos M) k Hk) as [Hr1 Hr2].
  split.
  - split.
    + assert (0 ≤ Z.pos M / 2 ^ k) by (apply Z.div_pos; lia). lia.
    + assert (Z.pos M / 2 ^ k < 2 ^ 53); [|lia].
      apply Z.div_lt_upper_bound; [lia|].
      rewrite <-Z.pow_add_r by lia.
      eapply Z.lt_le_trans; [exact Hhi|].
      apply Z.pow_le_mono_r; lia.
  - intros Hnorm.
    assert (d = k + 53) as Hdk by lia.
    assert (2 ^ 52 ≤ Z.pos M / 2 ^ k); [|lia].
    apply Z.div_le_lower_bound; [lia|].
    rewrite <-Z.pow_add_r by lia.
    eapply Z.le_trans; [|exact Hlo].
    apply Z.pow_le_mono_r; lia.
Qed.

(** [binary_round_aux] on a mantissa that has to be shifted to the right,
    or not at all. *)
Lemma binary_round_aux_spec (s : bool) (M : BinNums.positive) (E : Z) :
  let a := fexp prec emax (Zdigits2 (Z.pos M) + E) in
  E ≤ a →
  binary_round_aux prec emax s (Z.pos M) E loc_Exact
  = rounded_float s (rne (Z.pos M) (a - E)) a.
Proof.
  intros a Ha.
  destruct (rne_range M E Ha) as [[Hr0 Hr53] _]. fold a in Hr0, Hr53.
  assert (-1074 ≤ a) as Hemin by (subst a; rewrite fexp_64; lia).
  unfold binary_round_aux, shr_fexp. fold a.
  assert (∃ mrs, shr (shr_record_of_loc (Z.pos M) loc_Exact) E (a - E)
                 = (mrs, a) ∧
                 round_nearest_even (shr_m mrs) (loc_of_shr_record mrs)
                 = rne (Z.pos M) (a - E)) as (mrs & -> & ->).
  { unfold shr. destruct (a - E) as [|p|p] eqn:Hk; [| |lia].
    - eexists. split; [f_equal; lia|]. simpl. by rewrite rne_0.
    - eexists. split; [f_equal; lia|].
      apply shifted_round; [lia..|].
      apply (shifted_iter p (Z.pos M) 0); [lia..|]. apply shifted_0. }
  set (m := rne (Z.pos M) (a - E)) in *.
  unfold rounded_float.
  destruct (Z.eqb_spec m 0) as [->|Hm0].
  { simpl. rewrite fexp_64.
    replace (Z.max (0 + a - 53) (-1074) - a) with (Z.max (- 53) (-1074 - a))
      by lia.
    unfold shr. destruct (Z.max (-53) (-1074 - a)) eqn:Hn; try lia; done. }
  destruct (Z.eqb_spec m (2 ^ 53)) as [->|Hm53].
  { replace (Zdigits2 (2 ^ 53)) with 54 by reflexivity.
    rewrite fexp_64.
    replace (Z.max (54 + a - 53) (-1074) - a) with 1 by lia.
    cbn [shr shr_record_of_loc SpecFloat.iter_pos].
    replace (a + 1 <=? emax - prec) with (a + 1 <=? 971) by reflexivity.
    reflexivity. }
  assert (0 < m < 2 ^ 53) as Hm by lia.
  pose proof (Zdigits2_pos_bounds m ltac:(lia)) as [Hlo Hhi].
  pose proof (Zdigits2_pos m ltac:(lia)) as Hd.
  assert (Zdigits2 m ≤ 53) as Hd53.
  { assert (Zdigits2 m - 1 < 53); [|lia].
    apply (Z.pow_lt_mono_r_iff 2); lia. }
  rewrite fexp_64. unfold shr.
  destruct (Z.max (Zdigits2 m + a - 53) (-1074) - a) eqn:Hn; try lia.
  all: destruct m as [|pm|pm]; try lia; simpl.
  all: replace (emax - prec) with 971 by reflexivity; done.
Qed.

Lemma finite_or_inf_mono (m1 a1 m2 a2 : Z) :
  0 < m1 → 0 < m2 →
  a1 < a2 ∨ (a1 = a2 ∧ m1 ≤ m2) →
  SFltb (finite_or_inf m2 a2) (finite_or_inf m1 a1) = false.
Proof.
  intros Hm1 Hm2 Hle. unfold finite_or_inf, SFltb.
  destruct (Z.leb_spec a1 971), (Z.leb_spec a2 971); simpl; try done;
    [|lia].
  destruct (Z.compare_spec a2 a1) as [Heq|Hlt|Hgt]; [|lia|done].
  destruct Hle as [?|[_ Hm]]; [lia|].
  change (Pos.compare_cont Eq (Z.to_pos m2) (Z.to_pos m1))
    with (Z.to_pos m2 ?= Z.to_pos m1)%positive.
  destruct (Pos.compare_spec (Z.to_pos m2) (Z.to_pos m1)) as [?|Hlt|?];
    [done| |done].
  lia.
Qed.

Lemma rounded_float_positive (m a : Z) :
  0 < m →
  rounded_float false m a
  = if m =? 2 ^ 53 then finite_or_inf (2 ^ 52) (a + 1)
    else finite_or_inf m a.
Proof.
  intros Hm. unfold rounded_float, finite_or_inf.
  destruct (Z.eqb_spec m 0); [lia|done].
Qed.

Lemma rounded_float_mono (m1 a1 m2 a2 : Z) :
  0 ≤ m1 ≤ 2 ^ 53 → 0 ≤ m2 ≤ 2 ^ 53 →
  (a1 = a2 ∧ m1 ≤ m2) ∨ (a1 < a2 ∧ 2 ^ 52 ≤ m2) →
  SFltb (rounded_float false m2 a2) (rounded_float false m1 a1) = false.
Proof.
  intros Hm1 Hm2 Hle.
  destruct (Z.eq_dec m1 0) as [->|Hm10].
  { unfold rounded_float at 2. simpl. unfold rounded_float.
    repeat destruct (_ =? _); repeat destruct (_ <=? _); done. }
  assert (0 < m2) as Hm20 by lia.
  rewrite !rounded_float_positive by lia.
  destruct (Z.eqb_spec m1 (2 ^ 53)) as [->|Hne1],
    (Z.eqb_spec m2 (2 ^ 53)) as [->|Hne2];
    apply finite_or_inf_mono; lia.
Qed.

(** Rounding is monotone: of two positive products, the smaller one is
    not rounded above the larger one. *)
Lemma round_mono (M1 M2 : BinNums.positive) (E1 E2 : Z) :
  E1 ≤ fexp prec emax (Zdigits2 (Z.pos M1) + E1) →
  E2 ≤ fexp prec emax (Zdigits2 (Z.pos M2) + E2) →
  E1 ≤ E2 → Z.pos M1 ≤ Z.pos M2 * 2 ^ (E2 - E1) →
  SFltb (binary_round_aux prec emax false (Z.pos M2) E2 loc_Exact)
        (binary_round_aux prec emax false (Z.pos M1) E1 loc_Exact) = false.
Proof.
  intros Ha1 Ha2 HE HM.
  rewrite !binary_round_aux_spec by done.
  destruct (rne_range M1 E1 Ha1) as [Hr1 _].
  destruct (rne_range M2 E2 Ha2) as [Hr2 Hn2].
  cbv zeta in *. rewrite !fexp_64 in *.
  pose proof (digits2_pos_bounds M1) as [Hlo1 Hhi1].
  pose proof (digits2_pos_bounds M2) as [Hlo2 Hhi2].
  cbn [Zdigits2] in *.
  set (d1 := Z.pos (digits2_pos M1)) in *.
  set (d2 := Z.pos (digits2_pos M2)) in *.
  assert (0 < d1 ∧ 0 < d2) as [Hd1 Hd2] by (subst d1 d2; lia).
  assert (d1 ≤ d2 + (E2 - E1)) as Hd.
  { assert (d1 - 1 < d2 + (E2 - E1)); [|lia].
    apply (Z.pow_lt_mono_r_iff 2); [lia..|].
    rewrite Z.pow_add_r by lia.
    assert (0 < 2 ^ (E2 - E1)) by (apply Z.pow_pos_nonneg; lia). nia. }
  set (a1 := Z.max (d1 + E1 - 53) (-1074)) in *.
  set (a2 := Z.max (d2 + E2 - 53) (-1074)) in *.
  apply rounded_float_mono; [done..|].
  destruct (Z.eq_dec a1 a2) as [Heq|Hne].
  - left. split; [done|].
    replace (a1 - E1) with (a2 - E2 + (E2 - E1)) by lia.
    rewrite <-(rne_scale (Z.pos M2) (a2 - E2) (E2 - E1)) by lia.
    apply rne_mono; lia.
  - right. split; [lia|]. apply Hn2. lia.
Qed.

(** The order of two valid mantissas with their exponents. *)
Lemma bounded_64 (m : BinNums.positive) (e : Z) :
  SpecFloat.bounded prec emax m e = true →
  e = Z.max (Z.pos (digits2_pos m) + e - 53) (-1074) ∧ e ≤ 971.
Proof.
  unfold SpecFloat.bounded, canonical_mantissa.
  rewrite andb_true_iff, Z.eqb_eq, Z.leb_le, fexp_64.
  replace (emax - prec) with 971 by reflexivity. lia.
Qed.

(** The product of two valid mantissas is never shifted to the left. *)
Lemma product_shift (mx ms : BinNums.positive) (ex es : Z) :
  SpecFloat.bounded prec emax mx ex = true →
  SpecFloat.bounded prec emax ms es = true →
  ex + es ≤ fexp prec emax (Zdigits2 (Z.pos (mx * ms)) + (ex + es)).
Proof.
  intros [Hx _]%bounded_64 [Hs _]%bounded_64. rewrite fexp_64.
  pose proof (digits2_pos_bounds mx) as [Hlox Hhix].
  pose proof (digits2_pos_bounds ms) as [Hlos Hhis].
  pose proof (digits2_pos_bounds (mx * ms)) as [Hlo Hhi].
  cbn [Zdigits2].
  set (dx := Z.pos (digits2_pos mx)) in *.
  set (ds := Z.pos (digits2_pos ms)) in *.
  set (d := Z.pos (digits2_pos (mx * ms))) in *.
  assert (0 < dx ∧ 0 < ds ∧ 0 < d) as (? & ? & ?) by (subst dx ds d; lia).
  assert (dx + ds - 2 < d) as Hd.
  { apply (Z.pow_lt_mono_r_iff 2); [lia..|].
    replace (dx + ds - 2) with ((dx - 1) + (ds - 1)) by lia.
    rewrite Z.pow_add_r by lia. rewrite Pos2Z.inj_mul in Hhi.
    assert (0 < 2 ^ (dx - 1)) by (apply Z.pow_pos_nonneg; lia).
    assert (0 < 2 ^ (ds - 1)) by (apply Z.pow_pos_nonneg; lia).
    nia. }
  lia.
Qed.

(** Of two valid positive floats, the one that is not above the other has
    the smaller value. *)
Lemma valid_order (mx my : BinNums.positive) (ex ey : Z) :
  SpecFloat.bounded prec emax mx ex = true →
  SpecFloat.bounded prec emax my ey = true →
  ex < ey ∨ (ex = ey ∧ Z.pos mx ≤ Z.pos my) →
  ex ≤ ey ∧ Z.pos mx ≤ Z.pos my * 2 ^ (ey - ex).
Proof.
  intros [Hx _]%bounded_64 [Hy _]%bounded_64 [Hlt|[-> Hle]].
  - split; [lia|].
    pose proof (digits2_pos_bounds mx) as [_ Hhix].
    pose proof (digits2_pos_bounds my) as [Hloy _].
    set (dx := Z.pos (digits2_pos mx)) in *.
    set (dy := Z.pos (digits2_pos my)) in *.
    assert (dy = 53) as Hdy by lia. rewrite Hdy in Hloy.
    assert (Z.pos mx < 2 ^ 53).
    { eapply Z.lt_le_trans; [exact Hhix|].
      apply Z.pow_le_mono_r; [lia|]. subst dx. lia. }
    assert (2 ^ 1 ≤ 2 ^ (ey - ex)) by (apply Z.pow_le_mono_r; lia).
    change (2 ^ 1) with 2 in *. change (2 ^ (53 - 1)) with (2 ^ 52) in *.
    change (2 ^ 53) with (2 * 2 ^ 52) in *. nia.
  - split; [lia|]. rewrite Z.sub_diag. simpl. lia.
Qed.

Lemma binary_round_aux_opp (M E : Z) :
  binary_round_aux prec emax true M E loc_Exact
  = SFopp (binary_round_aux prec emax false M E loc_Exact).
Proof.
  unfold binary_round_aux.
  destruct (shr_fexp prec emax M E loc_Exact) as [mrs e].
  destruct (shr_fexp prec emax _ e loc_Exact) as [mrs' e'].
  destruct (shr_m mrs'); [done| |done]. by destruct (_ <=? _).
Qed.

Lemma SFltb_opp (x y : spec_float) :
  SFltb (SFopp x) (SFopp y) = SFltb y x.
Proof.
  unfold SFltb.
  destruct x as [sx|sx| |sx mx ex], y as [sy|sy| |sy my ey]; simpl;
    try reflexivity;
    try (destruct sx; reflexivity); try (destruct sy; reflexivity);
    try (destruct sx, sy; reflexivity).
  change (Pos.compare_cont Eq mx my) with (mx ?= my)%positive.
  change (Pos.compare_cont Eq my mx) with (my ?= mx)%positive.
  destruct sx, sy; simpl; try reflexivity;
    destruct (Z.compare_spec ex ey), (Z.compare_spec ey ex); try lia;
    try reflexivity;
    destruct (Pos.compare_spec mx my), (Pos.compare_spec my mx); simpl;
    try reflexivity; lia.
Qed.

(** The sign of a rounded product is that of its arguments. *)
Lemma rounded_float_cases (s : bool) (m a : Z) :
  rounded_float s m a = S754_zero s ∨
  (∃ p e, rounded_float s m a = S754_finite s p e) ∨
  rounded_float s m a = S754_infinity s.
Proof.
  unfold rounded_float. repeat destruct (_ =? _); repeat destruct (_ <=? _); eauto.
Qed.

Section Products.
Variables (ms : BinNums.positive) (es : Z).
Hypothesis Hs : SpecFloat.bounded prec emax ms es = true.

Lemma product_cases (s : bool) (m : BinNums.positive) (e : Z) :
  SpecFloat.bounded prec emax m e = true →
  rounded_product ms es s m e = S754_zero s ∨
  (∃ p e', rounded_product ms es s m e = S754_finite s p e') ∨
  rounded_product ms es s m e = S754_infinity s.
Proof.
  intros Hm. unfold rounded_product.
  rewrite binary_round_aux_spec by by apply product_shift.
  apply rounded_float_cases.
Qed.

Lemma product_mono (mx my : BinNums.positive) (ex ey : Z) :
  SpecFloat.bounded prec emax mx ex = true →
  SpecFloat.bounded prec emax my ey = true →
  ex < ey ∨ (ex = ey ∧ Z.pos mx ≤ Z.pos my) →
  SFltb (rounded_product ms es false my ey)
        (rounded_product ms es false mx ex) = false.
Proof.
  intros Hx Hy Hle.
  destruct (valid_order mx my ex ey Hx Hy Hle) as [He Hm].
  unfold rounded_product. apply round_mono; [by apply product_shift..|lia|].
  replace (ey + es - (ex + es)) with (ey - ex) by lia.
  rewrite !Pos2Z.inj_mul. nia.
Qed.

(** Multiplying two finite floats by a positive finite float does not
    put the smaller one above the other. *)
Lemma product_reflects_lt (sx sy : bool) (mx my : BinNums.positive)
    (ex ey : Z) :
  SpecFloat.bounded prec emax mx ex = true →
  SpecFloat.bounded prec emax my ey = true →
  SFltb (rounded_product ms es sy my ey)
        (rounded_product ms es sx mx ex) = true →
  SFltb (S754_finite sy my ey) (S754_finite sx mx ex) = true.
Proof.
  intros Hx Hy Hlt.
  destruct sy, sx.
  - (* both negative *)
    destruct (SFltb (S754_finite true my ey) (S754_finite true mx ex))
      eqn:Hc; [done|]. exfalso.
    assert (SFltb (rounded_product ms es false mx ex)
                  (rounded_product ms es false my ey) = false)
      as Hmono; [apply product_mono; [done..|]|].
    2: { unfold rounded_product in Hlt, Hmono.
         rewrite !binary_round_aux_opp, SFltb_opp in Hlt. congruence. }
    unfold SFltb in Hc. simpl in Hc.
    destruct (Z.compare_spec ey ex) as [Heq|Hl|Hg]; [|lia|done].
    right. split; [done|].
    change (Pos.compare_cont Eq my mx) with (my ?= mx)%positive in Hc.
    destruct (Pos.compare_spec my mx); simpl in Hc; try done; lia.
  - done.
  - (* a nonnegative product is not below a nonpositive one *)
    exfalso.
    destruct (product_cases false my ey Hy) as [Hy'|[(p & e & Hy')|Hy']],
      (product_cases true mx ex Hx) as [Hx'|[(p' & e' & Hx')|Hx']];
      rewrite Hy', Hx' in Hlt; done.
  - (* both positive *)
    destruct (SFltb (S754_finite false my ey) (S754_finite false mx ex))
      eqn:Hc; [done|]. exfalso.
    assert (SFltb (rounded_product ms es false my ey)
                  (rounded_product ms es false mx ex) = false)
      as Hmono; [apply product_mono; [done..|]|congruence].
    unfold SFltb in Hc. simpl in Hc.
    destruct (Z.compare_spec ey ex) as [Heq|Hl|Hg]; [|done|lia].
    right. split; [done|].
    change (Pos.compare_cont Eq my mx) with (my ?= mx)%positive in Hc.
    destruct (Pos.compare_spec my mx); simpl in Hc; try done; lia.
Qed.

End Products.

(** Multiplication by a positive float reflects the strict order of
    binary64: when [y * s < x * s] then [y < x]. *)
Lemma SFmul_reflects_lt (x y s : spec_float) :
  valid_binary x = true → valid_binary y = true → valid_binary s = true →
  SFltb (S754_zero false) s = true →
  SFltb (SF64mul y s) (SF64mul x s) = true →
  SFltb y x = true.
Proof.
  intros Hx Hy Hs Hpos.
  destruct s as [ss|ss| |ss ms es]; try done.
  - (* s is an infinity *)
    destruct ss; [done|].
    destruct x as [sx|sx| |sx mx ex], y as [sy|sy| |sy my ey]; simpl;
      try done; try (by destruct sx); try (by destruct sy);
      by destruct sx, sy.
  - (* s is finite *)
    destruct ss; [done|]. simpl in Hs.
    destruct x as [sx|sx| |sx mx ex], y as [sy|sy| |sy my ey];
      unfold SF64mul, SFmul; rewrite ?xorb_false_r; try done;
      try (by destruct sx); try (by destruct sy);
      try (by destruct sx, sy).
    + (* x zero, y finite *)
      destruct (product_cases ms es Hs sy my ey Hy)
        as [Hy'|[(p & e & Hy')|Hy']];
        unfold rounded_product in Hy'; rewrite Hy'; by destruct sy, sx.
    + (* x infinite, y finite *)
      destruct (product_cases ms es Hs sy my ey Hy)
        as [Hy'|[(p & e & Hy')|Hy']];
        unfold rounded_product in Hy'; rewrite Hy'; by destruct sy, sx.
    + (* x not a number, y finite *)
      destruct (product_cases ms es Hs sy my ey Hy)
        as [Hy'|[(p & e & Hy')|Hy']];
        unfold rounded_product in Hy'; rewrite Hy'; by destruct sy.
    + (* x finite, y zero *)
      destruct (product_cases ms es Hs sx mx ex Hx)
        as [Hx'|[(p & e & Hx')|Hx']];
        unfold rounded_product in Hx'; rewrite Hx'; by destruct sy, sx.
    + (* x finite, y infinite *)
      destruct (product_cases ms es Hs sx mx ex Hx)
        as [Hx'|[(p & e & Hx')|Hx']];
        unfold rounded_product in Hx'; rewrite Hx'; by destruct sy, sx.
    + by apply product_reflects_lt.
Qed.

Lemma double_scaling_reflects_lt (s x y : float) :
  (0 <? s)%float = true → (y * s <? x * s)%float = true →
  (y <? x)%float = true.
Proof.
  rewrite !FloatAxioms.ltb_spec, !FloatAxioms.mul_spec.
  apply SFmul_reflects_lt; apply Prim2SF_valid.
Qed.

(** Multiplication by a positive double never puts the smaller of two
    doubles above the other. *)
Lemma double_scaling_reflects_gt (s x y : float) :
  c_lt c_zero s = true → c_gt (c_mul x s) (c_mul y s) = true →
  c_gt x y = true.
Proof. apply double_scaling_reflects_lt. Qed.


(** In exact arithmetic the flag of the check on the scaled vectors is
    that of the comparison of the unscaled ones, for every strictly
    positive [E]. *)
Lemma exact_bound_check_invariant {csc Priv Timer : Type}
    (settings : option Settings) (w : @Work Q csc Priv Timer)
    (d : @Data Q csc) (lA : list Q) (g : Settings) (sc : @Scaling Q)
    (e v o : list Q) :
  bounds_ready w d lA (zip_with c_mul o e) →
  settings = Some g → truthy (s_scaling g) = true →
  w_scaling w = Some sc → sc_E sc = Some e →
  length e = Z.to_nat (d_m d) → length v = Z.to_nat (d_m d) →
  length o = Z.to_nat (d_m d) →
  positive e →
  ∃ flag w',
    osqp_update_lower_bound settings (Some v) w = Done flag w' [] ∧
    (flag ≠ 0 ↔ violation v o).
Proof.
  intros Hb Hg Hon Hsc HE Hlene Hlenv Hleno Hpos.
  assert (scaling_ready settings w g sc_E e (d_m d)) as Hs.
  { split; [done|]. intros _. by exists sc. }
  destruct (osqp_update_lower_bound_run settings w d lA _ g e v Hb Hs Hlenv)
    as (flag & Hrun & H01 & Hflag).
  unfold rescale in Hrun, Hflag. rewrite Hon in Hrun, Hflag.
  eexists flag, _. split; [exact Hrun|].
  rewrite (flag_nonzero flag _ H01 Hflag).
  apply violation_scaled; [lia..|]. by apply exact_scaling_exact.
Qed.

(** ** Runs on the reference configuration *)

Lemma ref_scale_data_frame :
  scale_data_frame (collab := ref_collaborators).
Proof.
  intros w. unfold scale_data. simpl. unfold ref_scale_data.
  destruct (w_data w) as [d|] eqn:Hd; simpl; rewrite ?Hd; by split_and!.
Qed.

Lemma ref_solve_contract :
  solve_contract (build := ref_build) (collab := ref_collaborators).
Proof.
  unfold solve_contract, keeps_ready. simpl. split_and!; try done.
  - intros w (Hs & Hi & Ht & d & zv & zp & Hd & Hz & Hzp & Hlz & Hlp).
    split; [|done]. split_and!; try done.
    exists d, (replicate (length zv) 0%float), zp. unfold ref_cold_start.
    simpl. rewrite Hz. simpl. rewrite length_replicate. by split_and!.
  - intros iter p w Hw. unfold ref_update_info.
    destruct (w_info w) eqn:Hi; [|done].
    by apply ready_like_set_info.
  - intros w Hw. unfold ref_residuals_check.
    destruct (w_info w) as [i|] eqn:Hi; [|done].
    destruct (w_settings w) as [s|] eqn:Hs; [|done].
    destruct (2 <=? info_iter i); simpl; [by apply ready_like_set_info|].
    destruct (info_iter i =? s_max_iter s); simpl; [|done].
    by apply ready_like_set_info.
Qed.

Lemma s2_work_solve_ready : solve_ready (build := ref_build) s2_work.
Proof.
  split_and!; [by eexists..|].
  eexists _, _, _. by split_and!.
Qed.

Lemma s6_work_solve_ready : solve_ready (build := ref_build) s6_work.
Proof.
  split_and!; [by eexists..|].
  eexists _, _, _. by split_and!.
Qed.

(** Scenario S4: on the workspace of S2 the lower bound 5 and the upper
    bound 0 are refused. *)
Example s4_lower_bound_refused :
  ∃ w', osqp_update_lower_bound (Some s2_settings) (Some [5%float]) s2_work
        = Done 1 w' [].
Proof. eexists. vm_compute. reflexivity. Qed.

Example s4_upper_bound_refused :
  ∃ w', osqp_update_upper_bound (Some s2_settings) (Some [0%float]) s2_work
        = Done 1 w' [].
Proof. eexists. vm_compute. reflexivity. Qed.

(** A new bound of the wrong length is an access out of bounds. *)
Example short_bound_aborts :
  osqp_update_lower_bound (Some s2_settings) (Some []) s2_work
  = Abort OutOfBounds [].
Proof. vm_compute. reflexivity. Qed.

(** The run of [osqp_solve] on S2 with the stand-in collaborators: two
    iterations, the second check passes, the solution is polished. *)
Example s2_solve_trace :
  trace_of (osqp_solve (build := ref_build) (collab := ref_collaborators)
              10 s2_work)
  = [EvTic; EvPrintHeader; EvColdStart] ++
    [EvPreaVecCopy; EvComputeRhs; EvSolveLinSys; EvUpdateX; EvProjectX;
     EvUpdateU; EvUpdateInfo 0 0; EvPrintSummary; EvResidualsCheck 0] ++
    [EvPreaVecCopy; EvComputeRhs; EvSolveLinSys; EvUpdateX; EvProjectX;
     EvUpdateU; EvUpdateInfo 1 0; EvResidualsCheck 1] ++
    [EvPrintSummary; EvUpdateStatusString; EvToc; EvPolish; EvPrintFooter;
     EvStoreSolution].
Proof. vm_compute. reflexivity. Qed.

(** With [max_iter = 1] (scenario S6) the loop runs once and nothing is
    polished. *)
Example s6_solve_trace :
  List.filter (λ e, is_admm_step e || is_polish e)
    (trace_of
       (osqp_solve (build := ref_build) (collab := ref_collaborators) 1
          (set_w_settings
             (Some {| s_max_iter := 1; s_scaling := 1; s_polishing := 1;
                      s_verbose := 0; s_warm_start := 0 |})
             s2_work)))
  = admm_steps 0 0.
Proof. vm_compute. reflexivity. Qed.

(** C1 on S2: the check passes at the second iteration. *)
Lemma solve_iterations_witness :
  ∃ iter w1 w' pre loop post rs,
    osqp_solve (build := ref_build) (collab := ref_collaborators) 10 s2_work
    = Done 0 w' (pre ++ loop ++ post) ∧
    List.filter is_admm_step pre = [] ∧
    without_summary loop = admm_trace 0 rs ∧
    List.filter is_admm_step post = [] ∧
    Z.of_nat (length rs) ≤ Z.max 0 (s_max_iter s2_settings) ∧
    exits_on_first_pass (s_max_iter s2_settings) rs ∧
    solve_admm (build := ref_build) (collab := ref_collaborators) 10 s2_work
    = Done iter w1 (pre ++ loop) ∧
    loop_effect (collab := ref_collaborators)
      (Z.to_nat (s_max_iter s2_settings)) 0
      (loop_entry (build := ref_build) (collab := ref_collaborators)
         s2_work)
    = (w1, rs) ∧
    solve_finish (build := ref_build) (collab := ref_collaborators) 0 iter w1
    = Done 0 w' post.
Proof.
  apply (solve_iterations (build := ref_build) (collab := ref_collaborators)
           10 s2_work s2_settings).
  - apply ref_solve_contract.
  - apply s2_work_solve_ready.
  - reflexivity.
  - simpl. lia.
Defined.


(** C4 on S2 (scenario S4): the lower bound 5 is refused and stored,
    scaled, as 2.5; the upper bound 0 is refused and stored as 0. *)
Lemma bound_update_not_rolled_back_witness :
  (∃ flag,
     osqp_update_lower_bound (Some s2_settings) (Some [5%float]) s2_work
     = Done flag
         (set_w_data (Some (set_d_lA (Some [2.5%float]) s2_scaled_data))
            s2_work) [] ∧
     flag ≠ 0) ∧
  (∃ flag,
     osqp_update_upper_bound (Some s2_settings) (Some [0%float]) s2_work
     = Done flag
         (set_w_data (Some (set_d_uA (Some [0%float]) s2_scaled_data))
            s2_work) [] ∧
     flag ≠ 0).
Proof.
  split.
  - destruct (bound_update_not_rolled_back (Some s2_settings) s2_work
                s2_scaled_data [0.5%float] [1.5%float] s2_settings
                [0.5%float] [5%float] ltac:(by split_and!)
                ltac:(split; [done|]; intros _; by exists s2_scaling)
                eq_refl)
      as (_ & (flag & Hrun & Hflag) & _).
    exists flag. split; [exact Hrun|].
    apply Hflag. exists 0%nat, 2.5%float, 1.5%float. by split_and!.
  - destruct (bound_update_not_rolled_back (Some s2_settings) s2_work
                s2_scaled_data [0.5%float] [1.5%float] s2_settings
                [0.5%float] [0%float] ltac:(by split_and!)
                ltac:(split; [done|]; intros _; by exists s2_scaling)
                eq_refl)
      as (_ & _ & (flag & Hrun & Hflag)).
    exists flag. split; [exact Hrun|].
    apply Hflag. exists 0%nat, 0.5%float, 0%float. by split_and!.
Defined.



(** C3 (not met by the code). The workspace of S2 was set up with scaling
    on and D = 2, while the file-scope [settings] has scaling off:
    [osqp_update_lin_cost] stores the new cost 3 unscaled, where the
    setting of the workspace asks for 6. *)
Theorem lin_cost_reads_file_scope_settings :
  ∃ s sc w' d',
    w_settings s2_work = Some s ∧ truthy (s_scaling s) = true ∧
    w_scaling s2_work = Some sc ∧ sc_D sc = Some [2%float] ∧
    osqp_update_lin_cost (Some unscaled_settings) (Some [3%float]) s2_work
    = Done 0 w' [] ∧
    w_data w' = Some d' ∧ d_q d' = Some [3%float].
Proof. eexists _, _, _, _. by split_and!; [..|vm_compute; reflexivity| |]. Qed.

(** C5 on a null [data]. *)
Lemma setup_validation_failure_witness :
  ∃ t, osqp_setup (build := ref_build) (collab := ref_collaborators)
         (allocator := ref_allocator) None (Some s2_settings) 0%nat
       = Done OSQP_NULL 0%nat t ∧
       ∀ what count ok, EvAlloc what count ok ∉ t.
Proof.
  apply (proj1 (setup_validation_failure (build := ref_build)
                  (collab := ref_collaborators) (allocator := ref_allocator)
                  None (Some s2_settings) 0%nat)).
  by left.
Defined.

(** C6 on S2 with the allocator that refuses the first request. *)
Lemma setup_work_allocation_failure_witness :
  osqp_setup (build := ref_build) (collab := ref_collaborators)
    (allocator := ref_allocator_short) (Some s2_data) (Some s2_settings) 0%nat
  = Abort NullDeref
      [EvAlloc ObjWork 1 false;
       EvPrint ("ERROR: allocating work failure!" +:+ endl);
       EvAlloc ObjTimer 1 true].
Proof.
  apply (setup_work_allocation_failure (build := ref_build)
           (collab := ref_collaborators) (allocator := ref_allocator_short)
           (Some s2_data) (Some s2_settings) 0%nat); reflexivity.
Defined.

(** C7 on S1, set up with polishing requested. *)
Lemma setup_forces_polishing_off_witness :
  (∀ w h' t,
     osqp_setup (build := ref_build) (collab := ref_collaborators)
       (allocator := ref_allocator) (Some s1_data) (Some s2_settings) 0%nat
     = Done (Some w) h' t →
     ∃ s, w_settings w = Some s ∧ s_polishing s = 0) ∧
  (∃ w h' t,
     osqp_setup (build := ref_build) (collab := ref_collaborators)
       (allocator := ref_allocator) (Some s1_data) (Some s2_settings) 0%nat
     = Done (Some w) h' t).
Proof.
  destruct (setup_forces_polishing_off (build := ref_build)
              (collab := ref_collaborators) (allocator := ref_allocator)
              (Some s1_data) (Some s2_settings) s1_data s2_settings 0%nat
              eq_refl eq_refl eq_refl ref_scale_data_frame)
    as [Hoff Hret].
  split; [exact Hoff|].
  apply Hret; [reflexivity|reflexivity|by eexists|reflexivity].
Defined.

(** C8 on S2, where the run ends solved with polishing on and [polish] is
    applied, and on S6, where the iteration limit is reached and it is
    not. *)
Lemma polish_invocation_witness :
  (∃ iter w1 t1 w' t,
     solve_admm (build := ref_build) (collab := ref_collaborators) 10 s2_work
     = Done iter w1 t1 ∧
     osqp_solve (build := ref_build) (collab := ref_collaborators) 10 s2_work
     = Done 0 w' t ∧
     EvPolish ∈ t ∧
     w' = after_polish (build := ref_build) (collab := ref_collaborators)
            (polish (Collaborators := ref_collaborators)
               (before_polish (build := ref_build)
                  (collab := ref_collaborators) w1))) ∧
  (∃ iter w1 t1 w' t,
     solve_admm (build := ref_build) (collab := ref_collaborators) 1 s6_work
     = Done iter w1 t1 ∧
     osqp_solve (build := ref_build) (collab := ref_collaborators) 1 s6_work
     = Done 0 w' t ∧
     (EvPolish ∉ t) ∧
     w' = after_polish (build := ref_build) (collab := ref_collaborators)
            (before_polish (build := ref_build)
               (collab := ref_collaborators) w1)).
Proof.
  split.
  - destruct (polish_invocation (build := ref_build)
                (collab := ref_collaborators) 10 s2_work s2_settings
                ltac:(by split) ref_solve_contract s2_work_solve_ready
                eq_refl ltac:(simpl; lia))
      as (iter & w1 & t1 & s1 & i1 & w' & t & Hadmm & Hs1 & Hi1 & Hrun
          & Hiff & _ & Hyes & _).
    assert (s_polishing s1 ≠ 0 ∧
            info_status_val i1 = OSQP_SOLVED (Build := ref_build)) as Hc.
    { vm_compute in Hadmm. injection Hadmm as <- <- <-.
      vm_compute in Hs1, Hi1. injection Hs1 as <-. injection Hi1 as <-.
      by split. }
    exists iter, w1, t1, w', t.
    split_and!; [exact Hadmm|exact Hrun|by apply Hiff|by apply Hyes].
  - destruct (polish_invocation (build := ref_build)
                (collab := ref_collaborators) 1 s6_work s6_settings
                ltac:(by split) ref_solve_contract s6_work_solve_ready
                eq_refl ltac:(simpl; lia))
      as (iter & w1 & t1 & s1 & i1 & w' & t & Hadmm & Hs1 & Hi1 & Hrun
          & _ & Hno & _ & Hnot).
    assert (info_status_val i1
            = OSQP_MAX_ITER_REACHED (Build := ref_build)) as Hc.
    { vm_compute in Hadmm. injection Hadmm as <- <- <-.
      vm_compute in Hi1. by injection Hi1 as <-. }
    exists iter, w1, t1, w', t.
    split_and!; [exact Hadmm|exact Hrun|by apply Hno; left|].
    apply Hnot. right. rewrite Hc. discriminate.
Defined.

(** C10 on S2. *)
Lemma setup_initial_state_witness :
  ∃ w h' t i,
    osqp_setup (build := ref_build) (collab := ref_collaborators)
      (allocator := ref_allocator) (Some s2_data) (Some s2_settings) 0%nat
    = Done (Some w) h' t ∧
    w_info w = Some i ∧
    info_status_val i = OSQP_UNSOLVED (Build := ref_build) ∧
    info_status i = status_text (Build := ref_build)
                      (OSQP_UNSOLVED (Build := ref_build)) ∧
    w_x w = Some (replicate (Z.to_nat (d_n s2_data + d_m s2_data)) c_zero) ∧
    w_z w = Some (replicate (Z.to_nat (d_n s2_data + d_m s2_data)) c_zero) ∧
    w_u w = Some (replicate (Z.to_nat (d_m s2_data)) c_zero).
Proof.
  apply (proj1 (setup_initial_state (build := ref_build)
                  (collab := ref_collaborators) (allocator := ref_allocator)
                  (Some s2_data) (Some s2_settings) s2_data s2_settings
                  0%nat
                  ltac:(split_and!; [reflexivity..|by eexists])
                  ref_scale_data_frame)).
  reflexivity.
Defined.

(** * Further properties *)

(** ** Runs that may abort *)

Section Wpa.
Context {S : Type}.
Implicit Types s : S.

Lemma wpa_run {A} (m : M S A) s Q E :
  wpa m s Q E →
  match m s with Done a s' t => Q a s' t | Abort why t => E why t end.
Proof. done. Qed.

Lemma wpa_mono {A} (m : M S A) s (Q Q' : A → S → list event → Prop)
    (E E' : abort → list event → Prop) :
  wpa m s Q E → (∀ a s' t, Q a s' t → Q' a s' t) →
  (∀ why t, E why t → E' why t) → wpa m s Q' E'.
Proof. unfold wpa. destruct (m s); auto. Qed.

Lemma wpa_ret {A} (a : A) s Q E : Q a s [] → wpa (mret a) s Q E.
Proof. done. Qed.

Lemma wpa_bind {A B} (m : M S A) (f : A → M S B) s Q E :
  wpa m s (λ a s' t, wpa (f a) s' (λ b s'' t', Q b s'' (t ++ t'))
                         (λ why t', E why (t ++ t'))) E →
  wpa (m ≫= f) s Q E.
Proof.
  unfold wpa, mbind, M_bind. destruct (m s) as [a s' t|]; [|done].
  by destruct (f a s').
Qed.

Lemma wpa_get s Q E : Q s s [] → wpa get s Q E.
Proof. done. Qed.

Lemma wpa_put s s' Q E : Q () s' [] → wpa (put s') s Q E.
Proof. done. Qed.

Lemma wpa_modify (f : S → S) s Q E : Q () (f s) [] → wpa (modify f) s Q E.
Proof. done. Qed.

Lemma wpa_emit e s Q E : Q () s [e] → wpa (emit e) s Q E.
Proof. done. Qed.

Lemma wpa_print msg s Q E : Q () s [EvPrint msg] → wpa (c_print msg) s Q E.
Proof. done. Qed.

Lemma wpa_stop {A} why s (Q : A → S → list event → Prop) E :
  E why [] → wpa (stop why) s Q E.
Proof. done. Qed.

Lemma wpa_deref {A} (p : option A) s Q E :
  match p with Some a => Q a s [] | None => E NullDeref [] end →
  wpa (deref p) s Q E.
Proof. by destruct p. Qed.

Lemma wpa_when (c : bool) (body : M S ()) s Q E :
  (if c then wpa body s Q E else Q () s []) → wpa (when c body) s Q E.
Proof. by destruct c. Qed.

End Wpa.

(** One step of a run under [wpa], as [wp_step] under [wp]. *)
Ltac wpa_scrutinee :=
  repeat match goal with
  | |- match ?p with Some _ => _ | None => _ end =>
      first [ progress (let p' := eval cbn in p in change p with p')
            | match goal with H : p = _ |- _ => rewrite H end ]
  end.

Ltac wpa_case :=
  lazymatch goal with
  | |- if ?c then _ else _ => destruct c eqn:?
  | |- match ?p with Some _ => _ | None => _ end => destruct p eqn:?
  | |- wpa (if ?c then _ else _) _ _ _ => destruct c eqn:?
  | |- wpa (match ?c with Some _ => _ | None => _ end) _ _ _ =>
      destruct c eqn:?
  end.

Ltac wpa_step :=
  lazymatch goal with
  | |- wpa (mbind _ _) _ _ _ => apply wpa_bind
  | |- wpa (mret _) _ _ _ => apply wpa_ret
  | |- wpa get _ _ _ => apply wpa_get
  | |- wpa (put _) _ _ _ => apply wpa_put
  | |- wpa (modify _) _ _ _ => apply wpa_modify
  | |- wpa (emit _) _ _ _ => apply wpa_emit
  | |- wpa (c_print _) _ _ _ => apply wpa_print
  | |- wpa (deref _) _ _ _ => apply wpa_deref; wpa_scrutinee
  | |- wpa (when _ _) _ _ _ => apply wpa_when
  | |- wpa (let x := _ in _) _ _ _ => cbv zeta
  end; cbv beta iota.

(** ** Requests to the allocator *)

Section Requests.
Context {c_float : Type} {ops : FloatOps c_float} {Timer : Type}.
Context {allocator : @Allocator c_float Timer}.
Implicit Types (h : heap).

Lemma wpa_alloc what count h Q E :
  (if grant h then Q (Some h) (S h) [EvAlloc what count true]
   else Q None (S h) [EvAlloc what count false]) →
  wpa (alloc what count) h Q E.
Proof. unfold wpa, alloc. by destruct (grant h). Qed.

Lemma wpa_alloc_struct {A} what (content : nat → A) h Q E :
  (if grant h then Q (Some (content h)) (S h) [EvAlloc what 1 true]
   else Q None (S h) [EvAlloc what 1 false]) →
  wpa (c_alloc_struct what content) h Q E.
Proof.
  unfold wpa, c_alloc_struct, alloc, mbind, M_bind. by destruct (grant h).
Qed.

Lemma wpa_calloc_floats what count h Q E :
  Q (if grant h then Some (replicate (Z.to_nat count) c_zero) else None)
    (S h) [EvAlloc what count (grant h)] →
  wpa (c_calloc_floats what count) h Q E.
Proof.
  unfold wpa, c_calloc_floats, alloc, mbind, M_bind. by destruct (grant h).
Qed.

Lemma wpa_malloc_floats what count h Q E :
  Q (if grant h then Some (junk_float h <$> seq 0 (Z.to_nat count)) else None)
    (S h) [EvAlloc what count (grant h)] →
  wpa (c_malloc_floats what count) h Q E.
Proof.
  unfold wpa, c_malloc_floats, alloc, mbind, M_bind. by destruct (grant h).
Qed.

Lemma wpa_malloc_ints what count h Q E :
  Q (if grant h then Some (junk_int h <$> seq 0 (Z.to_nat count)) else None)
    (S h) [EvAlloc what count (grant h)] →
  wpa (c_malloc_ints what count) h Q E.
Proof.
  unfold wpa, c_malloc_ints, alloc, mbind, M_bind. by destruct (grant h).
Qed.

End Requests.

(** The symbolic run of [osqp_setup]: a request for a struct splits on the
    answer of the allocator, a request for a vector does not. *)
Ltac setup_exec_step :=
  first
    [ wpa_step
    | lazymatch goal with
      | |- wpa (c_alloc_struct _ _) _ _ _ => apply wpa_alloc_struct
      | |- wpa (alloc _ _) _ _ _ => apply wpa_alloc
      | |- wpa (c_calloc_floats _ _) _ _ _ => apply wpa_calloc_floats
      | |- wpa (c_malloc_floats _ _) _ _ _ => apply wpa_malloc_floats
      | |- wpa (c_malloc_ints _ _) _ _ _ => apply wpa_malloc_ints
      end
    | wpa_case ];
  cbv beta iota;
  cbn [app d_n d_m d_P d_q d_A d_lA d_uA
       w_data w_x w_z w_u w_z_prev w_dua_res_ws_n w_dua_res_ws_m w_settings
       w_scaling w_priv w_pol w_solution w_info w_timer
       set_w_data set_w_x set_w_z set_w_u set_w_z_prev set_w_dua_res_ws_n
       set_w_dua_res_ws_m set_w_settings set_w_scaling set_w_priv set_w_pol
       set_w_solution set_w_info set_w_timer Work_zero].

Ltac setup_exec := unfold osqp_setup; repeat setup_exec_step.

(** Every event of a concrete trace satisfies the goal. *)
Ltac each_event H tac :=
  repeat (apply elem_of_cons in H as [H|H]; [tac|]);
  try (by apply elem_of_nil in H).

Section Returned.
Context {c_float : Type} {ops : FloatOps c_float} {csc Priv Timer : Type}.
Context {build : Build} {collab : @Collaborators c_float csc Priv Timer}.
Context {allocator : @Allocator c_float Timer}.

(** A run of [osqp_setup] that returns a workspace: what holds of every
    such run is proved on the symbolic run, aborted runs set aside. *)
Lemma setup_returned_by_run data st h w h' t
    (P : @Work c_float csc Priv Timer → heap → list event → Prop) :
  wpa (osqp_setup data st) h (λ r h' t, ∀ w, r = Some w → P w h' t)
      (λ _ _, True) →
  osqp_setup data st h = Done (Some w) h' t → P w h' t.
Proof. intros Hwp Hrun. apply wpa_run in Hwp. rewrite Hrun in Hwp. auto. Qed.

End Returned.

(** The refusal of one vector in a concrete trace. *)
Ltac refused_vector :=
  lazymatch goal with
  | |- (?p = None ↔ _) =>
      lazymatch p with
      | context [grant ?k] => destruct (grant k) eqn:?
      end
  end;
  lazymatch goal with
  | |- (Some _ = None ↔ _) =>
      split; [discriminate|];
      intros [? Hin]; each_event Hin ltac:(discriminate Hin)
  | |- (None = None ↔ _) =>
      split; [|intros _; exact eq_refl];
      intros _; eexists; repeat constructor
  end.

(** ** [osqp_setup]: allocation failures, settings, scaling, timing *)

Section SetupMore.
Context {c_float : Type} {ops : FloatOps c_float} {csc Priv Timer : Type}.
Context {build : Build} {collab : @Collaborators c_float csc Priv Timer}.
Context {allocator : @Allocator c_float Timer}.
Implicit Types (w : @Work c_float csc Priv Timer) (d din : @Data c_float csc).
Implicit Types (data : option (@Data c_float csc)) (st : option Settings).
Implicit Types (h : heap) (sin sc : Settings).

(** X1. [osqp_setup] returns a null workspace only when a validation
    failed, and then it has requested nothing from the allocator: no
    allocation failure is reported through the result. *)
Theorem setup_null_result data st h h' t :
  osqp_setup data st h = Done OSQP_NULL h' t →
  (validate_data data ≠ 0 ∨ validate_settings st ≠ 0) ∧ h' = h.
Proof.
  intros Hrun.
  cut (wpa (osqp_setup data st) h
         (λ r h' _, r = None →
            (validate_data data ≠ 0 ∨ validate_settings st ≠ 0) ∧ h' = h)
         (λ _ _, True)).
  { intros Hwp. apply wpa_run in Hwp. rewrite Hrun in Hwp. by apply Hwp. }
  clear. setup_exec.
  all: try done.
  all: intros _; split; [|done].
  all: match goal with
       | H : truthy (validate_data _) = true |- _ =>
           left; by apply truthy_true
       | H : truthy (validate_settings _) = true |- _ =>
           right; by apply truthy_true
       end.
Qed.

(** X2. With valid arguments, the only failure of [osqp_setup] is the
    dereference of a null pointer, and it occurs exactly when the allocator
    refuses one of the structs (workspace, timer, data, polish, solution,
    info); a run in which only vectors are refused returns a workspace. *)
Theorem setup_allocation_failures data st din sin h :
  setup_inputs_ok data st din sin →
  scale_data_frame →
  match osqp_setup data st h with
  | Done r _ t =>
      is_Some r ∧ ∀ o c, EvAlloc o c false ∈ t → is_struct o = false
  | Abort why t =>
      why = NullDeref ∧ ∃ o, is_struct o = true ∧ EvAlloc o 1 false ∈ t
  end.
Proof.
  intros (-> & -> & Hvd%truthy_false & Hvs%truthy_false & [sc Hcopy]) Hframe.
  apply (wpa_run (osqp_setup (Some din) (Some sin)) h
           (λ r _ t, is_Some r ∧
                     ∀ o c, EvAlloc o c false ∈ t → is_struct o = false)
           (λ why t, why = NullDeref ∧
                     ∃ o, is_struct o = true ∧ EvAlloc o 1 false ∈ t)).
  unfold osqp_setup. rewrite Hvd, Hvs, Hcopy.
  repeat (setup_exec_step;
          try match goal with
              | |- context [scale_data ?W] =>
                  lazymatch goal with
                  | H : w_settings (scale_data W) = _ |- _ => fail
                  | _ =>
                      destruct (Hframe W) as (Hfs & _ & _ & _ & Hft & Hfd);
                      cbn in Hfs, Hft; destruct Hfd as [d' Hfd];
                      [by eexists|]
                  end
              end).
  all: split; [done|].
  all: try (intros o c Hin;
            each_event Hin
              ltac:(first [discriminate Hin | by injection Hin as -> _ _])).
  all: match goal with
       | |- context [EvAlloc ?o 1 false] =>
           exists o; split; [reflexivity|]; repeat constructor
       end.
Qed.

(** X3. [osqp_setup] does not check the allocation of its vectors: in a
    workspace that it returns, each of the iterates [x], [z], [u] and of
    the solution vectors is null exactly when the allocator refused its
    request. *)
Theorem setup_refused_vectors data st h w h' t :
  scale_data_frame →
  osqp_setup data st h = Done (Some w) h' t →
  (w_x w = None ↔ ∃ c, EvAlloc ObjX c false ∈ t) ∧
  (w_z w = None ↔ ∃ c, EvAlloc ObjZ c false ∈ t) ∧
  (w_u w = None ↔ ∃ c, EvAlloc ObjU c false ∈ t) ∧
  ∃ so, w_solution w = Some so ∧
        (sol_x so = None ↔ ∃ c, EvAlloc ObjSolX c false ∈ t) ∧
        (sol_lambda so = None ↔ ∃ c, EvAlloc ObjSolLambda c false ∈ t).
Proof.
  intros Hframe.
  apply (setup_returned_by_run data st h w h' t
           (λ w _ t,
              (w_x w = None ↔ ∃ c, EvAlloc ObjX c false ∈ t) ∧
              (w_z w = None ↔ ∃ c, EvAlloc ObjZ c false ∈ t) ∧
              (w_u w = None ↔ ∃ c, EvAlloc ObjU c false ∈ t) ∧
              ∃ so, w_solution w = Some so ∧
                (sol_x so = None ↔ ∃ c, EvAlloc ObjSolX c false ∈ t) ∧
                (sol_lambda so = None ↔
                 ∃ c, EvAlloc ObjSolLambda c false ∈ t))).
  setup_exec.
  all: try done.
  all: intros ? [= <-]; cbn;
    rewrite ?(proj1 (proj2 (Hframe _))),
      ?(proj1 (proj2 (proj2 (Hframe _)))),
      ?(proj1 (proj2 (proj2 (proj2 (Hframe _))))); cbn.
  all: lazymatch goal with |- _ => split_and!; [refused_vector..|] end.
  all: eexists; split; [reflexivity|]; cbn [sol_x sol_lambda].
  all: split; refused_vector.
Qed.

(** X4. The settings of a returned workspace are the copy of the caller's
    settings, with polishing set to 0 when the problem has no constraint
    and with no other change. *)
Theorem setup_settings_copy data st din sc h w h' t :
  data = Some din → copy_settings st = Some sc →
  (∀ w0, w_settings (scale_data w0) = w_settings w0) →
  osqp_setup data st h = Done (Some w) h' t →
  w_settings w = Some (if d_m din =? 0 then set_s_polishing 0 sc else sc).
Proof.
  intros -> Hcopy Hs.
  apply (setup_returned_by_run (Some din) st h w h' t
           (λ w _ _, w_settings w
                     = Some (if d_m din =? 0 then set_s_polishing 0 sc
                             else sc))).
  unfold osqp_setup. rewrite Hcopy. repeat setup_exec_step.
  all: try done.
  all: intros ? [= <-]; cbn; rewrite ?Hs; cbn.
  all: repeat match goal with H : (_ =? _) = _ |- _ => rewrite H end.
  all: reflexivity.
Qed.

(** X5. [osqp_setup] calls [scale_data] exactly when the caller's
    settings ask for scaling. Without scaling the workspace has no scaling
    struct and its data are the copies of the caller's, [P] reduced to its
    upper triangle. *)
Theorem setup_scaling_choice data st din sin h w h' t :
  data = Some din → st = Some sin →
  osqp_setup data st h = Done (Some w) h' t →
  (EvScaleData ∈ t ↔ s_scaling sin ≠ 0) ∧
  (s_scaling sin = 0 →
   w_scaling w = OSQP_NULL ∧
   w_data w = Some {| d_n := d_n din;
                      d_m := d_m din;
                      d_P := csc_to_triu (d_P din);
                      d_q := vec_copy (d_q din) (d_n din);
                      d_A := copy_csc_mat (d_A din);
                      d_lA := vec_copy (d_lA din) (d_m din);
                      d_uA := vec_copy (d_uA din) (d_m din) |}).
Proof.
  intros -> ->.
  apply (setup_returned_by_run (Some din) (Some sin) h w h' t
           (λ w _ t,
              (EvScaleData ∈ t ↔ s_scaling sin ≠ 0) ∧
              (s_scaling sin = 0 →
               w_scaling w = OSQP_NULL ∧
               w_data w = Some {| d_n := d_n din;
                                  d_m := d_m din;
                                  d_P := csc_to_triu (d_P din);
                                  d_q := vec_copy (d_q din) (d_n din);
                                  d_A := copy_csc_mat (d_A din);
                                  d_lA := vec_copy (d_lA din) (d_m din);
                                  d_uA := vec_copy (d_uA din) (d_m din) |}))).
  setup_exec.
  all: try done.
  all: intros ? [= <-].
  all: match goal with
       | H : truthy (s_scaling _) = true |- _ =>
           apply truthy_true in H; split;
           [split; [done|intros _; repeat constructor]|done]
       | H : truthy (s_scaling _) = false |- _ =>
           apply truthy_false in H; split;
           [split; [intros Hin; each_event Hin ltac:(discriminate Hin)|done]
           |intros _; split; [reflexivity|]]
       end.
  all: cbn in *; congruence.
Qed.

(** X6. The private structure of the linear-system solver is initialised
    from the matrices and the settings as the returned workspace holds
    them (after scaling, and with polishing already forced off for a
    problem without constraints), with the polish flag 0. *)
Theorem setup_linear_system data st h w h' t :
  osqp_setup data st h = Done (Some w) h' t →
  ∃ d, w_data w = Some d ∧
       w_priv w = init_priv (d_P d) (d_A d) (w_settings w) 0.
Proof.
  apply (setup_returned_by_run data st h w h' t
           (λ w _ _, ∃ d, w_data w = Some d ∧
                          w_priv w
                          = init_priv (d_P d) (d_A d) (w_settings w) 0)).
  setup_exec.
  all: try done.
  all: intros ? [= <-]; cbn in *; eexists; (split; [eassumption || reflexivity|]).
  all: first [reflexivity | congruence].
Qed.

(** X7. The requests of a returning [osqp_setup] to the allocator, in
    order, with the number of cells of each: one for each struct, [n + m]
    for [x], [z] and [z_prev], and [n] or [m] for the other vectors; the
    timer is requested only when profiling is compiled in. *)
Theorem setup_requests data st din h w h' t :
  data = Some din → scale_data_keeps_dims →
  osqp_setup data st h = Done (Some w) h' t →
  let n := d_n din in
  let m := d_m din in
  requests t
  = [(ObjWork, 1)] ++
    (if 0 <? PROFILING then [(ObjTimer, 1)] else []) ++
    [(ObjData, 1); (ObjX, n + m); (ObjZ, n + m); (ObjU, m);
     (ObjZPrev, n + m); (ObjDuaResN, n); (ObjDuaResM, m);
     (ObjPol, 1); (ObjIndLAct, m); (ObjIndUAct, m); (ObjA2Ared, m);
     (ObjPolX, n); (ObjPolAx, m);
     (ObjSolution, 1); (ObjSolX, n); (ObjSolLambda, m); (ObjInfo, 1)] ∧
  h' = (h + length (requests t))%nat.
Proof.
  intros -> Hdims Hrun n m. revert Hrun.
  apply (setup_returned_by_run (Some din) st h w h' t
           (λ _ h' t,
              requests t
              = [(ObjWork, 1)] ++
                (if 0 <? PROFILING then [(ObjTimer, 1)] else []) ++
                [(ObjData, 1); (ObjX, n + m); (ObjZ, n + m); (ObjU, m);
                 (ObjZPrev, n + m); (ObjDuaResN, n); (ObjDuaResM, m);
                 (ObjPol, 1); (ObjIndLAct, m); (ObjIndUAct, m);
                 (ObjA2Ared, m); (ObjPolX, n); (ObjPolAx, m);
                 (ObjSolution, 1); (ObjSolX, n); (ObjSolLambda, m);
                 (ObjInfo, 1)] ∧
              h' = (h + length (requests t))%nat)).
  unfold osqp_setup.
  repeat (setup_exec_step;
          try match goal with
              | |- context [scale_data ?W] =>
                  lazymatch goal with
                  | H : w_data (scale_data W) = _ |- _ => fail
                  | _ =>
                      destruct (Hdims W _ eq_refl) as (d' & Hd' & Hn & Hm);
                      cbn in Hn, Hm
                  end
              end).
  all: try done.
  all: intros ? [= <-]; subst n m; rewrite ?Hn, ?Hm; cbn; split;
    [reflexivity|lia].
Qed.

(** X8. The timing state of a returned workspace. The solve, polish and
    run times and the iteration count are zero. With profiling compiled
    in, the setup time is the reading of the workspace's timer, started at
    the beginning of [osqp_setup]; without it there is no timer and the
    setup time is zero too. *)
Theorem setup_timing data st h w h' t :
  (∀ w0, w_timer (scale_data w0) = w_timer w0) →
  osqp_setup data st h = Done (Some w) h' t →
  ∃ i, w_info w = Some i ∧ info_iter i = 0 ∧
       info_solve_time i = c_zero ∧ info_polish_time i = c_zero ∧
       info_run_time i = c_zero ∧
       List.filter is_timing t
       = (if 0 <? PROFILING then [EvTic; EvToc] else []) ∧
       if 0 <? PROFILING
       then ∃ t0, w_timer w = Some (tic t0) ∧
                  info_setup_time i = toc (tic t0)
       else w_timer w = OSQP_NULL ∧ info_setup_time i = c_zero.
Proof.
  intros Ht.
  apply (setup_returned_by_run data st h w h' t
           (λ w _ t,
              ∃ i, w_info w = Some i ∧ info_iter i = 0 ∧
                   info_solve_time i = c_zero ∧
                   info_polish_time i = c_zero ∧
                   info_run_time i = c_zero ∧
                   List.filter is_timing t
                   = (if 0 <? PROFILING then [EvTic; EvToc] else []) ∧
                   if 0 <? PROFILING
                   then ∃ t0, w_timer w = Some (tic t0) ∧
                              info_setup_time i = toc (tic t0)
                   else w_timer w = OSQP_NULL ∧
                        info_setup_time i = c_zero)).
  unfold osqp_setup.
  repeat (setup_exec_step; rewrite ?Ht;
          cbn [w_timer set_w_dua_res_ws_m set_w_dua_res_ws_n set_w_z_prev
               set_w_u set_w_z set_w_x set_w_data set_w_timer
               set_w_settings Work_zero]).
  all: try done.
  all: intros ? [= <-]; eexists; split; [reflexivity|].
  all: cbn; rewrite ?Ht; cbn.
  all: repeat match goal with
         | H : w_timer _ = Some _ |- _ => cbn in H; injection H as <-
         end.
  all: split_and!; try reflexivity.
  all: eexists; split; reflexivity.
Qed.

(** X9. A run of [osqp_setup] that returns a workspace prints no error
    message, and prints the setup header exactly when printing is compiled
    in above level 1 and the workspace's settings are verbose. *)
Theorem setup_output data st h w h' t :
  (∀ w0, w_settings (scale_data w0) = w_settings w0) →
  osqp_setup data st h = Done (Some w) h' t →
  (∀ msg, EvPrint msg ∉ t) ∧
  (EvPrintSetupHeader ∈ t ↔
   1 < PRINTLEVEL ∧ ∃ s, w_settings w = Some s ∧ s_verbose s ≠ 0).
Proof.
  intros Hs.
  apply (setup_returned_by_run data st h w h' t
           (λ w _ t,
              (∀ msg, EvPrint msg ∉ t) ∧
              (EvPrintSetupHeader ∈ t ↔
               1 < PRINTLEVEL ∧
               ∃ s, w_settings w = Some s ∧ s_verbose s ≠ 0))).
  unfold osqp_setup.
  repeat (setup_exec_step; rewrite ?Hs;
          cbn [w_settings set_w_dua_res_ws_m set_w_dua_res_ws_n
               set_w_z_prev set_w_u set_w_z set_w_x set_w_data set_w_timer
               set_w_settings set_w_scaling Work_zero]).
  all: try done.
  all: intros ? [= <-]; cbn; rewrite ?Hs; cbn; split;
    [intros msg Hin; each_event Hin ltac:(discriminate Hin)|].
  all: repeat match goal with
         | H : (1 <? PRINTLEVEL) = true |- _ => apply Z.ltb_lt in H
         | H : (1 <? PRINTLEVEL) = false |- _ => apply Z.ltb_ge in H
         | H : truthy _ = true |- _ => apply truthy_true in H
         | H : truthy _ = false |- _ => apply truthy_false in H
         end.
  all: cbn in *.
  all: split;
    [ intros Hin;
      first [ by each_event Hin ltac:(discriminate Hin)
            | split; [done|]; eexists; split; [eassumption || reflexivity|];
              done ]
    | intros [Hpl (? & Hset & Hv)];
      first [ lia
            | solve [repeat constructor]
            | exfalso; injection Hset as <-; cbn in *; congruence ] ].
Qed.

End SetupMore.

(** ** [osqp_cleanup] *)

Section Cleanup.
Context {c_float : Type} {ops : FloatOps c_float} {csc Priv Timer : Type}.
Context {build : Build} {collab : @Collaborators c_float csc Priv Timer}.
Context {allocator : @Allocator c_float Timer}.
Implicit Types (w : @Work c_float csc Priv Timer) (d din : @Data c_float csc).
Implicit Types (work : option (@Work c_float csc Priv Timer)).
Implicit Types (log : list release).

Ltac cleanup_exec_step :=
  first
    [ wpa_step
    | progress unfold c_free, csc_spfree, free_priv
    | wpa_case ];
  cbv beta iota.

Ltac cleanup_exec :=
  unfold osqp_cleanup; repeat cleanup_exec_step;
  rewrite <-?app_assoc; cbn [app].

(** X10. [osqp_cleanup] checks no pointer. It returns, with exit flag 0,
    exactly when the workspace and its data, settings, polish and solution
    structs are there, and the scaling struct too when the settings of the
    workspace have scaling on; otherwise it dereferences a null pointer.
    The other pointers may be null. *)
Theorem cleanup_null_pointers work log :
  match osqp_cleanup work log with
  | Done flag _ t => flag = 0 ∧ t = [] ∧ cleanup_ready work
  | Abort why t => why = NullDeref ∧ t = [] ∧ ¬ cleanup_ready work
  end.
Proof.
  apply (wpa_run (osqp_cleanup work) log
           (λ flag _ t, flag = 0 ∧ t = [] ∧ cleanup_ready work)
           (λ why t, why = NullDeref ∧ t = [] ∧ ¬ cleanup_ready work)).
  unfold osqp_cleanup. repeat cleanup_exec_step.
  all: split; [reflexivity|]; split; [reflexivity|].
  all: repeat match goal with
         | H : truthy _ = true |- _ => apply truthy_true in H
         | H : truthy _ = false |- _ => apply truthy_false in H
         end.
  all: try (eexists _, _; split_and!;
            [reflexivity|by eexists|eassumption
            |first [intros; congruence | by eexists]
            |by eexists..]).
  all: intros (w' & s' & Hw & [? Hd] & Hs & Hsc & [? Hp] & [? Hso]);
    try discriminate Hw; injection Hw as <-; try congruence.
  all: destruct Hsc as [? Hsc]; congruence.
Qed.

(** The blocks of a sequence whose owners follow. *)
Lemma owners_follow_spec (l : list block) :
  owners_follow l = true →
  ∀ l1 b l2 o, l = l1 ++ b :: l2 → owner_of b = Some o → o ∈ l2.
Proof.
  induction l as [|b0 l IH]; intros Hl l1 b l2 o Heq Ho.
  - by destruct l1.
  - simpl in Hl. apply andb_prop in Hl as [Hb0 Hl].
    destruct l1 as [|b1 l1]; simpl in Heq; injection Heq as -> ->.
    + rewrite Ho in Hb0. by apply bool_decide_eq_true in Hb0.
    + by apply (IH Hl l1 b l2 o).
Qed.

(** X11. The calls of a returning [osqp_cleanup] hand over each block at
    most once; the pointer to a block is handed over before the struct
    that holds it, so no released struct is read; and the workspace itself
    is released last. *)
Theorem cleanup_release_order work log :
  osqp_cleanup work [] = Done 0 log [] →
  NoDup (released_block <$> log) ∧
  (∀ l1 b l2 o, released_block <$> log = l1 ++ b :: l2 →
                owner_of b = Some o → o ∈ l2) ∧
  last log = Some (CFree BlkWork true).
Proof.
  intros Hrun.
  cut (wpa (osqp_cleanup work) []
         (λ _ log _,
            NoDup (released_block <$> log) ∧
            owners_follow (released_block <$> log) = true ∧
            last log = Some (CFree BlkWork true))
         (λ _ _, True)).
  { intros Hwp. apply wpa_run in Hwp. rewrite Hrun in Hwp.
    destruct Hwp as (? & ? & ?). split_and!; [done| |done].
    by apply owners_follow_spec. }
  clear Hrun. cleanup_exec.
  all: try exact I.
  all: cbn [fmap list_fmap released_block]; split_and!;
    [by apply (bool_decide_unpack _)|reflexivity|reflexivity].
Qed.

(** What a returning [osqp_cleanup] frees of the blocks that [osqp_setup]
    requests: those whose pointer in the workspace is not null, once. *)
Lemma cleanup_frees_live w :
  cleanup_ready (Some w) →
  ∃ log, osqp_cleanup (Some w) [] = Done 0 log [] ∧
         ∀ o, times_freed (block_of o) log
              = if live_pointer o w then 1%nat else 0%nat.
Proof.
  intros (w' & s & [= <-] & [d Hd] & Hs & Hsc & [p Hp] & [so Hso]).
  cut (wpa (osqp_cleanup (Some w)) []
         (λ flag log t,
            flag = 0 ∧ t = [] ∧
            ∀ o, times_freed (block_of o) log
                 = if live_pointer o w then 1%nat else 0%nat)
         (λ _ _, False)).
  { unfold wpa. destruct (osqp_cleanup (Some w) []) as [flag log t|];
      [|done]. intros (-> & -> & ?). by exists log. }
  cleanup_exec.
  all: repeat match goal with
         | H : truthy _ = true |- _ => apply truthy_true in H
         end.
  all: try (destruct Hsc as [? Hsc]; [done|]; congruence).
  all: split; [reflexivity|]; split; [reflexivity|].
  all: intros [];
    cbn [block_of live_pointer member_live times_freed List.filter frees
         bool_decide decide_rel block_eq_dec block_rec block_rect andb
         non_null];
    rewrite ?Hd, ?Hs, ?Hp, ?Hso.
  all: repeat match goal with
         | H : (0 <? PROFILING) = _ |- _ => rewrite H
         end.
  all: cbn [andb non_null member_live]; try reflexivity.
  all: match goal with
       | |- context [non_null ?q] => destruct q; reflexivity
       end.
Qed.

(** The pointers of a workspace that [osqp_setup] returns stand for the
    blocks that the allocator granted, and [osqp_cleanup] can run on it. *)
Lemma setup_live_pointers data st sin sc h w h' t :
  st = Some sin → copy_settings st = Some sc →
  s_scaling sc = s_scaling sin →
  scale_data_keeps_blocks →
  osqp_setup data st h = Done (Some w) h' t →
  cleanup_ready (Some w) ∧ ∀ o, live_pointer o w = granted o t.
Proof.
  intros -> Hcopy Hflag Hkeep.
  apply (setup_returned_by_run data (Some sin) h w h' t
           (λ w _ t, cleanup_ready (Some w) ∧
                     ∀ o, live_pointer o w = granted o t)).
  unfold osqp_setup. rewrite Hcopy.
  repeat (setup_exec_step;
          try match goal with
              | |- context [scale_data ?W] =>
                  lazymatch goal with
                  | H : w_settings (scale_data W) = _ |- _ => fail
                  | _ =>
                      destruct (Hkeep W)
                        as (Hfs & Hft & Hfx & Hfz & Hfu & Hfzp & Hfn & Hfm
                            & Hfd);
                      destruct Hfd as [[d' Hfd] [scx Hfsc]]; [by eexists|]
                  end
              end).
  all: try done.
  all: repeat match goal with
         | H : truthy _ = true |- _ => apply truthy_true in H
         | H : truthy _ = false |- _ => apply truthy_false in H
         end.
  all: intros ? [= <-]; cbn in *; split.
  all: try (eexists _, _; split_and!; [reflexivity|..];
            cbn; rewrite ?Hfs, ?Hfd, ?Hfsc; cbn;
            first [ reflexivity
                  | intros; cbn in *; congruence
                  | by eexists ]).
  all: intros []; cbn;
    rewrite ?Hfs, ?Hft, ?Hfx, ?Hfz, ?Hfu, ?Hfzp, ?Hfn, ?Hfm, ?Hfd, ?Hfsc;
    cbn.
  all: repeat match goal with
         | H : (0 <? PROFILING) = _ |- _ => rewrite H
         end.
  all: cbn; try reflexivity.
  all: match goal with
       | |- context [grant ?k] => destruct (grant k); reflexivity
       end.
Qed.

(** X12. [osqp_cleanup] releases what [osqp_setup] obtained: on a
    workspace that [osqp_setup] returned, it returns, and it frees each
    block that the allocator granted to [osqp_setup] exactly once, and no
    block that the allocator refused. *)
Theorem cleanup_releases_setup data st sin sc h w h' t :
  st = Some sin → copy_settings st = Some sc →
  s_scaling sc = s_scaling sin →
  scale_data_keeps_blocks →
  osqp_setup data st h = Done (Some w) h' t →
  ∃ log, osqp_cleanup (Some w) [] = Done 0 log [] ∧
         ∀ o, times_freed (block_of o) log
              = if granted o t then 1%nat else 0%nat.
Proof.
  intros Hst Hcopy Hflag Hkeep Hrun.
  destruct (setup_live_pointers data st sin sc h w h' t
              Hst Hcopy Hflag Hkeep Hrun) as [Hready Hlive].
  destruct (cleanup_frees_live w Hready) as (log & Hclean & Hfreed).
  exists log. split; [done|]. intros o. by rewrite Hfreed, Hlive.
Qed.

End Cleanup.

(** ** [osqp_solve]: the sequence of its calls *)

Section SolveMore.
Context {c_float : Type} {ops : FloatOps c_float} {csc Priv Timer : Type}.
Context {build : Build} {collab : @Collaborators c_float csc Priv Timer}.
Implicit Types (w : @Work c_float csc Priv Timer) (d : @Data c_float csc).
Implicit Types (s : Settings) (iter r : c_int) (rs : list c_int).

(** The cases of the optional events of a trace. *)
Ltac trace_cases :=
  try match goal with
      | |- context [prints ?s] => destruct (prints s)
      end;
  cbn [andb negb];
  repeat match goal with
         | |- context [if ?c then _ else _] => destruct c; cbn [andb negb]
         end;
  simpl.

(** One iteration on a ready workspace returns, with the calls of
    [iteration_events]. *)
Lemma admm_iteration_events iter w0 w s :
  solve_contract → ready_like w0 w → w_settings w0 = Some s →
  ∃ r w', admm_iteration iter w = Done r w' (iteration_events s iter r) ∧
          ready_like w0 w'.
Proof.
  intros (Hcold & Hrhs & Hx & Hproj & Hu & Hinfo & Hres & Hpol) Hw Hs.
  cut (wp False (admm_iteration iter) w
         (λ r w' t, t = iteration_events s iter r ∧ ready_like w0 w')).
  { rewrite wp_done. intros (r & w' & t & Hrun & -> & ?). by exists r, w'. }
  unfold admm_iteration.
  pose proof Hw
    as [(_ & Hi & Ht & d & zv & zp & Hd & Hz & Hzp & Hlz & Hlp) Hw0].
  wp_run. rewrite Hz, Hzp. apply wp_prea_vec_copy; [done..|]. wp_run.
  assert (ready_like w0 (set_w_z_prev (Some zv) w)) as Hw1.
  { split; [|done]. split_and!; [by apply Hw|done..|]. by exists d, zv, zv. }
  eapply wp_call; [exact Hrhs|exact Hw1|]. intros w2 Hw2. wp_run.
  eapply wp_call; [exact Hx|apply ready_like_set_x, Hw2|]. intros w3 Hw3.
  wp_run.
  eapply wp_call; [exact Hproj|exact Hw3|]. intros w4 Hw4. wp_run.
  eapply wp_call; [exact Hu|exact Hw4|]. intros w5 Hw5. wp_run.
  eapply wp_call; [apply Hinfo|exact Hw5|]. intros w6 Hw6. wp_run.
  destruct (residuals_check w6) as [w7 r] eqn:Hrc.
  assert (ready_like w0 w7) as Hw7.
  { eapply ready_like_trans; [exact Hw6|].
    pose proof (Hres w6 (proj1 Hw6)) as Hr. cbv beta in Hr.
    by rewrite Hrc in Hr. }
  pose proof (proj2 Hw6) as Hs6. rewrite Hs in Hs6.
  unfold iteration_events, prints, opt_event.
  destruct (1 <? PRINTLEVEL); cbn [andb].
  - wp_run.
    destruct (truthy (s_verbose s) && (Z.rem iter PRINT_INTERVAL =? 0));
      wp_run; rewrite Hrc; by wp_run.
  - wp_run. rewrite Hrc. by wp_run.
Qed.

(** With fuel for the iterations left, the loop returns with the calls of
    its iterations, in order; it is left with [exit_iter], at the first
    check that passes or at [max_iter]. *)
Lemma admm_loop_events fuel iter w0 w s :
  solve_contract → ready_like w0 w → w_settings w0 = Some s →
  s_max_iter s - iter ≤ Z.of_nat fuel →
  wp False (admm_loop fuel iter) w
    (λ iter' w' t, ∃ rs,
       ready_like w0 w' ∧
       t = loop_events s iter rs ∧
       iter' = exit_iter iter rs ∧
       iter + Z.of_nat (length rs) ≤ Z.max iter (s_max_iter s) ∧
       (∀ k r, rs !! k = Some r → r ≠ 0 → S k = length rs) ∧
       (iter + Z.of_nat (length rs) < s_max_iter s →
        ∃ r, last rs = Some r ∧ r ≠ 0)).
Proof.
  intros Hc Hw Hs. revert iter w Hw.
  induction fuel as [|fuel IH]; intros iter w Hw Hfuel.
  all: rewrite admm_loop_unfold; pose proof Hw as [_ Hws];
    rewrite Hs in Hws; wp_run.
  all: destruct (Z.ltb_spec iter (s_max_iter s)) as [Hlt|Hge].
  all: try (wp_run; exists []; simpl; split_and!; [done..|lia|done|lia]).
  - lia.
  - destruct (admm_iteration_events iter w0 w s Hc Hw Hs)
      as (r & w1 & Hrun & Hw1).
    wp_step. eapply wp_of_run; [exact Hrun|].
    destruct (truthy r) eqn:Hr.
    + wp_run. exists [r]. simpl. rewrite Hr, !app_nil_r.
      apply truthy_true in Hr. split_and!; [done..|lia| |by eauto].
      intros [|k] r'; [done|]. by intros [=].
    + specialize (IH (iter + 1) w1 Hw1).
      eapply wp_mono; [apply IH; lia|]. cbv beta.
      intros iter' w2 t2 (rs & ? & -> & -> & Hlen & Hlast & Hshort).
      exists (r :: rs). simpl. rewrite Hr. apply truthy_false in Hr.
      split_and!; [done..|lia| |].
      * intros [|k] r'; simpl.
        -- intros [= <-]. done.
        -- intros Hk Hr'. f_equal. by eapply Hlast.
      * intros Hsh. destruct Hshort as (r' & Hl & Hr'); [lia|].
        exists r'. split; [|done]. by destruct rs.
Qed.

(** Lines 147-198: the calls before the loop, then the loop. *)
Lemma solve_admm_events fuel w s :
  solve_contract → solve_ready w → w_settings w = Some s →
  s_max_iter s ≤ Z.of_nat fuel →
  ∃ rs w1,
    solve_admm fuel w
    = Done (exit_iter 0 rs) w1 (solve_prologue s ++ loop_events s 0 rs) ∧
    ready_like w w1 ∧
    Z.of_nat (length rs) ≤ Z.max 0 (s_max_iter s) ∧
    exits_on_first_pass (s_max_iter s) rs.
Proof.
  intros Hc Hw Hs Hfuel.
  cut (wp False (solve_admm fuel) w
         (λ iter' w' t, ∃ rs,
            iter' = exit_iter 0 rs ∧
            t = solve_prologue s ++ loop_events s 0 rs ∧
            ready_like w w' ∧
            Z.of_nat (length rs) ≤ Z.max 0 (s_max_iter s) ∧
            exits_on_first_pass (s_max_iter s) rs)).
  { rewrite wp_done.
    intros (iter' & w' & t & Hrun & rs & -> & -> & ?). by exists rs, w'. }
  unfold solve_admm.
  assert (∀ w1, ready_like w w1 →
    wp False (admm_loop fuel 0) w1
      (λ iter' w' t, ∃ rs,
         iter' = exit_iter 0 rs ∧
         t = loop_events s 0 rs ∧
         ready_like w w' ∧
         Z.of_nat (length rs) ≤ Z.max 0 (s_max_iter s) ∧
         exits_on_first_pass (s_max_iter s) rs)) as Hloop.
  { intros w1 Hw1.
    eapply wp_mono; [by apply (admm_loop_events fuel 0 w w1 s); [..|lia]|].
    cbv beta. intros iter' w' t (rs & ? & -> & ? & ? & ? & ?).
    exists rs. by split_and!. }
  pose proof Hw as (_ & _ & Ht & _).
  pose proof (ready_like_refl _ Hw) as Hww.
  assert (∀ w1, ready_like w w1 → w_settings w1 = Some s) as Hset.
  { intros w1 [_ ->]. done. }
  unfold solve_prologue, prints, opt_event.
  wp_step. wp_step. destruct (0 <? PROFILING) eqn:Hp.
  1: destruct Ht as [tm Htm]; [done|].
  all: wp_run.
  all: destruct (1 <? PRINTLEVEL) eqn:Hpl.
  all: wp_run.
  all: try (rewrite (Hset _ (ready_like_set_timer _ _ _ Hww)); cbv beta iota).
  all: try destruct (truthy (s_verbose s)).
  all: wp_run.
  all: try (rewrite (Hset _ (ready_like_set_timer _ _ _ Hww)); cbv beta iota).
  all: wp_run.
  all: destruct (negb (truthy (s_warm_start s))).
  all: try (eapply wp_call;
            [apply Hc
            |eauto using ready_like_set_timer
            |intros w1 Hw1; cbv beta]).
  all: (eapply wp_mono; [apply Hloop; eauto using ready_like_set_timer|]).
  all: cbv beta; intros iter' w' t (rs & ? & -> & ? & ? & ?).
  all: exists rs; by split_and!.
Qed.

(** Lines 201-235 return 0 with the calls of [solve_epilogue]; the last
    of them hands the workspace to [store_solution]. With profiling
    compiled in, that workspace carries the run time; when [polish] is not
    called, it carries the status that the loop left, with its text. *)
Lemma solve_finish_events iter w0 w s i :
  solve_contract → ready_like w0 w →
  w_settings w = Some s → w_info w = Some i →
  ∃ w2,
    solve_finish 0 iter w
    = Done 0 (store_solution w2)
        (solve_epilogue s iter (info_status_val i =? OSQP_SOLVED)) ∧
    ((0 <? PROFILING) = true →
     ∃ w3 i3, w_info w3 = Some i3 ∧
       w2 = set_w_info
              (Some (set_info_run_time
                       (c_add (c_add (info_setup_time i3)
                                     (info_solve_time i3))
                              (info_polish_time i3)) i3)) w3) ∧
    (truthy (s_polishing s) && (info_status_val i =? OSQP_SOLVED) = false →
     ∃ i2, w_info w2 = Some i2 ∧
           info_status_val i2 = info_status_val i ∧
           info_status i2 = status_text (info_status_val i)).
Proof.
  intros Hc Hw Hs Hi.
  cut (wp False (solve_finish 0 iter) w
         (λ flag w' t, ∃ w2,
            flag = 0 ∧ w' = store_solution w2 ∧
            t = solve_epilogue s iter (info_status_val i =? OSQP_SOLVED) ∧
            ((0 <? PROFILING) = true →
             ∃ w3 i3, w_info w3 = Some i3 ∧
               w2 = set_w_info
                      (Some (set_info_run_time
                               (c_add (c_add (info_setup_time i3)
                                             (info_solve_time i3))
                                      (info_polish_time i3)) i3)) w3) ∧
            (truthy (s_polishing s) && (info_status_val i =? OSQP_SOLVED)
             = false →
             ∃ i2, w_info w2 = Some i2 ∧
                   info_status_val i2 = info_status_val i ∧
                   info_status i2 = status_text (info_status_val i)))).
  { rewrite wp_done.
    intros (flag & w' & t & Hrun & w2 & -> & -> & -> & ?). by exists w2. }
  unfold solve_finish, solve_epilogue, prints, opt_event.
  pose proof Hw as [(_ & _ & Ht & _) _].
  wp_step. destruct (1 <? PRINTLEVEL) eqn:Hpl; cbn [andb].
  all: wp_run.
  all: try destruct (truthy (s_verbose s)
                     && negb (Z.rem iter PRINT_INTERVAL =? 0)).
  all: wp_run.
  all: destruct (0 <? PROFILING) eqn:Hp.
  all: try (destruct Ht as [tm Htm]; [done|]).
  all: wp_run.
  all: try (rewrite Htm; cbv beta iota).
  all: wp_run.
  all: destruct (truthy (s_polishing s)); wp_run.
  all: cbn [info_status_val set_info_solve_time update_status_string
            set_info_status andb].
  all: try destruct (info_status_val i =? OSQP_SOLVED); cbv beta iota.
  all: try (eapply wp_call;
            [apply Hc
            |eauto using ready_like_set_info
            |intros w1 [([s1 Hs1] & [i1 Hi1] & _) _]; cbv beta]).
  all: wp_run.
  all: destruct (0 <? PRINTLEVEL); unfold call; wp_run.
  all: eexists; split_and!; [reflexivity|reflexivity|reflexivity|..].
  all: try (intros Hfalse; discriminate Hfalse).
  all: try (intros _; eexists _, _; split; [|reflexivity];
            (eassumption || reflexivity)).
  all: try (intros _; eexists; split; [reflexivity|]; by split).
Qed.

(** The run of [osqp_solve] from a ready workspace, call by call. *)
Lemma osqp_solve_events fuel w s :
  solve_contract → solve_ready w → w_settings w = Some s →
  s_max_iter s ≤ Z.of_nat fuel →
  ∃ rs w1 i1 w2,
    solve_admm fuel w
    = Done (exit_iter 0 rs) w1 (solve_prologue s ++ loop_events s 0 rs) ∧
    ready_like w w1 ∧ w_info w1 = Some i1 ∧
    osqp_solve fuel w
    = Done 0 (store_solution w2)
        (solve_prologue s ++ loop_events s 0 rs ++
         solve_epilogue s (exit_iter 0 rs)
           (info_status_val i1 =? OSQP_SOLVED)) ∧
    Z.of_nat (length rs) ≤ Z.max 0 (s_max_iter s) ∧
    exits_on_first_pass (s_max_iter s) rs ∧
    ((0 <? PROFILING) = true →
     ∃ w3 i3, w_info w3 = Some i3 ∧
       w2 = set_w_info
              (Some (set_info_run_time
                       (c_add (c_add (info_setup_time i3)
                                     (info_solve_time i3))
                              (info_polish_time i3)) i3)) w3) ∧
    (truthy (s_polishing s) && (info_status_val i1 =? OSQP_SOLVED) = false →
     ∃ i2, w_info w2 = Some i2 ∧
           info_status_val i2 = info_status_val i1 ∧
           info_status i2 = status_text (info_status_val i1)).
Proof.
  intros Hc Hw Hs Hfuel.
  destruct (solve_admm_events fuel w s Hc Hw Hs Hfuel)
    as (rs & w1 & Hrun1 & Hw1 & Hlen & Hexit).
  pose proof Hw1 as [(_ & [i1 Hi1] & _) Hs1]. rewrite Hs in Hs1.
  destruct (solve_finish_events (exit_iter 0 rs) w w1 s i1 Hc Hw1 Hs1 Hi1)
    as (w2 & Hrun2 & Htime & Htext).
  exists rs, w1, i1, w2. split_and!; try done.
  unfold osqp_solve, mbind, M_bind. by rewrite Hrun1, Hrun2, <-app_assoc.
Qed.

(** An event of the loop is an event of one of its iterations. *)
Lemma elem_of_loop_events (e : event) s iter rs :
  e ∈ loop_events s iter rs ↔
  ∃ k r, rs !! k = Some r ∧
         e ∈ iteration_events s (iter + Z.of_nat k) r.
Proof.
  revert iter. induction rs as [|r0 rs IH]; intros iter; cbn [loop_events].
  - split; [by intros ?%elem_of_nil|by intros (k & r & ? & _)].
  - rewrite elem_of_app, IH. split.
    + intros [He|(k & r & Hk & He)].
      * exists 0%nat, r0. by rewrite Z.add_0_r.
      * exists (S k), r. split; [done|].
        by replace (iter + Z.of_nat (S k)) with (iter + 1 + Z.of_nat k) by lia.
    + intros ([|k] & r & Hk & He); simpl in Hk.
      * left. injection Hk as <-. by rewrite Z.add_0_r in He.
      * right. exists k, r. split; [done|].
        by replace (iter + 1 + Z.of_nat k) with (iter + Z.of_nat (S k)) by lia.
Qed.

(** The steps and the cold start in the calls of the loop. *)
Lemma loop_events_steps s iter rs :
  List.filter (λ e, is_cold_start e || is_admm_step e) (loop_events s iter rs)
  = admm_trace iter rs.
Proof.
  revert iter. induction rs as [|r rs IH]; intros iter; [done|].
  cbn [loop_events admm_trace].
  rewrite List.filter_app, IH. unfold iteration_events, opt_event.
  by destruct (prints s && (Z.rem iter PRINT_INTERVAL =? 0)).
Qed.

(** X13. [osqp_solve] calls [cold_start] exactly when the settings have
    warm start off: then once, before the first iteration; with warm start
    on, the iterations start from the iterates that the workspace holds. *)
Theorem solve_cold_start fuel w s :
  solve_contract → solve_ready w → w_settings w = Some s →
  s_max_iter s ≤ Z.of_nat fuel →
  ∃ w' t rs,
    osqp_solve fuel w = Done 0 w' t ∧
    List.filter (λ e, is_cold_start e || is_admm_step e) t
    = (if truthy (s_warm_start s) then [] else [EvColdStart]) ++
      admm_trace 0 rs.
Proof.
  intros Hc Hw Hs Hfuel.
  destruct (osqp_solve_events fuel w s Hc Hw Hs Hfuel)
    as (rs & w1 & i1 & w2 & _ & _ & _ & Hrun & _).
  eexists _, _, rs. split; [exact Hrun|].
  rewrite !List.filter_app, loop_events_steps.
  unfold solve_prologue, solve_epilogue, opt_event.
  destruct (0 <? PROFILING), (prints s), (truthy (s_warm_start s)),
    (Z.rem (exit_iter 0 rs) PRINT_INTERVAL =? 0),
    (truthy (s_polishing s) && (info_status_val i1 =? OSQP_SOLVED)),
    (0 <? PRINTLEVEL); simpl; by rewrite ?app_nil_r.
Qed.

(** X14. What [osqp_solve] prints. The header and the summaries are
    printed only when printing is compiled in above level 1 and the
    settings are verbose, and the header then always; the footer is
    printed whenever printing is compiled in, verbose or not. *)
Theorem solve_printing fuel w s :
  solve_contract → solve_ready w → w_settings w = Some s →
  s_max_iter s ≤ Z.of_nat fuel →
  ∃ w' t,
    osqp_solve fuel w = Done 0 w' t ∧
    (EvPrintHeader ∈ t ↔ 1 < PRINTLEVEL ∧ s_verbose s ≠ 0) ∧
    (EvPrintSummary ∈ t → 1 < PRINTLEVEL ∧ s_verbose s ≠ 0) ∧
    (EvPrintFooter ∈ t ↔ 0 < PRINTLEVEL).
Proof.
  intros Hc Hw Hs Hfuel.
  destruct (osqp_solve_events fuel w s Hc Hw Hs Hfuel)
    as (rs & w1 & i1 & w2 & _ & _ & _ & Hrun & _).
  eexists _, _. split; [exact Hrun|].
  assert (prints s = true ↔ 1 < PRINTLEVEL ∧ s_verbose s ≠ 0) as Hprints.
  { unfold prints. rewrite andb_true_iff, Z.ltb_lt, truthy_true. done. }
  rewrite !elem_of_app, !elem_of_loop_events, <-Hprints, <-Z.ltb_lt.
  unfold solve_prologue, solve_epilogue, iteration_events, opt_event.
  split_and!.
  - split.
    + intros [Hin|[(k & r & _ & Hin)|Hin]]; revert Hin; trace_cases;
        try done; intros Hin; each_event Hin ltac:(discriminate Hin).
    + intros ->. left. trace_cases; repeat constructor.
  - intros [Hin|[(k & r & _ & Hin)|Hin]]; revert Hin; trace_cases;
      try done; intros Hin; each_event Hin ltac:(discriminate Hin).
  - split.
    + intros [Hin|[(k & r & _ & Hin)|Hin]]; revert Hin; trace_cases;
        try done; intros Hin; each_event Hin ltac:(discriminate Hin).
    + intros ->. right. right. trace_cases; repeat constructor.
Qed.

(** X15. [store_solution] is the last call of [osqp_solve] and its only
    call of it: the solution is stored once, after the loop and after
    [polish]; the workspace that [osqp_solve] leaves is what
    [store_solution] returns. *)
Theorem solve_stores_last fuel w s :
  solve_contract → solve_ready w → w_settings w = Some s →
  s_max_iter s ≤ Z.of_nat fuel →
  ∃ w2 t0,
    osqp_solve fuel w = Done 0 (store_solution w2) (t0 ++ [EvStoreSolution]) ∧
    EvStoreSolution ∉ t0.
Proof.
  intros Hc Hw Hs Hfuel.
  destruct (osqp_solve_events fuel w s Hc Hw Hs Hfuel)
    as (rs & w1 & i1 & w2 & _ & _ & _ & Hrun & _).
  exists w2,
    (solve_prologue s ++ loop_events s 0 rs ++
     opt_event (prints s
                && negb (Z.rem (exit_iter 0 rs) PRINT_INTERVAL =? 0))
       EvPrintSummary ++
     [EvUpdateStatusString] ++
     opt_event (0 <? PROFILING) EvToc ++
     opt_event (truthy (s_polishing s)
                && (info_status_val i1 =? OSQP_SOLVED)) EvPolish ++
     opt_event (0 <? PRINTLEVEL) EvPrintFooter).
  split.
  - rewrite Hrun. unfold solve_epilogue. by rewrite <-!app_assoc.
  - rewrite !elem_of_app, elem_of_loop_events.
    unfold solve_prologue, iteration_events, opt_event.
    intros [Hin|[(k & r & _ & Hin)|[Hin|[Hin|[Hin|[Hin|Hin]]]]]];
      revert Hin; trace_cases;
      intros Hin; each_event Hin ltac:(discriminate Hin).
Qed.

(** X16. With profiling compiled in, the workspace that [osqp_solve]
    hands to [store_solution] carries as run time the sum of the setup,
    solve and polish times of its info, added in this order. *)
Theorem solve_run_time fuel w s :
  solve_contract → solve_ready w → w_settings w = Some s →
  s_max_iter s ≤ Z.of_nat fuel →
  0 < PROFILING →
  ∃ w3 i3 t,
    w_info w3 = Some i3 ∧
    osqp_solve fuel w
    = Done 0
        (store_solution
           (set_w_info
              (Some (set_info_run_time
                       (c_add (c_add (info_setup_time i3)
                                     (info_solve_time i3))
                              (info_polish_time i3)) i3)) w3)) t.
Proof.
  intros Hc Hw Hs Hfuel Hp%Z.ltb_lt.
  destruct (osqp_solve_events fuel w s Hc Hw Hs Hfuel)
    as (rs & w1 & i1 & w2 & _ & _ & _ & Hrun & _ & _ & Htime & _).
  destruct (Htime Hp) as (w3 & i3 & Hi3 & ->). by eexists w3, i3, _.
Qed.

(** X18. The exit flag of [osqp_solve] is 0 in every run that returns,
    whatever the collaborators do and whatever status the loop left: it
    does not tell a solved problem from one that reached the iteration
    limit. *)
Theorem solve_exit_flag fuel w :
  match osqp_solve fuel w with
  | Done flag _ _ => flag = 0
  | Abort _ _ => True
  end.
Proof.
  unfold osqp_solve. cbv zeta.
  apply (wpa_run _ w (λ flag _ _, flag = 0) (λ _ _, True)).
  apply wpa_bind.
  eapply wpa_mono with (Q := λ _ _ _, True) (E := λ _ _, True);
    [by unfold wpa; destruct (solve_admm fuel w)| |done].
  intros iter w1 t1 _. unfold solve_finish, call.
  repeat first [ exact I | reflexivity | wpa_step | wpa_case ].
Qed.

(** The calls of a loop with one more iteration. *)
Lemma loop_events_snoc s iter rs r :
  loop_events s iter (rs ++ [r])
  = loop_events s iter rs ++
    iteration_events s (iter + Z.of_nat (length rs)) r.
Proof.
  revert iter. induction rs as [|r0 rs IH]; intros iter.
  - cbn [app loop_events length]. by rewrite Z.add_0_r, app_nil_r.
  - cbn [app loop_events length]. rewrite IH, <-app_assoc.
    by replace (iter + 1 + Z.of_nat (length rs))
      with (iter + Z.of_nat (S (length rs))) by lia.
Qed.

(** A loop whose last check passed, and no check before it, is left at
    the number of its last iteration. *)
Lemma exit_iter_pass iter rs r :
  (∀ k r', (rs ++ [r]) !! k = Some r' → r' ≠ 0 →
           S k = length (rs ++ [r])) →
  r ≠ 0 → exit_iter iter (rs ++ [r]) = iter + Z.of_nat (length rs).
Proof.
  revert iter. induction rs as [|r0 rs IH]; intros iter Hlast Hr.
  - simpl. apply truthy_true in Hr. rewrite Hr. lia.
  - cbn [app exit_iter length].
    destruct (truthy r0) eqn:Hr0.
    + apply truthy_true in Hr0. specialize (Hlast 0%nat r0 eq_refl Hr0).
      rewrite length_app in Hlast. simpl in Hlast. lia.
    + rewrite IH; [lia| |done].
      intros k r' Hk Hr'. specialize (Hlast (S k) r' Hk Hr').
      simpl in Hlast. lia.
Qed.

(** In a list, what follows the last element that satisfies [P]. *)
Lemma after_last_occurrence {A} (P : A → bool) (a1 a2 b1 b2 : list A) x1 x2 :
  a1 ++ x1 :: b1 = a2 ++ x2 :: b2 →
  P x1 = true → P x2 = true →
  List.filter P b1 = [] → List.filter P b2 = [] → b1 = b2.
Proof.
  revert a2. induction a1 as [|y a1 IH]; intros [|y' a2] Heq H1 H2 Hb1 Hb2;
    simpl in Heq; injection Heq as -> Heq.
  - done.
  - rewrite Heq, List.filter_app in Hb1. simpl in Hb1. rewrite H2 in Hb1.
    by destruct (List.filter P a2).
  - rewrite <-Heq, List.filter_app in Hb2. simpl in Hb2. rewrite H1 in Hb2.
    by destruct (List.filter P a1).
  - by apply (IH a2).
Qed.

(** No call of [update_info] outside the loop. *)
Lemma update_info_outside_loop s iter (solved : bool) :
  List.filter is_update_info (solve_prologue s) = [] ∧
  List.filter is_update_info (solve_epilogue s iter solved) = [].
Proof.
  unfold solve_prologue, solve_epilogue, opt_event. split; by trace_cases.
Qed.

(** X19. With verbose printing, the summary of the iteration whose
    termination check passed is printed exactly once: between the last
    call of [update_info] and the end of the run there is one call of
    [print_summary], in the loop when the number of the iteration is a
    multiple of [PRINT_INTERVAL] and after the loop otherwise. *)
Theorem solve_summary_at_convergence fuel w s :
  solve_contract → solve_ready w → w_settings w = Some s →
  s_max_iter s ≤ Z.of_nat fuel →
  1 < PRINTLEVEL → s_verbose s ≠ 0 →
  ∃ w' t,
    osqp_solve fuel w = Done 0 w' t ∧
    ∀ t1 k t2 r,
      t = t1 ++ EvUpdateInfo k 0 :: t2 →
      List.filter is_update_info t2 = [] →
      EvResidualsCheck r ∈ t2 → r ≠ 0 →
      List.filter is_print_summary t2 = [EvPrintSummary].
Proof.
  intros Hc Hw Hs Hfuel Hpl Hv.
  destruct (osqp_solve_events fuel w s Hc Hw Hs Hfuel)
    as (rs & w1 & i1 & w2 & _ & _ & _ & Hrun & _ & [Hlast _] & _).
  eexists _, _. split; [exact Hrun|].
  assert (prints s = true) as Hprints.
  { unfold prints. apply andb_true_iff. by rewrite Z.ltb_lt, truthy_true. }
  intros t1 k t2 r Ht Hnone Hin Hr.
  destruct (update_info_outside_loop s (exit_iter 0 rs)
              (info_status_val i1 =? OSQP_SOLVED)) as [Hpro Hepi].
  destruct (rev_ind (λ rs, rs = [] ∨ ∃ rs0 rl, rs = rs0 ++ [rl]) ) with rs
    as [->|(rs0 & rl & ->)]; [by left|intros; right; eauto| |].
  { (* no iteration: no call of update_info at all *)
    cbn [loop_events app] in Ht.
    assert (List.filter is_update_info
              (solve_prologue s ++
               solve_epilogue s (exit_iter 0 [])
                 (info_status_val i1 =? OSQP_SOLVED)) = []) as Hno.
    { by rewrite List.filter_app, Hpro, Hepi. }
    rewrite Ht, List.filter_app in Hno. simpl in Hno.
    by destruct (List.filter is_update_info t1). }
  rewrite loop_events_snoc in Ht. cbn [Z.add] in Ht.
  unfold iteration_events in Ht. rewrite Hprints in Ht. cbn [andb] in Ht.
  set (kl := Z.of_nat (length rs0)) in *.
  set (tail := opt_event (Z.rem kl PRINT_INTERVAL =? 0) EvPrintSummary ++
               [EvResidualsCheck rl] ++
               solve_epilogue s (exit_iter 0 (rs0 ++ [rl]))
                 (info_status_val i1 =? OSQP_SOLVED)).
  assert (t2 = tail) as ->.
  { symmetry.
    apply (after_last_occurrence is_update_info
             (solve_prologue s ++ loop_events s 0 rs0 ++
              [EvPreaVecCopy; EvComputeRhs; EvSolveLinSys; EvUpdateX;
               EvProjectX; EvUpdateU])
             t1 tail t2 (EvUpdateInfo kl 0) (EvUpdateInfo k 0));
      [|done|done| |done].
    - rewrite <-Ht. subst tail. rewrite <-!app_assoc. reflexivity.
    - subst tail. rewrite !List.filter_app, Hepi. unfold opt_event.
      by destruct (Z.rem kl PRINT_INTERVAL =? 0). }
  assert (rl ≠ 0) as Hrl.
  { subst tail. rewrite !elem_of_app in Hin.
    unfold solve_epilogue, opt_event in Hin.
    destruct Hin as [Hin|[Hin|Hin]]; revert Hin; trace_cases; intros Hin;
      each_event Hin
        ltac:(first [discriminate Hin | by injection Hin as ->]). }
  subst tail kl. rewrite (exit_iter_pass 0 rs0 rl Hlast Hrl), Z.add_0_l.
  rewrite !List.filter_app. unfold solve_epilogue, opt_event.
  rewrite Hprints. cbn [andb].
  destruct (Z.rem (Z.of_nat (length rs0)) PRINT_INTERVAL =? 0);
    by trace_cases.
Qed.

(** X25. [osqp_solve] checks no pointer either. On a workspace whose
    [z] is null (as [osqp_setup] returns it when the allocator refuses
    [z]), with warm start on, a positive iteration limit and [n + m > 0],
    the first copy of [z] into [z_prev] dereferences the null pointer: the
    run stops there, before any other step. *)
Theorem solve_on_null_iterate fuel w s d :
  w_settings w = Some s → w_data w = Some d →
  (0 < PROFILING → is_Some (w_timer w)) →
  s_warm_start s ≠ 0 → 0 < s_max_iter s → 0 < d_n d + d_m d →
  w_z w = OSQP_NULL →
  ∃ t, osqp_solve (S fuel) w = Abort NullDeref t ∧
       List.filter is_admm_step t = [EvPreaVecCopy].
Proof.
  intros Hs Hd Ht Hwarm%truthy_true Hmax%Z.ltb_lt Hnm Hz.
  unfold OSQP_NULL in Hz.
  assert ((d_n d + d_m d <=? 0) = false) as Hnm' by by apply Z.leb_gt.
  cut (wpa (osqp_solve (S fuel)) w (λ _ _ _, False)
         (λ why t, why = NullDeref ∧
                   List.filter is_admm_step t = [EvPreaVecCopy])).
  { unfold wpa. destruct (osqp_solve (S fuel) w) as [|why t]; [done|].
    intros [-> ?]. by exists t. }
  unfold osqp_solve, solve_admm. cbv zeta. rewrite admm_loop_unfold.
  unfold admm_iteration, prea_vec_copy, call.
  destruct (0 <? PROFILING) eqn:Hp.
  1: destruct Ht as [tm Htm]; [by apply Z.ltb_lt|].
  all: repeat first
         [ wpa_step
         | rewrite Hs | rewrite Hd | rewrite Hz | rewrite Hwarm
         | rewrite Hmax | rewrite Hnm'
         | progress cbn [w_settings w_data w_z w_z_prev set_w_timer negb]
         | wpa_case ].
  all: by split.
Qed.

End SolveMore.

(** ** [osqp_setup] followed by [osqp_solve] *)

Section SetupSolve.
Context {c_float : Type} {ops : FloatOps c_float} {csc Priv Timer : Type}.
Context {build : Build} {collab : @Collaborators c_float csc Priv Timer}.
Context {allocator : @Allocator c_float Timer}.
Implicit Types (w : @Work c_float csc Priv Timer) (d din : @Data c_float csc).
Implicit Types (data : option (@Data c_float csc)) (st : option Settings).
Implicit Types (h : heap) (sin sc : Settings).

(** With valid arguments and memory granted, the workspace that
    [osqp_setup] returns has what [osqp_solve] dereferences, and the
    iteration limit of the copied settings. *)
Lemma setup_solve_ready data st din sin sc h :
  setup_inputs_ok data st din sin → copy_settings st = Some sc →
  scale_data_keeps_blocks → scale_data_keeps_dims →
  (∀ k, grant k = true) →
  ∃ w h' t s,
    osqp_setup data st h = Done (Some w) h' t ∧
    solve_ready w ∧ w_settings w = Some s ∧ s_max_iter s = s_max_iter sc.
Proof.
  intros (-> & -> & Hvd%truthy_false & Hvs%truthy_false & _) Hcopy Hkeep
    Hdims Hgrant.
  cut (wpa (osqp_setup (Some din) (Some sin)) h
         (λ r _ _, ∃ w s, r = Some w ∧ solve_ready w ∧
                          w_settings w = Some s ∧
                          s_max_iter s = s_max_iter sc)
         (λ _ _, False)).
  { unfold wpa. destruct (osqp_setup (Some din) (Some sin) h) as [r h' t|];
      [|done]. intros (w & s & -> & ?). by exists w, h', t, s. }
  unfold osqp_setup. rewrite Hvd, Hvs, Hcopy.
  repeat (setup_exec_step; rewrite ?Hgrant;
          try match goal with
              | |- context [scale_data ?W] =>
                  lazymatch goal with
                  | H : w_settings (scale_data W) = _ |- _ => fail
                  | _ =>
                      destruct (Hkeep W)
                        as (Hfs & Hft & _ & Hfz & _ & Hfzp & _ & _ & _);
                      destruct (Hdims W _ eq_refl) as (d' & Hfd & Hn & Hm)
                  end
              end).
  all: do 2 eexists; split; [reflexivity|]; unfold solve_ready; cbn in *;
    rewrite ?Hfs, ?Hft, ?Hfz, ?Hfzp, ?Hfd; cbn.
  all: split_and!; try reflexivity; try (by eexists).
  all: try (intros; congruence).
  all: try (intros; by eexists).
  all: do 3 eexists; split_and!; try reflexivity;
    rewrite ?Hn, ?Hm, ?length_replicate, ?length_fmap, ?length_seq;
    reflexivity.
Qed.

(** X20. [osqp_solve] runs on what [osqp_setup] returns: with valid
    arguments and memory granted, the returned workspace has every
    pointer and vector length that [osqp_solve] relies on, and
    [osqp_solve] on it returns with exit flag 0 within the iteration
    limit. *)
Theorem setup_then_solve data st din sin sc h fuel :
  setup_inputs_ok data st din sin → copy_settings st = Some sc →
  scale_data_keeps_blocks → scale_data_keeps_dims →
  (∀ k, grant k = true) →
  solve_contract → s_max_iter sc ≤ Z.of_nat fuel →
  ∃ w h' t w' t',
    osqp_setup data st h = Done (Some w) h' t ∧
    solve_ready w ∧
    osqp_solve fuel w = Done 0 w' t'.
Proof.
  intros Hin Hcopy Hkeep Hdims Hgrant Hc Hfuel.
  destruct (setup_solve_ready data st din sin sc h Hin Hcopy Hkeep Hdims
              Hgrant) as (w & h' & t & s & Hrun & Hready & Hs & Hmax).
  rewrite <-Hmax in Hfuel.
  destruct (osqp_solve_events fuel w s Hc Hready Hs Hfuel)
    as (rs & w1 & i1 & w2 & _ & _ & _ & Hsolve & _).
  by eexists w, h', t, _, _.
Qed.

End SetupSolve.

(** ** The update functions: what they leave alone, how they compose *)

Section UpdatesMore.
Context {c_float : Type} {ops : FloatOps c_float} {csc Priv Timer : Type}.
Variable settings : option Settings.
Implicit Types (w : @Work c_float csc Priv Timer) (d : @Data c_float csc).
Implicit Types (a b v e lA uA l u : list c_float) (g : Settings).

(** X21. [osqp_update_lin_cost] always returns 0. It replaces the whole
    linear cost by the new vector, multiplied by [D] when the scaling test
    holds, and changes nothing else: the matrices, the bounds, the
    dimensions, and every other field of the workspace (the private
    structure of the linear-system solver among them) stay as they are. *)
Theorem lin_cost_update_effect w d q g e v :
  cost_ready w d q →
  scaling_ready settings w g sc_D e (d_n d) →
  length v = Z.to_nat (d_n d) →
  ∃ w' d',
    osqp_update_lin_cost settings (Some v) w = Done 0 w' [] ∧
    w_data w' = Some d' ∧
    d_q d' = Some (rescale (truthy (s_scaling g)) e v) ∧
    d' = set_d_q (d_q d') d ∧
    w' = set_w_data (w_data w') w.
Proof.
  intros Hc Hs Hv.
  rewrite (osqp_update_lin_cost_run settings w d q g e v Hc Hs Hv).
  by eexists _, _.
Qed.

(** X22. The two bound updates compose: after the lower bound and the
    upper bound have both been replaced, in either order, the workspace
    holds both new bounds and is otherwise the old one, and the flag of
    the second update tells whether the new bounds cross, whatever the
    first update returned. *)
Theorem bound_updates_compose w d lA uA g e l u :
  bounds_ready w d lA uA →
  scaling_ready settings w g sc_E e (d_m d) →
  length l = Z.to_nat (d_m d) → length u = Z.to_nat (d_m d) →
  let l' := rescale (truthy (s_scaling g)) e l in
  let u' := rescale (truthy (s_scaling g)) e u in
  let w'' := set_w_data (Some (set_d_uA (Some u') (set_d_lA (Some l') d))) w in
  ∃ (flag1 flag2 flag3 flag4 : c_int) w1 w2,
    osqp_update_lower_bound settings (Some l) w = Done flag1 w1 [] ∧
    osqp_update_upper_bound settings (Some u) w1 = Done flag2 w'' [] ∧
    osqp_update_upper_bound settings (Some u) w = Done flag3 w2 [] ∧
    osqp_update_lower_bound settings (Some l) w2 = Done flag4 w'' [] ∧
    (flag2 ≠ 0 ↔ violation l' u') ∧ (flag4 ≠ 0 ↔ violation l' u').
Proof.
  intros Hb Hs Hl Hu l' u' w''.
  pose proof Hb as (Hd & HlA & HuA & Hlenl & Hlenu).
  assert (length l' = Z.to_nat (d_m d) ∧ length u' = Z.to_nat (d_m d))
    as [Hl' Hu'].
  { subst l' u'. unfold rescale.
    destruct (truthy (s_scaling g)) eqn:Hon; [|done].
    destruct Hs as [_ (sc & _ & _ & He)]; [done|].
    rewrite !length_zip_with. lia. }
  destruct (osqp_update_lower_bound_run settings w d lA uA g e l Hb Hs Hl)
    as (flag1 & Hrun1 & _ & _).
  destruct (osqp_update_upper_bound_run settings w d lA uA g e u Hb Hs Hu)
    as (flag3 & Hrun2 & _ & _).
  fold l' in Hrun1. fold u' in Hrun2.
  set (w1 := set_w_data (Some (set_d_lA (Some l') d)) w) in *.
  set (w2 := set_w_data (Some (set_d_uA (Some u') d)) w) in *.
  assert (bounds_ready w1 (set_d_lA (Some l') d) l' uA) as Hb1
    by by split_and!.
  assert (bounds_ready w2 (set_d_uA (Some u') d) lA u') as Hb2
    by by split_and!.
  destruct (osqp_update_upper_bound_run settings w1 _ l' uA g e u Hb1 Hs Hu)
    as (flag2 & Hrun3 & H01 & Hflag2).
  destruct (osqp_update_lower_bound_run settings w2 _ lA u' g e l Hb2 Hs Hl)
    as (flag4 & Hrun4 & H01' & Hflag4).
  exists flag1, flag2, flag3, flag4, w1, w2.
  split_and!; [done|exact Hrun3|done|exact Hrun4| |].
  - by apply flag_nonzero.
  - by apply flag_nonzero.
Qed.

(** X23. For a problem without constraints the bound updates return 0 and
    leave the workspace as it is, whatever vector they are given, a null
    one included: no cell is copied or compared. *)
Theorem bound_update_without_constraints w d g (v : vec) :
  w_data w = Some d → d_m d ≤ 0 →
  settings = Some g →
  (s_scaling g ≠ 0 → is_Some (w_scaling w)) →
  osqp_update_lower_bound settings v w = Done 0 w [] ∧
  osqp_update_upper_bound settings v w = Done 0 w [].
Proof.
  intros Hd Hm%Z.leb_le -> Hsc.
  assert (set_w_data (Some (set_d_lA (d_lA d) d)) w = w) as Hwl.
  { destruct w, d. simpl in *. by rewrite Hd. }
  assert (set_w_data (Some (set_d_uA (d_uA d) d)) w = w) as Hwu.
  { destruct w, d. simpl in *. by rewrite Hd. }
  assert (truthy (s_scaling g) = true → ∃ sc, w_scaling w = Some sc) as Hsc'.
  { intros Hon%truthy_true. by apply Hsc. }
  split.
  - cut (wp False (osqp_update_lower_bound (Some g) v) w
           (λ flag w' t, flag = 0 ∧ w' = w ∧ t = [])).
    { rewrite wp_done. by intros (flag & w' & t & -> & -> & -> & ->). }
    unfold osqp_update_lower_bound, prea_vec_copy, vec_ew_prod, check_bounds.
    wp_run. rewrite Hm. wp_run.
    destruct (truthy (s_scaling g)) eqn:Hon.
    + destruct (Hsc' eq_refl) as [sc Hwsc]. wp_run.
      cbn [d_m d_lA set_d_lA]. rewrite Hm. wp_run.
      cbn [d_m d_lA set_d_lA]. rewrite Hm. wp_run. by rewrite Hwl.
    + wp_run. cbn [d_m d_lA set_d_lA]. rewrite Hm. wp_run. by rewrite Hwl.
  - cut (wp False (osqp_update_upper_bound (Some g) v) w
           (λ flag w' t, flag = 0 ∧ w' = w ∧ t = [])).
    { rewrite wp_done. by intros (flag & w' & t & -> & -> & -> & ->). }
    unfold osqp_update_upper_bound, prea_vec_copy, vec_ew_prod, check_bounds.
    wp_run. rewrite Hm. wp_run.
    destruct (truthy (s_scaling g)) eqn:Hon.
    + destruct (Hsc' eq_refl) as [sc Hwsc]. wp_run.
      cbn [d_m d_uA set_d_uA]. rewrite Hm. wp_run.
      cbn [d_m d_uA set_d_uA]. rewrite Hm. wp_run. by rewrite Hwu.
    + wp_run. cbn [d_m d_uA set_d_uA]. rewrite Hm. wp_run. by rewrite Hwu.
Qed.

End UpdatesMore.

(** ** Bounds that are not numbers (binary64) *)

Lemma is_nan_spec (x : float) : is_nan x = true ↔ Prim2SF x = S754_nan.
Proof.
  unfold is_nan. rewrite FloatAxioms.eqb_spec. unfold SFeqb.
  destruct (Prim2SF x) as [sx|sx| |sx mx ex]; simpl.
  - split; discriminate.
  - destruct sx; split; discriminate.
  - done.
  - rewrite Z.compare_refl, Pos.compare_cont_refl.
    destruct sx; split; discriminate.
Qed.

(** A NaN is neither above nor below anything. *)
Lemma nan_not_above (x y : float) :
  is_nan x = true → c_gt x y = false ∧ c_gt y x = false.
Proof.
  intros Hx%is_nan_spec. unfold c_gt. simpl. rewrite !ltb_spec.
  unfold SFltb. rewrite Hx. by destruct (Prim2SF y).
Qed.

(** The product of a NaN and anything is a NaN. *)
Lemma nan_mul (x y : float) : is_nan x = true → is_nan (x * y) = true.
Proof.
  rewrite !is_nan_spec, FloatAxioms.mul_spec. by intros ->.
Qed.

Section NotANumber.
Context {csc Priv Timer : Type}.
Variable settings : option Settings.
Implicit Types (w : @Work float csc Priv Timer) (d : @Data float csc).
Implicit Types (v e lA uA : list float) (g : Settings).

Lemma rescale_nan (on : bool) e v :
  Forall (λ x, is_nan x = true) v →
  Forall (λ x, is_nan x = true) (rescale on e v).
Proof.
  intros Hv. destruct on; [|done]. simpl.
  apply Forall_lookup. intros i x Hx. rewrite lookup_zip_with in Hx.
  destruct (v !! i) as [vi|] eqn:Hvi; [|done].
  destruct (e !! i) as [ei|]; [|done]. injection Hx as <-.
  apply nan_mul. by apply (proj1 (Forall_lookup _ _) Hv i).
Qed.

(** X24. On binary64, a new bound whose cells are all NaN is never
    refused: both bound updates store it (its cells, multiplied by [E] or
    not, are NaN) in place of the old bound and return 0, because every
    comparison with a NaN is false. *)
Theorem nan_bound_accepted w d lA uA g e v :
  bounds_ready w d lA uA →
  scaling_ready settings w g sc_E e (d_m d) →
  length v = Z.to_nat (d_m d) →
  Forall (λ x, is_nan x = true) v →
  Forall (λ x, is_nan x = true) (rescale (truthy (s_scaling g)) e v) ∧
  osqp_update_lower_bound settings (Some v) w
  = Done 0
      (set_w_data
         (Some (set_d_lA (Some (rescale (truthy (s_scaling g)) e v)) d)) w)
      [] ∧
  osqp_update_upper_bound settings (Some v) w
  = Done 0
      (set_w_data
         (Some (set_d_uA (Some (rescale (truthy (s_scaling g)) e v)) d)) w)
      [].
Proof.
  intros Hb Hs Hv Hnan.
  pose proof (rescale_nan (truthy (s_scaling g)) e v Hnan) as Hnan'.
  split_and!; [done| |].
  - destruct (osqp_update_lower_bound_run settings w d lA uA g e v Hb Hs Hv)
      as (flag & Hrun & [->| ->] & Hflag); [done|].
    destruct (proj1 Hflag eq_refl) as (i & x & y & Hx & _ & Hgt).
    pose proof (proj1 (Forall_lookup _ _) Hnan' i x Hx) as Hxnan.
    destruct (nan_not_above x y Hxnan) as [Hno _]. congruence.
  - destruct (osqp_update_upper_bound_run settings w d lA uA g e v Hb Hs Hv)
      as (flag & Hrun & [->| ->] & Hflag); [done|].
    destruct (proj1 Hflag eq_refl) as (i & x & y & _ & Hy & Hgt).
    pose proof (proj1 (Forall_lookup _ _) Hnan' i y Hy) as Hynan.
    destruct (nan_not_above y x Hynan) as [_ Hno]. congruence.
Qed.

End NotANumber.

(** ** The further properties on the reference configuration *)

Lemma ref_scale_data_keeps_dims :
  scale_data_keeps_dims (collab := ref_collaborators).
Proof.
  intros w d Hd. unfold scale_data. simpl. unfold ref_scale_data.
  rewrite Hd. by eexists.
Qed.

Lemma ref_scale_data_keeps_blocks :
  scale_data_keeps_blocks (collab := ref_collaborators).
Proof.
  intros w. unfold scale_data. simpl. unfold ref_scale_data.
  destruct (w_data w) as [d|] eqn:Hd; simpl; rewrite ?Hd; by split_and!.
Qed.

(** X1 on a null [data]: the result is null and nothing was requested. *)
Lemma setup_null_result_witness :
  (validate_data (Collaborators := ref_collaborators) None ≠ 0 ∨
   validate_settings (Collaborators := ref_collaborators) (Some s2_settings)
   ≠ 0) ∧
  0%nat = 0%nat.
Proof.
  apply (setup_null_result (build := ref_build) (collab := ref_collaborators)
           (allocator := ref_allocator) None (Some s2_settings) 0%nat 0%nat
           [EvPrint ("ERROR: Data validation returned failure!" +:+ endl)]).
  reflexivity.
Defined.

(** X2 on S2 with the allocator that refuses the workspace. *)
Lemma setup_allocation_failures_witness :
  match osqp_setup (build := ref_build) (collab := ref_collaborators)
          (allocator := ref_allocator_short) (Some s2_data)
          (Some s2_settings) 0%nat with
  | Done r _ t =>
      is_Some r ∧ ∀ o c, EvAlloc o c false ∈ t → is_struct o = false
  | Abort why t =>
      why = NullDeref ∧ ∃ o, is_struct o = true ∧ EvAlloc o 1 false ∈ t
  end.
Proof.
  apply (setup_allocation_failures (build := ref_build)
           (collab := ref_collaborators) (allocator := ref_allocator_short)
           (Some s2_data) (Some s2_settings) s2_data s2_settings 0%nat).
  - split_and!; [reflexivity..|by eexists].
  - apply ref_scale_data_frame.
Defined.

(** X3 on S2 with the allocator that refuses [x]: the workspace is
    returned with a null [x]. *)
Lemma setup_refused_vectors_witness :
  (w_x s2_work_no_x = None ↔ ∃ c, EvAlloc ObjX c false ∈ s2_trace_no_x) ∧
  (w_z s2_work_no_x = None ↔ ∃ c, EvAlloc ObjZ c false ∈ s2_trace_no_x) ∧
  (w_u s2_work_no_x = None ↔ ∃ c, EvAlloc ObjU c false ∈ s2_trace_no_x) ∧
  ∃ so, w_solution s2_work_no_x = Some so ∧
        (sol_x so = None ↔ ∃ c, EvAlloc ObjSolX c false ∈ s2_trace_no_x) ∧
        (sol_lambda so = None ↔
         ∃ c, EvAlloc ObjSolLambda c false ∈ s2_trace_no_x).
Proof.
  apply (setup_refused_vectors (build := ref_build)
           (collab := ref_collaborators) (allocator := ref_allocator_no_x)
           (Some s2_data) (Some s2_settings) 0%nat s2_work_no_x 19%nat
           s2_trace_no_x).
  - apply ref_scale_data_frame.
  - vm_compute. reflexivity.
Defined.

(** X4 on S1: polishing was asked for and is off; the rest is the copy. *)
Lemma setup_settings_copy_witness :
  w_settings s1_work
  = Some (if d_m s1_data =? 0 then set_s_polishing 0 s2_settings
          else s2_settings).
Proof.
  apply (setup_settings_copy (build := ref_build)
           (collab := ref_collaborators) (allocator := ref_allocator)
           (Some s1_data) (Some s2_settings) s1_data s2_settings 0%nat
           s1_work 19%nat s1_trace).
  - reflexivity.
  - reflexivity.
  - intros w0. apply ref_scale_data_frame.
  - vm_compute. reflexivity.
Defined.

(** X5 on S2 with scaling off. *)
Lemma setup_scaling_choice_witness :
  (EvScaleData ∈ s2_trace_unscaled ↔ s_scaling unscaled_settings ≠ 0) ∧
  (s_scaling unscaled_settings = 0 →
   w_scaling s2_work_unscaled = OSQP_NULL ∧
   w_data s2_work_unscaled
   = Some {| d_n := d_n s2_data;
             d_m := d_m s2_data;
             d_P := csc_to_triu (Collaborators := ref_collaborators)
                      (d_P s2_data);
             d_q := vec_copy (Collaborators := ref_collaborators)
                      (d_q s2_data) (d_n s2_data);
             d_A := copy_csc_mat (Collaborators := ref_collaborators)
                      (d_A s2_data);
             d_lA := vec_copy (Collaborators := ref_collaborators)
                       (d_lA s2_data) (d_m s2_data);
             d_uA := vec_copy (Collaborators := ref_collaborators)
                       (d_uA s2_data) (d_m s2_data) |}).
Proof.
  apply (setup_scaling_choice (build := ref_build)
           (collab := ref_collaborators) (allocator := ref_allocator)
           (Some s2_data) (Some unscaled_settings) s2_data unscaled_settings
           0%nat s2_work_unscaled 19%nat s2_trace_unscaled).
  - reflexivity.
  - reflexivity.
  - vm_compute. reflexivity.
Defined.

(** X6 on S2. *)
Lemma setup_linear_system_witness :
  ∃ d, w_data s2_work = Some d ∧
       w_priv s2_work
       = init_priv (Collaborators := ref_collaborators) (d_P d) (d_A d)
           (w_settings s2_work) 0.
Proof.
  apply (setup_linear_system (build := ref_build)
           (collab := ref_collaborators) (allocator := ref_allocator)
           (Some s2_data) (Some s2_settings) 0%nat s2_work 19%nat s2_trace).
  vm_compute. reflexivity.
Defined.

(** X7 on S2: nineteen requests, profiling compiled in. *)
Lemma setup_requests_witness :
  requests s2_trace
  = [(ObjWork, 1)] ++
    (if 0 <? PROFILING (Build := ref_build) then [(ObjTimer, 1)] else []) ++
    [(ObjData, 1); (ObjX, d_n s2_data + d_m s2_data);
     (ObjZ, d_n s2_data + d_m s2_data); (ObjU, d_m s2_data);
     (ObjZPrev, d_n s2_data + d_m s2_data); (ObjDuaResN, d_n s2_data);
     (ObjDuaResM, d_m s2_data);
     (ObjPol, 1); (ObjIndLAct, d_m s2_data); (ObjIndUAct, d_m s2_data);
     (ObjA2Ared, d_m s2_data); (ObjPolX, d_n s2_data);
     (ObjPolAx, d_m s2_data);
     (ObjSolution, 1); (ObjSolX, d_n s2_data); (ObjSolLambda, d_m s2_data);
     (ObjInfo, 1)] ∧
  19%nat = (0 + length (requests s2_trace))%nat.
Proof.
  apply (setup_requests (build := ref_build) (collab := ref_collaborators)
           (allocator := ref_allocator) (Some s2_data) (Some s2_settings)
           s2_data 0%nat s2_work 19%nat s2_trace).
  - reflexivity.
  - apply ref_scale_data_keeps_dims.
  - vm_compute. reflexivity.
Defined.

(** X8 on S2. *)
Lemma setup_timing_witness :
  ∃ i, w_info s2_work = Some i ∧ info_iter i = 0 ∧
       info_solve_time i = c_zero ∧ info_polish_time i = c_zero ∧
       info_run_time i = c_zero ∧
       List.filter is_timing s2_trace
       = (if 0 <? PROFILING (Build := ref_build) then [EvTic; EvToc]
          else []) ∧
       if 0 <? PROFILING (Build := ref_build)
       then ∃ t0, w_timer s2_work
                  = Some (tic (Collaborators := ref_collaborators) t0) ∧
                  info_setup_time i
                  = toc (Collaborators := ref_collaborators)
                      (tic (Collaborators := ref_collaborators) t0)
       else w_timer s2_work = OSQP_NULL ∧ info_setup_time i = c_zero.
Proof.
  apply (setup_timing (build := ref_build) (collab := ref_collaborators)
           (allocator := ref_allocator) (Some s2_data) (Some s2_settings)
           0%nat s2_work 19%nat s2_trace).
  - intros w0. apply ref_scale_data_frame.
  - vm_compute. reflexivity.
Defined.

(** X9 on S2: verbose, the header is printed. *)
Lemma setup_output_witness :
  (∀ msg, EvPrint msg ∉ s2_trace) ∧
  (EvPrintSetupHeader ∈ s2_trace ↔
   1 < PRINTLEVEL (Build := ref_build) ∧
   ∃ s, w_settings s2_work = Some s ∧ s_verbose s ≠ 0).
Proof.
  apply (setup_output (build := ref_build) (collab := ref_collaborators)
           (allocator := ref_allocator) (Some s2_data) (Some s2_settings)
           0%nat s2_work 19%nat s2_trace).
  - intros w0. apply ref_scale_data_frame.
  - vm_compute. reflexivity.
Defined.

(** X11 on the workspace of S2. *)
Lemma cleanup_release_order_witness :
  NoDup (released_block <$> s2_released) ∧
  (∀ l1 b l2 o, released_block <$> s2_released = l1 ++ b :: l2 →
                owner_of b = Some o → o ∈ l2) ∧
  last s2_released = Some (CFree BlkWork true).
Proof.
  apply (cleanup_release_order (build := ref_build) (Some s2_work)
           s2_released).
  vm_compute. reflexivity.
Defined.

(** X12 on S2: every block granted to [osqp_setup] is freed once. *)
Lemma cleanup_releases_setup_witness :
  ∃ log, osqp_cleanup (build := ref_build) (Some s2_work) [] = Done 0 log [] ∧
         ∀ o, times_freed (block_of o) log
              = if granted o s2_trace then 1%nat else 0%nat.
Proof.
  apply (cleanup_releases_setup (build := ref_build)
           (collab := ref_collaborators) (allocator := ref_allocator)
           (Some s2_data) (Some s2_settings) s2_settings s2_settings 0%nat
           s2_work 19%nat s2_trace).
  - reflexivity.
  - reflexivity.
  - reflexivity.
  - apply ref_scale_data_keeps_blocks.
  - vm_compute. reflexivity.
Defined.

(** X13 on S2: warm start is off, [cold_start] is called once. *)
Lemma solve_cold_start_witness :
  ∃ w' t rs,
    osqp_solve (build := ref_build) (collab := ref_collaborators) 10 s2_work
    = Done 0 w' t ∧
    List.filter (λ e, is_cold_start e || is_admm_step e) t
    = (if truthy (s_warm_start s2_settings) then [] else [EvColdStart]) ++
      admm_trace 0 rs.
Proof.
  apply (solve_cold_start (build := ref_build) (collab := ref_collaborators)
           10 s2_work s2_settings).
  - apply ref_solve_contract.
  - apply s2_work_solve_ready.
  - reflexivity.
  - simpl. lia.
Defined.

(** X14 on S2. *)
Lemma solve_printing_witness :
  ∃ w' t,
    osqp_solve (build := ref_build) (collab := ref_collaborators) 10 s2_work
    = Done 0 w' t ∧
    (EvPrintHeader ∈ t ↔
     1 < PRINTLEVEL (Build := ref_build) ∧ s_verbose s2_settings ≠ 0) ∧
    (EvPrintSummary ∈ t →
     1 < PRINTLEVEL (Build := ref_build) ∧ s_verbose s2_settings ≠ 0) ∧
    (EvPrintFooter ∈ t ↔ 0 < PRINTLEVEL (Build := ref_build)).
Proof.
  apply (solve_printing (build := ref_build) (collab := ref_collaborators)
           10 s2_work s2_settings).
  - apply ref_solve_contract.
  - apply s2_work_solve_ready.
  - reflexivity.
  - simpl. lia.
Defined.

(** X15 on S2. *)
Lemma solve_stores_last_witness :
  ∃ w2 t0,
    osqp_solve (build := ref_build) (collab := ref_collaborators) 10 s2_work
    = Done 0 (store_solution (Collaborators := ref_collaborators) w2)
        (t0 ++ [EvStoreSolution]) ∧
    EvStoreSolution ∉ t0.
Proof.
  apply (solve_stores_last (build := ref_build) (collab := ref_collaborators)
           10 s2_work s2_settings).
  - apply ref_solve_contract.
  - apply s2_work_solve_ready.
  - reflexivity.
  - simpl. lia.
Defined.

(** X16 on S2. *)
Lemma solve_run_time_witness :
  ∃ w3 i3 t,
    w_info w3 = Some i3 ∧
    osqp_solve (build := ref_build) (collab := ref_collaborators) 10 s2_work
    = Done 0
        (store_solution (Collaborators := ref_collaborators)
           (set_w_info
              (Some (set_info_run_time
                       (c_add (c_add (info_setup_time i3)
                                     (info_solve_time i3))
                              (info_polish_time i3)) i3)) w3)) t.
Proof.
  apply (solve_run_time (build := ref_build) (collab := ref_collaborators)
           10 s2_work s2_settings).
  - apply ref_solve_contract.
  - apply s2_work_solve_ready.
  - reflexivity.
  - simpl. lia.
  - reflexivity.
Defined.

(** X19 on S2: the check passes in iteration 1, whose summary is printed
    after the loop. *)
Lemma solve_summary_at_convergence_witness :
  ∃ w' t,
    osqp_solve (build := ref_build) (collab := ref_collaborators) 10 s2_work
    = Done 0 w' t ∧
    ∀ t1 k t2 r,
      t = t1 ++ EvUpdateInfo k 0 :: t2 →
      List.filter is_update_info t2 = [] →
      EvResidualsCheck r ∈ t2 → r ≠ 0 →
      List.filter is_print_summary t2 = [EvPrintSummary].
Proof.
  apply (solve_summary_at_convergence (build := ref_build)
           (collab := ref_collaborators) 10 s2_work s2_settings).
  - apply ref_solve_contract.
  - apply s2_work_solve_ready.
  - reflexivity.
  - simpl. lia.
  - reflexivity.
  - discriminate.
Defined.

(** X20 on S2. *)
Lemma setup_then_solve_witness :
  ∃ w h' t w' t',
    osqp_setup (build := ref_build) (collab := ref_collaborators)
      (allocator := ref_allocator) (Some s2_data) (Some s2_settings) 0%nat
    = Done (Some w) h' t ∧
    solve_ready (build := ref_build) w ∧
    osqp_solve (build := ref_build) (collab := ref_collaborators) 10 w
    = Done 0 w' t'.
Proof.
  apply (setup_then_solve (build := ref_build) (collab := ref_collaborators)
           (allocator := ref_allocator) (Some s2_data) (Some s2_settings)
           s2_data s2_settings s2_settings 0%nat 10%nat).
  - split_and!; [reflexivity..|by eexists].
  - reflexivity.
  - apply ref_scale_data_keeps_blocks.
  - apply ref_scale_data_keeps_dims.
  - reflexivity.
  - apply ref_solve_contract.
  - simpl. lia.
Defined.

(** X21 on the workspace of S2, scaled by D = 2: the cost 3 is stored as
    6. *)
Lemma lin_cost_update_effect_witness :
  ∃ w' d',
    osqp_update_lin_cost (Some s2_settings) (Some [3%float]) s2_work
    = Done 0 w' [] ∧
    w_data w' = Some d' ∧
    d_q d' = Some (rescale (truthy (s_scaling s2_settings)) [2%float]
                     [3%float]) ∧
    d' = set_d_q (d_q d') s2_scaled_data ∧
    w' = set_w_data (w_data w') s2_work.
Proof.
  apply (lin_cost_update_effect (Some s2_settings) s2_work s2_scaled_data
           [0%float] s2_settings [2%float] [3%float]).
  - by split_and!.
  - split; [done|]. intros _. by exists s2_scaling.
  - reflexivity.
Defined.

(** X22 on the workspace of S2: the bounds are moved to [10, 20]; the
    lower bound first is refused, then accepted with the upper bound. *)
Lemma bound_updates_compose_witness :
  ∃ (flag1 flag2 flag3 flag4 : c_int) w1 w2,
    osqp_update_lower_bound (Some s2_settings) (Some [10%float]) s2_work
    = Done flag1 w1 [] ∧
    osqp_update_upper_bound (Some s2_settings) (Some [20%float]) w1
    = Done flag2
        (set_w_data
           (Some (set_d_uA
                    (Some (rescale (truthy (s_scaling s2_settings))
                             [0.5%float] [20%float]))
                    (set_d_lA
                       (Some (rescale (truthy (s_scaling s2_settings))
                                [0.5%float] [10%float]))
                       s2_scaled_data))) s2_work) [] ∧
    osqp_update_upper_bound (Some s2_settings) (Some [20%float]) s2_work
    = Done flag3 w2 [] ∧
    osqp_update_lower_bound (Some s2_settings) (Some [10%float]) w2
    = Done flag4
        (set_w_data
           (Some (set_d_uA
                    (Some (rescale (truthy (s_scaling s2_settings))
                             [0.5%float] [20%float]))
                    (set_d_lA
                       (Some (rescale (truthy (s_scaling s2_settings))
                                [0.5%float] [10%float]))
                       s2_scaled_data))) s2_work) [] ∧
    (flag2 ≠ 0 ↔
     violation (rescale (truthy (s_scaling s2_settings)) [0.5%float]
                  [10%float])
               (rescale (truthy (s_scaling s2_settings)) [0.5%float]
                  [20%float])) ∧
    (flag4 ≠ 0 ↔
     violation (rescale (truthy (s_scaling s2_settings)) [0.5%float]
                  [10%float])
               (rescale (truthy (s_scaling s2_settings)) [0.5%float]
                  [20%float])).
Proof.
  apply (bound_updates_compose (Some s2_settings) s2_work s2_scaled_data
           [0.5%float] [1.5%float] s2_settings [0.5%float] [10%float]
           [20%float]).
  - by split_and!.
  - split; [done|]. intros _. by exists s2_scaling.
  - reflexivity.
  - reflexivity.
Defined.

(** X23 on the workspace of S1, which has no constraint, with a null
    vector. *)
Lemma bound_update_without_constraints_witness :
  osqp_update_lower_bound (Some s2_settings) None s1_work = Done 0 s1_work [] ∧
  osqp_update_upper_bound (Some s2_settings) None s1_work = Done 0 s1_work [].
Proof.
  apply (bound_update_without_constraints (Some s2_settings) s1_work
           s1_scaled_data s2_settings None).
  - reflexivity.
  - vm_compute. discriminate.
  - reflexivity.
  - intros _. by eexists.
Defined.

(** X24 on the workspace of S2: the bound NaN is stored and accepted. *)
Lemma nan_bound_accepted_witness :
  Forall (λ x, is_nan x = true)
    (rescale (truthy (s_scaling s2_settings)) [0.5%float] [nan]) ∧
  osqp_update_lower_bound (Some s2_settings) (Some [nan]) s2_work
  = Done 0
      (set_w_data
         (Some (set_d_lA
                  (Some (rescale (truthy (s_scaling s2_settings))
                           [0.5%float] [nan])) s2_scaled_data)) s2_work)
      [] ∧
  osqp_update_upper_bound (Some s2_settings) (Some [nan]) s2_work
  = Done 0
      (set_w_data
         (Some (set_d_uA
                  (Some (rescale (truthy (s_scaling s2_settings))
                           [0.5%float] [nan])) s2_scaled_data)) s2_work)
      [].
Proof.
  apply (nan_bound_accepted (Some s2_settings) s2_work s2_scaled_data
           [0.5%float] [1.5%float] s2_settings [0.5%float] [nan]).
  - by split_and!.
  - split; [done|]. intros _. by exists s2_scaling.
  - reflexivity.
  - by repeat constructor.
Defined.

(** X25 on S2 with warm start on and [z] refused. *)
Lemma solve_on_null_iterate_witness :
  ∃ t, osqp_solve (build := ref_build) (collab := ref_collaborators) 10
         s2_work_no_z = Abort NullDeref t ∧
       List.filter is_admm_step t = [EvPreaVecCopy].
Proof.
  apply (solve_on_null_iterate (build := ref_build)
           (collab := ref_collaborators) 9 s2_work_no_z warm_settings
           s2_scaled_data).
  - reflexivity.
  - reflexivity.
  - intros _. by eexists.
  - simpl. lia.
  - simpl. lia.
  - simpl. lia.
  - reflexivity.
Defined.
